(** * nss-pam-ldapd: the daemon-side PAM request handlers (nslcd/pam.c)
      and the shared helpers of nslcd/common.c

    A shallow embedding of the C code.  C strings are [string]s, the
    bytes on the control channel are [list byte], C [int]s and status
    codes are [Z].  The handlers run in a small state monad over the
    stream and the trace of calls made so far; what the directory, the
    template expander and the C library answer is a parameter.
    [log_log] only writes to the log and is left out, and so are
    [free], [dict_free] and [autzsearch_vars_free]. *)

From stdpp Require Import base strings gmap list.
From Stdlib Require Import ZArith Lia Strings.Byte Strings.String Strings.Ascii.
Import ListNotations.
Open Scope Z_scope.

(** ** C characters and strings *)

(** A [char] of the name, as the signed value gcc gives it on Linux. *)
Definition char_val (c : ascii) : Z :=
  let n := Z.of_N (N_of_ascii c) in
  if n <? 128 then n else n - 256.

Definition char_ge (c d : ascii) : bool := char_val d <=? char_val c.
Definition char_le (c d : ascii) : bool := char_val c <=? char_val d.
Definition char_eq (c d : ascii) : bool := char_val c =? char_val d.

(** [strlen] as a C integer. *)
Definition strlen (s : string) : Z := Z.of_nat (String.length s).

(** [s[0]=='\0'] *)
Definition is_empty (s : string) : bool :=
  match s with EmptyString => true | String _ _ => false end.

(** ** common.c: isvalidname *)

Section NameValidator.

(** The platform's [LOGIN_NAME_MAX], [None] where <limits.h> does not
    define it (the [#ifdef] of the loop). *)
Variable LOGIN_NAME_MAX : option nat.

(** The [for] loop of [isvalidname], entered at index [i] with [name]
    the characters from [name[i]] on; [name[i+1]] is the head of [rest]. *)
Fixpoint isvalidname_loop (i : nat) (name : string) : Z :=
  match name with
  | EmptyString => -1
  | String c rest =>
      if match LOGIN_NAME_MAX with
         | Some m => (m <=? i)%nat
         | None => false
         end
      then 0
      else if (char_ge c "@" && char_le c "Z")
              || (char_ge c "a" && char_le c "z")
              || (char_ge c "0" && char_le c "9")
              || char_eq c "." || char_eq c "_" || char_eq c "$"
      then isvalidname_loop (S i) rest
      else if (0 <? i)%nat && (char_eq c "-" || char_eq c "~")
      then isvalidname_loop (S i) rest
      else if ((0 <? i)%nat && negb (is_empty rest))
              && (char_eq c "\" || char_eq c " ")
      then isvalidname_loop (S i) rest
      else 0
  end.

(** [int isvalidname(const char *name)]; [None] is the NULL pointer. *)
Definition isvalidname (name : option string) : Z :=
  match name with
  | None => 0
  | Some EmptyString => 0
  | Some s => isvalidname_loop 0 s
  end.

End NameValidator.

(** The words of the specification: the characters a name may contain. *)
Definition name_alphabet : list ascii :=
  list_ascii_of_string
    "@ABCDEFGHIJKLMNOPQRSTUVWXYZabcdefghijklmnopqrstuvwxyz0123456789._$-~\ ".

Definition in_alphabet (c : ascii) : bool :=
  existsb (Ascii.eqb c) name_alphabet.

Definition first_char (s : string) : option ascii :=
  match s with EmptyString => None | String c _ => Some c end.

Fixpoint last_char (s : string) : option ascii :=
  match s with
  | EmptyString => None
  | String c EmptyString => Some c
  | String _ rest => last_char rest
  end.

Definition is_one_of (cs : list ascii) (o : option ascii) : bool :=
  match o with None => false | Some c => existsb (Ascii.eqb c) cs end.

Definition exceeds (bound : option nat) (s : string) : bool :=
  match bound with Some m => (m <? String.length s)%nat | None => false end.

(** The rejection conditions, as the specification lists them. *)
Definition name_rejected (bound : option nat) (s : string) : bool :=
  is_empty s
  || negb (forallb in_alphabet (list_ascii_of_string s))
  || is_one_of ["-"; "~"; "\"; " "]%char (first_char s)
  || is_one_of ["\"; " "]%char (last_char s)
  || exceeds bound s.

(** [strcmp], on the unsigned character codes, as -1, 0 or 1. *)
Definition strcmp (a b : string) : Z :=
  match String.compare a b with Eq => 0 | Lt => -1 | Gt => 1 end.

(** [tolower] in the C locale. *)
Definition tolower (c : ascii) : ascii :=
  let n := N_of_ascii c in
  if ((65 <=? n) && (n <=? 90))%N then ascii_of_N (n + 32) else c.

Fixpoint lowercase (s : string) : string :=
  match s with
  | EmptyString => EmptyString
  | String c rest => String (tolower c) (lowercase rest)
  end.

Definition strcasecmp (a b : string) : Z := strcmp (lowercase a) (lowercase b).

(** [strncasecmp(a,b,n)==0]: the first [n] characters agree up to case
    (a string that ends earlier ends both). *)
Definition strncasecmp_eq (a b : string) (n : nat) : bool :=
  String.eqb (lowercase (substring 0 n a)) (lowercase (substring 0 n b)).

(** [s[n]], with ['\0'] at the terminator. *)
Definition char_at (s : string) (n : nat) : ascii :=
  match String.get n s with Some c => c | None => zero end.

(** [strchr(s,c)!=NULL] *)
Definition has_char (c : ascii) (s : string) : bool :=
  existsb (Ascii.eqb c) (list_ascii_of_string s).

(** ** Result codes *)

(** The result codes of <ldap.h> that pam.c names. *)
Definition LDAP_SUCCESS : Z := 0.
Definition LDAP_INVALID_SYNTAX : Z := 21.
Definition LDAP_NO_SUCH_OBJECT : Z := 32.
Definition LDAP_INVALID_CREDENTIALS : Z := 49.
Definition LDAP_UNAVAILABLE : Z := 52.
Definition LDAP_LOCAL_ERROR : Z := -2.
Definition LDAP_NO_RESULTS_RETURNED : Z := -14.
Definition LDAP_SCOPE_BASE : Z := 0.
Definition LDAP_SCOPE_SUBTREE : Z := 2.

(** Modelled from the spec: the protocol constants of nslcd.h, which is
    not among the sources.  The specification names them as the version
    tag, the operation tags, the begin and end markers of a result record
    and the coarse status codes; the numbers are those of the protocol
    header of this release. *)
Definition NSLCD_VERSION : Z := 1.
Definition NSLCD_ACTION_PAM_AUTHC : Z := 20001.
Definition NSLCD_ACTION_PAM_AUTHZ : Z := 20002.
Definition NSLCD_ACTION_PAM_PWMOD : Z := 20005.
Definition NSLCD_RESULT_BEGIN : Z := 0.
Definition NSLCD_RESULT_END : Z := 3.
Definition NSLCD_PAM_SUCCESS : Z := 0.
Definition NSLCD_PAM_PERM_DENIED : Z := 6.
Definition NSLCD_PAM_AUTH_ERR : Z := 7.
Definition NSLCD_PAM_AUTHINFO_UNAVAIL : Z := 9.

(** Address families of <sys/socket.h> on Linux. *)
Definition AF_INET : Z := 2.
Definition AF_INET6 : Z := 10.

(** ** The stream *)

(** [(int32_t)(i)] *)
Definition to_int32 (z : Z) : Z := (z + 2^31) mod 2^32 - 2^31.

(** [(size_t)(i)] on an LP64 platform. *)
Definition to_size_t (z : Z) : Z := z mod 2^64.

Definition byte_of_Z (z : Z) : byte :=
  match Byte.of_N (Z.to_N (z mod 256)) with
  | Some b => b
  | None => "000"%byte
  end.

Definition Z_of_byte (b : byte) : Z := Z.of_N (Byte.to_N b).

(** Modelled from the spec: the typed reads and writes of nslcd-prot.h
    and common.h (WRITE_INT32, WRITE_STRING, WRITE_TYPE, READ_INT32,
    READ_STRING, READ), which are not among the sources.  An integer is
    32 bits wide in a defined byte order, taken to be network order as
    for the address bytes; a string is its length followed by its bytes
    without a terminator; a read fails the enclosing function with -1
    when the stream ends early or the declared length is negative or
    does not fit the destination; a write is appended to the buffer of
    the stream. *)
Definition int32_bytes (v : Z) : list byte :=
  let u := v mod 2^32 in
  [byte_of_Z (u / 2^24); byte_of_Z (u / 2^16); byte_of_Z (u / 2^8); byte_of_Z u].

(** Modelled from the spec: the integer four bytes of the stream stand
    for, the inverse of [int32_bytes]. *)
Definition int32_of_bytes (bs : list byte) : Z :=
  match bs with
  | [a; b; c; d] =>
      to_int32 (Z_of_byte a * 2^24 + Z_of_byte b * 2^16 + Z_of_byte c * 2^8 + Z_of_byte d)
  | _ => 0
  end.

(** One write on the stream. *)
Inductive wr : Type :=
| WR_INT32 (v : Z)
| WR_BYTES (bs : list byte).

Definition wr_bytes (x : wr) : list byte :=
  match x with
  | WR_INT32 v => int32_bytes v
  | WR_BYTES bs => bs
  end.

(** The bytes a sequence of writes puts on the channel. *)
Definition wire (ws : list wr) : list byte := flat_map wr_bytes ws.

(** The characters of a buffer up to its first ['\0']. *)
Fixpoint cstring (bs : list byte) : string :=
  match bs with
  | [] => EmptyString
  | b :: rest =>
      if Byte.eqb b "000"%byte then EmptyString
      else String (ascii_of_byte b) (cstring rest)
  end.

(** ** The directory and the host, as the code sees them *)

(** [struct ldap_config], the fields pam.c reads through [nslcd_cfg];
    [None] is the NULL pointer. *)
Record ldap_config : Type := {
  ldc_bases : list string;
  ldc_rootpwmoddn : option string;
  ldc_rootpwmodpw : option string;
  ldc_pam_authz_search : option string
}.

(** A [MYLDAP_SESSION]: which session it is and the credentials set on it. *)
Record MYLDAP_SESSION : Type := {
  session_id : nat;
  session_binddn : option string;
  session_bindpw : option string
}.

(** Search and entry handles of myldap.h. *)
Definition MYLDAP_SEARCH : Type := nat.
Definition MYLDAP_ENTRY : Type := nat.

(** [struct hostent], the fields [getfqdn] reads. *)
Record hostent : Type := {
  h_name : string;
  h_aliases : list string
}.

(** What the collaborators answer: the directory library (myldap.h), the
    lookups of passwd.c and shadow.c, the template expander (expr.h), the
    C library.  A pointer result is an [option], with [None] for NULL; a
    result code that comes back through an [int *] is paired with it. *)
Record collaborators : Type := {
  attmap_passwd_uid : string;
  HOST_NAME_MAX : Z;
  LOGIN_NAME_MAX : option nat;
  ans_create_session : nat -> bool;
  ans_search : MYLDAP_SESSION -> option string -> Z -> string -> list string
               -> option MYLDAP_SEARCH * Z;
  ans_get_entry : MYLDAP_SEARCH -> option MYLDAP_ENTRY * Z;
  ans_cpy_dn : MYLDAP_ENTRY -> string -> Z -> string;
  ans_get_rdn_value : MYLDAP_ENTRY -> string -> option string;
  ans_get_values : MYLDAP_ENTRY -> string -> option (list string);
  ans_passwd : MYLDAP_SESSION -> string -> option string -> string -> Z;
  ans_escape : string -> Z -> option string;
  ans_uid2entry : MYLDAP_SESSION -> string -> option MYLDAP_ENTRY * Z;
  ans_lookup_dn2uid : MYLDAP_SESSION -> string -> Z -> option string * Z;
  ans_update_lastchange : MYLDAP_SESSION -> string -> Z;
  ans_expr_parse : string -> Z -> (string -> option string) -> option string;
  ans_malloc : Z -> bool;
  ans_ldap_err2string : Z -> string;
  ans_gethostname : Z -> option string;
  ans_gethostbyname : string -> option hostent
}.

(** A call the code makes, with its arguments: the static helpers of
    pam.c when they are entered, and the operations on the directory. *)
Inductive call : Type :=
| call_try_bind (userdn password : string)
| call_validate_user (userdn username : string)
| call_try_autzsearch (searchfilter : string)
| call_try_pwmod (binddn userdn oldpassword newpassword : string)
| call_myldap_create_session (created : bool)
| call_myldap_set_credentials (session : nat) (dn password : string)
| call_myldap_search (session : nat) (base : option string) (scope : Z)
                     (filter : string)
| call_myldap_get_entry (search : MYLDAP_SEARCH)
| call_myldap_session_close (session : nat)
| call_myldap_passwd (session : nat) (userdn : string)
                     (oldpassword : option string) (newpassword : string)
| call_uid2entry (session : nat) (username : string)
| call_lookup_dn2uid (session : nat) (userdn : string)
| call_update_lastchange (session : nat) (userdn : string).

(** The state a handler runs in: the stream [fp] (the request bytes not
    yet read, the writes made on the response), the calls made so far in
    program order, the number of sessions created, and the
    [static char *fqdn] of [getfqdn]. *)
Record world : Type := {
  tin : list byte;
  tout : list wr;
  calls : list call;
  sessions : nat;
  fqdn : option string
}.

Definition set_tin (bs : list byte) (w : world) : world :=
  {| tin := bs; tout := tout w; calls := calls w;
     sessions := sessions w; fqdn := fqdn w |}.

Definition add_tout (x : wr) (w : world) : world :=
  {| tin := tin w; tout := tout w ++ [x]; calls := calls w;
     sessions := sessions w; fqdn := fqdn w |}.

Definition add_call (c : call) (w : world) : world :=
  {| tin := tin w; tout := tout w; calls := calls w ++ [c];
     sessions := sessions w; fqdn := fqdn w |}.

Definition new_session (w : world) : world :=
  {| tin := tin w; tout := tout w; calls := calls w;
     sessions := S (sessions w); fqdn := fqdn w |}.

Definition set_fqdn (f : option string) (w : world) : world :=
  {| tin := tin w; tout := tout w; calls := calls w;
     sessions := sessions w; fqdn := f |}.

(** ** The monad of the handlers *)

(** How a piece of C code ends: it falls through with a value, it
    executes [return r] of the enclosing function (the error exits of the
    read macros, the explicit returns of the handlers), or it
    dereferences a NULL pointer. *)
Inductive outcome (A : Type) : Type :=
| Val (a : A)
| Returned (r : Z)
| Crash.
Arguments Val {A} a.
Arguments Returned {A} r.
Arguments Crash {A}.

Definition M (A : Type) : Type := world -> outcome A * world.

Definition ret {A} (a : A) : M A := fun w => (Val a, w).

Definition bind {A B} (m : M A) (f : A -> M B) : M B :=
  fun w =>
    match m w with
    | (Val a, w') => f a w'
    | (Returned r, w') => (Returned r, w')
    | (Crash, w') => (Crash, w')
    end.

Definition return_ {A} (r : Z) : M A := fun w => (Returned r, w).
Definition crash {A} : M A := fun w => (Crash, w).
Definition record (c : call) : M unit := fun w => (Val tt, add_call c w).

Declare Scope c_scope.
Delimit Scope c_scope with c.
Notation "x <- m ;; k" := (bind m (fun x => k))
  (at level 100, m at next level, right associativity) : c_scope.
Notation "m ;; k" := (bind m (fun _ => k))
  (at level 100, right associativity) : c_scope.
Open Scope c_scope.

(** The value a C function hands to its caller: the value it falls off
    with or the one it returns early; [None] when it crashed. *)
Definition returns (x : outcome Z) : option Z :=
  match x with
  | Val r => Some r
  | Returned r => Some r
  | Crash => None
  end.

(** *** Reads and writes *)

(** Modelled from the spec: READ of nslcd-prot.h, [n] bytes off the
    stream; the enclosing function returns -1 when they are not there. *)
Definition READ (n : Z) : M (list byte) :=
  fun w =>
    if Z.of_nat (List.length (tin w)) <? n then (Returned (-1), w)
    else (Val (firstn (Z.to_nat n) (tin w)), set_tin (skipn (Z.to_nat n) (tin w)) w).

(** Modelled from the spec: READ_INT32 of nslcd-prot.h. *)
Definition READ_INT32 : M Z :=
  bs <- READ 4 ;; ret (int32_of_bytes bs).

(** Modelled from the spec: READ_STRING of nslcd-prot.h into a buffer of
    [size] bytes: the length, which with the terminator has to fit the
    buffer, then the bytes; the code after it sees the buffer as a C
    string. *)
Definition READ_STRING (size : Z) : M string :=
  tmpint32 <- READ_INT32 ;;
  if size <=? to_size_t tmpint32 then return_ (-1)
  else
    bs <- (if 0 <? tmpint32 then READ tmpint32 else ret []) ;;
    ret (cstring bs).

(** Modelled from the spec: WRITE of nslcd-prot.h; the bytes go to the
    write buffer of the stream. *)
Definition WRITE (bs : list byte) : M unit :=
  fun w => (Val tt, add_tout (WR_BYTES bs) w).

(** Modelled from the spec: WRITE_INT32 of nslcd-prot.h, which stores
    [(int32_t)(i)]. *)
Definition WRITE_INT32 (i : Z) : M unit :=
  fun w => (Val tt, add_tout (WR_INT32 (to_int32 i)) w).

(** Modelled from the spec: WRITE_STRING of nslcd-prot.h: the length,
    then the bytes when there are any. *)
Definition WRITE_STRING (str : string) : M unit :=
  WRITE_INT32 (strlen str) ;;
  if 0 <? to_int32 (strlen str) then WRITE (list_byte_of_string str) else ret tt.

Section Daemon.

(** [nslcd_cfg] and the collaborators' answers. *)
Variable cfg : ldap_config.
Variable env : collaborators.

(** *** myldap.h, passwd.c, shadow.c: each operation is recorded and
    answered by [env] *)

Definition myldap_create_session : M (option MYLDAP_SESSION) :=
  fun w =>
    if ans_create_session env (sessions w)
    then (Val (Some {| session_id := sessions w;
                       session_binddn := None;
                       session_bindpw := None |}),
          new_session (add_call (call_myldap_create_session true) w))
    else (Val None, add_call (call_myldap_create_session false) w).

Definition myldap_set_credentials (session : MYLDAP_SESSION)
    (dn password : string) : M MYLDAP_SESSION :=
  record (call_myldap_set_credentials (session_id session) dn password) ;;
  ret {| session_id := session_id session;
         session_binddn := Some dn;
         session_bindpw := Some password |}.

Definition myldap_search (session : MYLDAP_SESSION) (base : option string)
    (scope : Z) (filter : string) (attrs : list string)
    : M (option MYLDAP_SEARCH * Z) :=
  record (call_myldap_search (session_id session) base scope filter) ;;
  ret (ans_search env session base scope filter attrs).

Definition myldap_get_entry (search : MYLDAP_SEARCH)
    : M (option MYLDAP_ENTRY * Z) :=
  record (call_myldap_get_entry search) ;;
  ret (ans_get_entry env search).

Definition myldap_session_close (session : MYLDAP_SESSION) : M unit :=
  record (call_myldap_session_close (session_id session)).

Definition myldap_passwd (session : MYLDAP_SESSION) (userdn : string)
    (oldpassword : option string) (newpassword : string) : M Z :=
  record (call_myldap_passwd (session_id session) userdn oldpassword newpassword) ;;
  ret (ans_passwd env session userdn oldpassword newpassword).

Definition uid2entry (session : MYLDAP_SESSION) (username : string)
    : M (option MYLDAP_ENTRY * Z) :=
  record (call_uid2entry (session_id session) username) ;;
  ret (ans_uid2entry env session username).

Definition lookup_dn2uid (session : MYLDAP_SESSION) (userdn : string)
    (buflen : Z) : M (option string * Z) :=
  record (call_lookup_dn2uid (session_id session) userdn) ;;
  ret (ans_lookup_dn2uid env session userdn buflen).

Definition update_lastchange (session : MYLDAP_SESSION) (userdn : string)
    : M Z :=
  record (call_update_lastchange (session_id session) userdn) ;;
  ret (ans_update_lastchange env session userdn).

(** *** common.c: getfqdn *)

Definition strdup (s : string) : option string :=
  if ans_malloc env (strlen s + 1) then Some s else None.

(** The test on [h_name] and on each alias: it starts with our
    hostname, then a dot, then at least one more character. *)
Definition starts_with_hostname (hostname name : string) : bool :=
  let hostnamelen := String.length hostname in
  strncasecmp_eq hostname name hostnamelen
  && char_eq (char_at name hostnamelen) "."
  && negb (char_eq (char_at name (S hostnamelen)) zero).

Definition getfqdn : M (option string) :=
  fun w =>
    match fqdn w with
    | Some f => (Val (Some f), w)
    | None =>
        match ans_gethostname env (HOST_NAME_MAX env + 1) with
        | None => (Val None, w)
        | Some hostname =>
            let found :=
              match ans_gethostbyname env hostname with
              | None => strdup hostname
              | Some host =>
                  if starts_with_hostname hostname (h_name host)
                  then strdup (h_name host)
                  else
                    match List.find (starts_with_hostname hostname) (h_aliases host) with
                    | Some a => Some a
                    | None =>
                        if has_char "." (h_name host)
                        then strdup (h_name host)
                        else
                          match List.find (has_char ".") (h_aliases host) with
                          | Some a => strdup a
                          | None => strdup hostname
                          end
                    end
              end in
            (Val found, set_fqdn found w)
        end
    end.

(** *** pam.c *)

Definition try_bind (userdn password : string) : M Z :=
  record (call_try_bind userdn password) ;;
  session <- myldap_create_session ;;
  match session with
  | None => ret LDAP_UNAVAILABLE
  | Some session =>
      session <- myldap_set_credentials session userdn password ;;
      found <- myldap_search session (Some userdn) LDAP_SCOPE_BASE
                 "(objectClass=*)" ["dn"%string] ;;
      let '(search, rc) := found in
      rc <- match search, rc =? LDAP_SUCCESS with
            | Some search, true =>
                got <- myldap_get_entry search ;;
                let '(entry, rc) := got in
                match entry, rc =? LDAP_SUCCESS with
                | Some _, true => ret rc
                | _, _ =>
                    ret (if rc =? LDAP_SUCCESS
                         then LDAP_NO_RESULTS_RETURNED else rc)
                end
            | _, _ =>
                ret (if rc =? LDAP_SUCCESS then LDAP_LOCAL_ERROR else rc)
            end ;;
      myldap_session_close session ;;
      ret rc
  end.

(** The result is the LDAP code with the contents of the [userdn] and
    [username] buffers when the function returns. *)
Definition validate_user (session : MYLDAP_SESSION)
    (userdn : string) (userdnsz : Z) (username : string) (usernamesz : Z)
    : M (Z * string * string) :=
  record (call_validate_user userdn username) ;;
  if isvalidname (LOGIN_NAME_MAX env) (Some username) =? 0
  then ret (LDAP_NO_SUCH_OBJECT, userdn, username)
  else if is_empty userdn
  then
    found <- uid2entry session username ;;
    let '(entry, rc) := found in
    match entry with
    | None =>
        ret (if rc =? LDAP_SUCCESS then LDAP_NO_SUCH_OBJECT else rc,
             userdn, username)
    | Some entry =>
        let userdn := ans_cpy_dn env entry userdn userdnsz in
        if strcasecmp userdn "unknown" =? 0
        then ret (LDAP_NO_SUCH_OBJECT, userdn, username)
        else
          value <- match ans_get_rdn_value env entry (attmap_passwd_uid env) with
                   | Some value => ret (Some value)
                   | None =>
                       match ans_get_values env entry (attmap_passwd_uid env) with
                       | None => crash
                       | Some values => ret (List.head values)
                       end
                   end ;;
          match value with
          | None => ret (LDAP_INVALID_SYNTAX, userdn, username)
          | Some value =>
              if (isvalidname (LOGIN_NAME_MAX env) (Some value) =? 0)
                 || (usernamesz <=? strlen value)
              then ret (LDAP_INVALID_SYNTAX, userdn, username)
              else if negb (strcmp username value =? 0)
              then ret (LDAP_SUCCESS, userdn, value)
              else ret (LDAP_SUCCESS, userdn, username)
          end
    end
  else ret (LDAP_SUCCESS, userdn, username).

Definition nslcd_pam_authc (session : MYLDAP_SESSION) (calleruid : Z) : M Z :=
  username <- READ_STRING 256 ;;
  userdn <- READ_STRING 256 ;;
  servicename <- READ_STRING 64 ;;
  password <- READ_STRING 64 ;;
  WRITE_INT32 NSLCD_VERSION ;;
  WRITE_INT32 NSLCD_ACTION_PAM_AUTHC ;;
  resolved <-
    match is_empty username, ldc_rootpwmoddn cfg with
    | true, Some rootpwmoddn =>
        if 256 <=? strlen rootpwmoddn then return_ (-1)
        else
          let userdn := rootpwmoddn in
          match is_empty password && (calleruid =? 0), ldc_rootpwmodpw cfg with
          | true, Some rootpwmodpw =>
              if 64 <=? strlen rootpwmodpw then return_ (-1)
              else ret (username, userdn, rootpwmodpw)
          | _, _ => ret (username, userdn, password)
          end
    | _, _ =>
        checked <- validate_user session userdn 256 username 256 ;;
        let '(rc, userdn, username) := checked in
        if negb (rc =? LDAP_SUCCESS)
        then
          (if negb (rc =? LDAP_NO_SUCH_OBJECT)
           then
             WRITE_INT32 NSLCD_RESULT_BEGIN ;;
             WRITE_STRING username ;;
             WRITE_STRING "" ;;
             WRITE_INT32 NSLCD_PAM_AUTHINFO_UNAVAIL ;;
             WRITE_INT32 NSLCD_PAM_SUCCESS ;;
             WRITE_STRING "LDAP server unavaiable"
           else ret tt) ;;
          WRITE_INT32 NSLCD_RESULT_END ;;
          return_ (-1)
        else ret (username, userdn, password)
    end ;;
  let '(username, userdn, password) := resolved in
  rc <- try_bind userdn password ;;
  let rc := if rc =? LDAP_SUCCESS then NSLCD_PAM_SUCCESS
            else if rc =? LDAP_INVALID_CREDENTIALS then NSLCD_PAM_AUTH_ERR
            else NSLCD_PAM_AUTH_ERR in
  WRITE_INT32 NSLCD_RESULT_BEGIN ;;
  WRITE_STRING username ;;
  WRITE_STRING userdn ;;
  WRITE_INT32 rc ;;
  WRITE_INT32 NSLCD_PAM_SUCCESS ;;
  WRITE_STRING "" ;;
  WRITE_INT32 NSLCD_RESULT_END ;;
  ret 0.

(** Modelled from the spec: the DICT of common/dict.h, which is not
    among the sources, is the mapping from template-variable name to
    escaped value; [dict_put] is the insertion and [dict_get] the
    lookup. *)
Definition autzsearch_var_add (dict : gmap string string)
    (name value : string) : gmap string string :=
  let sz := ((strlen value + 8) * 120) / 100 in
  if negb (ans_malloc env sz) then dict
  else
    match ans_escape env value sz with
    | None => dict
    | Some escaped_value => <[name := escaped_value]> dict
    end.

Definition autzsearch_var_get (dict : gmap string string) (name : string)
    : option string :=
  dict !! name.

Definition try_autzsearch (session : MYLDAP_SESSION)
    (dict : gmap string string) (searchfilter : string) : M Z :=
  record (call_try_autzsearch searchfilter) ;;
  match ans_expr_parse env searchfilter 1024 (autzsearch_var_get dict) with
  | None => ret LDAP_LOCAL_ERROR
  | Some filter_buffer =>
      found <- myldap_search session (List.head (ldc_bases cfg))
                 LDAP_SCOPE_SUBTREE filter_buffer ["dn"%string] ;;
      let '(search, rc) := found in
      match search with
      | None => ret rc
      | Some search =>
          got <- myldap_get_entry search ;;
          let '(entry, rc) := got in
          match entry with
          | None => ret rc
          | Some _ => ret LDAP_SUCCESS
          end
      end
  end.

Definition nslcd_pam_authz (session : MYLDAP_SESSION) : M Z :=
  username <- READ_STRING 256 ;;
  userdn <- READ_STRING 256 ;;
  servicename <- READ_STRING 64 ;;
  ruser <- READ_STRING 256 ;;
  rhost <- READ_STRING (HOST_NAME_MAX env + 1) ;;
  tty <- READ_STRING 64 ;;
  WRITE_INT32 NSLCD_VERSION ;;
  WRITE_INT32 NSLCD_ACTION_PAM_AUTHZ ;;
  checked <- validate_user session userdn 256 username 256 ;;
  let '(rc, userdn, username) := checked in
  if negb (rc =? LDAP_SUCCESS)
  then WRITE_INT32 NSLCD_RESULT_END ;; return_ (-1)
  else
    match ldc_pam_authz_search cfg with
    | Some pam_authz_search =>
        let dict : gmap string string := ∅ in
        let dict := autzsearch_var_add dict "username" username in
        let dict := autzsearch_var_add dict "service" servicename in
        let dict := autzsearch_var_add dict "ruser" ruser in
        let dict := autzsearch_var_add dict "rhost" rhost in
        let dict := autzsearch_var_add dict "tty" tty in
        let dict := match ans_gethostname env (HOST_NAME_MAX env + 1) with
                    | Some hostname => autzsearch_var_add dict "hostname" hostname
                    | None => dict
                    end in
        fqdn <- getfqdn ;;
        let dict := match fqdn with
                    | Some fqdn => autzsearch_var_add dict "fqdn" fqdn
                    | None => dict
                    end in
        let dict := autzsearch_var_add dict "dn" userdn in
        let dict := autzsearch_var_add dict "uid" username in
        rc <- try_autzsearch session dict pam_authz_search ;;
        if negb (rc =? LDAP_SUCCESS)
        then
          WRITE_INT32 NSLCD_RESULT_BEGIN ;;
          WRITE_STRING username ;;
          WRITE_STRING userdn ;;
          WRITE_INT32 NSLCD_PAM_PERM_DENIED ;;
          WRITE_STRING "LDAP authorisation check failed" ;;
          WRITE_INT32 NSLCD_RESULT_END
        else ret tt
    | None => ret tt
    end ;;
    WRITE_INT32 NSLCD_RESULT_BEGIN ;;
    WRITE_STRING username ;;
    WRITE_STRING userdn ;;
    WRITE_INT32 NSLCD_PAM_SUCCESS ;;
    WRITE_STRING "" ;;
    WRITE_INT32 NSLCD_RESULT_END ;;
    ret 0.

Definition try_pwmod (binddn userdn oldpassword newpassword : string) : M Z :=
  record (call_try_pwmod binddn userdn oldpassword newpassword) ;;
  session <- myldap_create_session ;;
  match session with
  | None => ret LDAP_UNAVAILABLE
  | Some session =>
      session <- myldap_set_credentials session binddn oldpassword ;;
      found <- lookup_dn2uid session userdn 256 ;;
      let '(uid, rc) := found in
      rc <- match uid, rc =? LDAP_SUCCESS with
            | Some _, true =>
                let oldpassword :=
                  match ldc_rootpwmoddn cfg with
                  | Some rootpwmoddn =>
                      if strcmp binddn rootpwmoddn =? 0
                      then None else Some oldpassword
                  | None => Some oldpassword
                  end in
                rc <- myldap_passwd session userdn oldpassword newpassword ;;
                (if rc =? LDAP_SUCCESS
                 then update_lastchange session userdn ;; ret tt
                 else ret tt) ;;
                ret rc
            | _, _ => ret rc
            end ;;
      myldap_session_close session ;;
      ret rc
  end.

(** [binddn] is a pointer: [None] while it points at the [userdn]
    buffer, the configured string once it is redirected. *)
Definition nslcd_pam_pwmod (session : MYLDAP_SESSION) (calleruid : Z) : M Z :=
  username <- READ_STRING 256 ;;
  userdn <- READ_STRING 256 ;;
  servicename <- READ_STRING 64 ;;
  oldpassword <- READ_STRING 64 ;;
  newpassword <- READ_STRING 64 ;;
  WRITE_INT32 NSLCD_VERSION ;;
  WRITE_INT32 NSLCD_ACTION_PAM_PWMOD ;;
  chosen <-
    match ldc_rootpwmoddn cfg with
    | Some rootpwmoddn =>
        if strcmp userdn rootpwmoddn =? 0
        then
          let binddn := Some rootpwmoddn in
          let userdn := EmptyString in
          match is_empty oldpassword && (calleruid =? 0), ldc_rootpwmodpw cfg with
          | true, Some rootpwmodpw =>
              if 64 <=? strlen rootpwmodpw then return_ (-1)
              else ret (binddn, userdn, rootpwmodpw)
          | _, _ => ret (binddn, userdn, oldpassword)
          end
        else ret (None, userdn, oldpassword)
    | None => ret (None, userdn, oldpassword)
    end ;;
  let '(binddn, userdn, oldpassword) := chosen in
  checked <- validate_user session userdn 256 username 256 ;;
  let '(rc, userdn, username) := checked in
  if negb (rc =? LDAP_SUCCESS)
  then WRITE_INT32 NSLCD_RESULT_END ;; return_ (-1)
  else
    rc <- try_pwmod (default userdn binddn) userdn oldpassword newpassword ;;
    WRITE_INT32 NSLCD_RESULT_BEGIN ;;
    WRITE_STRING username ;;
    WRITE_STRING userdn ;;
    (if rc =? LDAP_SUCCESS
     then WRITE_INT32 NSLCD_PAM_SUCCESS ;; WRITE_STRING ""
     else WRITE_INT32 NSLCD_PAM_PERM_DENIED ;;
          WRITE_STRING (ans_ldap_err2string env rc)) ;;
    WRITE_INT32 NSLCD_RESULT_END ;;
    ret 0.

End Daemon.

(** ** common.c: addresses on the stream *)

(** [struct in_addr] and [struct in6_addr]: 4 and 16 bytes in network
    byte order. *)
Definition in_addr : Type := (byte * byte * byte * byte)%type.
Definition in6_addr : Type := (in_addr * in_addr * in_addr * in_addr)%type.

Definition in_addr_bytes (a : in_addr) : list byte :=
  let '(b0, b1, b2, b3) := a in [b0; b1; b2; b3].

Definition in6_addr_bytes (a : in6_addr) : list byte :=
  let '(q0, q1, q2, q3) := a in
  in_addr_bytes q0 ++ in_addr_bytes q1 ++ in_addr_bytes q2 ++ in_addr_bytes q3.

Section Address.

(** [inet_pton(AF_INET,addr,&ipv4addr)>0] and the same for [AF_INET6]:
    the parsed address, or [None] when the C library rejects the text. *)
Variable inet_pton_AF_INET : string -> option in_addr.
Variable inet_pton_AF_INET6 : string -> option in6_addr.

Definition write_address (addr : string) : M Z :=
  match inet_pton_AF_INET addr with
  | Some ipv4addr =>
      WRITE_INT32 AF_INET ;;
      WRITE_INT32 4 ;;
      WRITE (in_addr_bytes ipv4addr) ;;
      ret 0
  | None =>
      match inet_pton_AF_INET6 addr with
      | Some ipv6addr =>
          WRITE_INT32 AF_INET6 ;;
          WRITE_INT32 16 ;;
          WRITE (in6_addr_bytes ipv6addr) ;;
          ret 0
      | None =>
          WRITE_INT32 (-1) ;;
          WRITE_INT32 0 ;;
          ret 0
      end
  end.

(** [addr], [addrlen] and [af] are what the three pointers point at on
    entry; the value is the [int] returned with what they point at
    then.  A failed read leaves through [Returned]. *)
Definition read_address (addr : list byte) (addrlen af : Z)
    : M (Z * (list byte * Z * Z)) :=
  af <- READ_INT32 ;;
  if negb (af =? AF_INET) && negb (af =? AF_INET6)
  then ret (-1, (addr, addrlen, af))
  else
    len <- READ_INT32 ;;
    if (addrlen <? len) || (len <=? 0)
    then ret (-1, (addr, addrlen, af))
    else
      let addrlen := len in
      bs <- READ len ;;
      ret (0, (bs ++ skipn (Z.to_nat len) addr, addrlen, af)).

End Address.

(** The [int] a call of [read_address] hands back. *)
Definition address_status {O : Type} (x : outcome (Z * O)) : option Z :=
  match x with
  | Val (r, _) => Some r
  | Returned r => Some r
  | Crash => None
  end.

(** ** The protocol, in the words of the specification *)

(** The request of an authenticate call as the handler reads it: four
    strings. *)
Definition authc_request : M (string * string * string * string) :=
  username <- READ_STRING 256 ;;
  userdn <- READ_STRING 256 ;;
  servicename <- READ_STRING 64 ;;
  password <- READ_STRING 64 ;;
  ret (username, userdn, servicename, password).

(** A string field: its length, then its bytes when there are any. *)
Definition string_field (s : string) : list wr :=
  if 0 <? to_int32 (strlen s)
  then [WR_INT32 (to_int32 (strlen s)); WR_BYTES (list_byte_of_string s)]
  else [WR_INT32 (to_int32 (strlen s))].

(** A result record of the authenticate response: begin marker,
    username, userdn, auth-status, authz-status, authz-message. *)
Definition authc_record (username userdn : string) (authc authz : Z)
    (authzmsg : string) : list wr :=
  [WR_INT32 NSLCD_RESULT_BEGIN] ++ string_field username ++ string_field userdn
  ++ [WR_INT32 authc; WR_INT32 authz] ++ string_field authzmsg.

(** A result record of the authorize response: begin marker, username,
    userdn, authz-status, authz-message. *)
Definition authz_record (username userdn : string) (authz : Z)
    (authzmsg : string) : list wr :=
  [WR_INT32 NSLCD_RESULT_BEGIN] ++ string_field username ++ string_field userdn
  ++ [WR_INT32 authz] ++ string_field authzmsg.

(** A response: version tag, operation tag, the result records, and a
    single end marker. *)
Definition response (action : Z) (records : list (list wr)) : list wr :=
  [WR_INT32 NSLCD_VERSION; WR_INT32 action] ++ List.concat records
  ++ [WR_INT32 NSLCD_RESULT_END].

(** The calls a run has added to those made before it. *)
Definition calls_since (w w' : world) : list call :=
  skipn (List.length (calls w)) (calls w').

Definition is_validate_user (c : call) : bool :=
  match c with call_validate_user _ _ => true | _ => false end.

(** The operations on the directory, as opposed to the entry of a helper. *)
Definition is_directory_operation (c : call) : bool :=
  match c with
  | call_try_bind _ _ | call_validate_user _ _
  | call_try_autzsearch _ | call_try_pwmod _ _ _ _ => false
  | _ => true
  end.

(** The password modifications among the calls, each with the old and
    the new secret it passes. *)
Fixpoint passwd_calls (cs : list call) : list (string * option string * string) :=
  match cs with
  | [] => []
  | call_myldap_passwd _ userdn oldpassword newpassword :: rest =>
      (userdn, oldpassword, newpassword) :: passwd_calls rest
  | _ :: rest => passwd_calls rest
  end.

(** ** A small directory to run the code on *)

Definition digit_value (c : ascii) : option N :=
  let n := N_of_ascii c in
  if ((48 <=? n) && (n <=? 57))%N then Some (n - 48)%N else None.

(** Decimal numbers up to 255 separated by dots; [cur] is the number
    being read, [acc] the numbers read so far. *)
Fixpoint dotted_numbers (s : string) (cur : option N) (acc : list N)
    : option (list N) :=
  match s with
  | EmptyString =>
      match cur with Some v => Some (acc ++ [v]) | None => None end
  | String c rest =>
      if Ascii.eqb c "."
      then match cur with
           | Some v => dotted_numbers rest None (acc ++ [v])
           | None => None
           end
      else match digit_value c with
           | Some d =>
               let v := match cur with Some v => (10 * v + d)%N | None => d end in
               if (v <=? 255)%N then dotted_numbers rest (Some v) acc else None
           | None => None
           end
  end.

(** A reading of [inet_pton] for [AF_INET]: four such numbers. *)
Definition dotted_quad (s : string) : option in_addr :=
  match dotted_numbers s None [] with
  | Some [a; b; c; d] =>
      Some (byte_of_Z (Z.of_N a), byte_of_Z (Z.of_N b),
            byte_of_Z (Z.of_N c), byte_of_Z (Z.of_N d))
  | _ => None
  end.

(** A C library that knows no IPv6 text form. *)
Definition no_inet6 (s : string) : option in6_addr := None.

Definition admin_dn : string := "cn=admin,dc=example,dc=com".
Definition alice_dn : string := "uid=alice,dc=example,dc=com".
Definition vanished_dn : string := "cn=vanished,dc=example,dc=com".

Definition example_cfg : ldap_config := {|
  ldc_bases := ["dc=example,dc=com"%string];
  ldc_rootpwmoddn := Some admin_dn;
  ldc_rootpwmodpw := Some "adminsecret"%string;
  ldc_pam_authz_search := Some "(&(objectClass=posixAccount)(uid=$username))"%string
|}.

(** The same configuration with an administrator secret of 64
    characters, one more than the password buffer holds. *)
Definition long_secret_cfg : ldap_config := {|
  ldc_bases := ldc_bases example_cfg;
  ldc_rootpwmoddn := ldc_rootpwmoddn example_cfg;
  ldc_rootpwmodpw :=
    Some "0123456789abcdef0123456789abcdef0123456789abcdef0123456789abcdef"%string;
  ldc_pam_authz_search := ldc_pam_authz_search example_cfg
|}.

Definition bound_as (session : MYLDAP_SESSION) (dn password : string) : bool :=
  match session_binddn session, session_bindpw session with
  | Some d, Some p => String.eqb d dn && String.eqb p password
  | _, _ => false
  end.

(** A directory with the user alice (entry 1), an entry without a DN
    behind the name ghost (entry 2), an entry that cannot be read back
    (search 3) and the administrator (entry 4).  [authz] is what the
    directory answers to the subtree search of the authorisation check. *)
Definition example_env (authz : option MYLDAP_SEARCH * Z) : collaborators := {|
  attmap_passwd_uid := "uid";
  HOST_NAME_MAX := 64;
  LOGIN_NAME_MAX := Some 256%nat;
  ans_create_session := fun _ => true;
  ans_search := fun session base scope filter attrs =>
    if scope =? LDAP_SCOPE_BASE
    then
      if bound_as session alice_dn "wonderland" then (Some 1%nat, LDAP_SUCCESS)
      else if bound_as session admin_dn "adminsecret" then (Some 4%nat, LDAP_SUCCESS)
      else if bound_as session vanished_dn "gone" then (Some 3%nat, LDAP_SUCCESS)
      else (None, LDAP_INVALID_CREDENTIALS)
    else authz;
  ans_get_entry := fun search =>
    match search with
    | 1%nat => (Some 1%nat, LDAP_SUCCESS)
    | 4%nat => (Some 4%nat, LDAP_SUCCESS)
    | _ => (None, LDAP_SUCCESS)
    end;
  ans_cpy_dn := fun entry buf size =>
    match entry with
    | 1%nat => alice_dn
    | 2%nat => "unknown"%string
    | 4%nat => admin_dn
    | _ => buf
    end;
  ans_get_rdn_value := fun entry attr =>
    match entry with 1%nat => Some "alice"%string | _ => None end;
  ans_get_values := fun entry attr =>
    match entry with 1%nat => Some ["alice"%string] | _ => Some [] end;
  ans_passwd := fun session userdn oldpassword newpassword => LDAP_SUCCESS;
  ans_escape := fun value size =>
    if strlen value <? size then Some value else None;
  ans_uid2entry := fun session username =>
    if String.eqb username "alice" then (Some 1%nat, LDAP_SUCCESS)
    else if String.eqb username "ghost" then (Some 2%nat, LDAP_SUCCESS)
    else (None, LDAP_SUCCESS);
  ans_lookup_dn2uid := fun session userdn buflen =>
    if String.eqb userdn alice_dn then (Some "alice"%string, LDAP_SUCCESS)
    else (None, LDAP_NO_SUCH_OBJECT);
  ans_update_lastchange := fun session userdn => LDAP_SUCCESS;
  ans_expr_parse := fun template size get =>
    match get "username"%string with
    | Some u => Some ("(uid=" +:+ u +:+ ")")%string
    | None => None
    end;
  ans_malloc := fun _ => true;
  ans_ldap_err2string := fun rc => "LDAP error"%string;
  ans_gethostname := fun _ => Some "host1"%string;
  ans_gethostbyname := fun _ =>
    Some {| h_name := "host1.example.com"; h_aliases := [] |}
|}.

(** The bytes of a request whose fields are the given strings. *)
Definition request_bytes (fields : list string) : list byte :=
  wire (flat_map string_field fields).

(** The world at the start of a request: nothing written, nothing
    called, one session (the handler's own) created. *)
Definition world_with (request : list byte) : world := {|
  tin := request;
  tout := [];
  calls := [];
  sessions := 1;
  fqdn := None
|}.

Definition handler_session : MYLDAP_SESSION := {|
  session_id := 0;
  session_binddn := None;
  session_bindpw := None
|}.

(** ** Words used by the statements *)

(** The LDAP code [validate_user] returns. *)
Definition ldap_code (x : outcome (Z * string * string)) : option Z :=
  match x with
  | Val (rc, _, _) => Some rc
  | Returned r => Some r
  | Crash => None
  end.

(** The canonical username of an entry: the value of its naming
    attribute, else the first value of its uid attribute ([Some None]
    when that list is empty); [None] when the directory hands back no
    value list at all. *)
Definition canonical_username (env : collaborators) (entry : MYLDAP_ENTRY)
    : option (option string) :=
  match ans_get_rdn_value env entry (attmap_passwd_uid env) with
  | Some value => Some (Some value)
  | None =>
      match ans_get_values env entry (attmap_passwd_uid env) with
      | Some values => Some (List.head values)
      | None => None
      end
  end.

(** A canonical username [validate_user] cannot accept for a buffer of
    [usernamesz] bytes: absent, not a valid name, or too long. *)
Definition unusable_username (env : collaborators) (usernamesz : Z)
    (value : option string) : Prop :=
  match value with
  | None => True
  | Some v => isvalidname (LOGIN_NAME_MAX env) (Some v) = 0 \/ usernamesz <= strlen v
  end.

(** The session [try_bind] and [try_pwmod] work on: the next one the
    directory creates, with the credentials set on it. *)
Definition bound_session (w : world) (dn password : string) : MYLDAP_SESSION :=
  {| session_id := sessions w;
     session_binddn := Some dn;
     session_bindpw := Some password |}.

Definition is_session_close (id : nat) (c : call) : bool :=
  match c with
  | call_myldap_session_close id' => Nat.eqb id id'
  | _ => false
  end.

(** The world after the writes [xs]. *)
Definition wrote (xs : list wr) (w : world) : world :=
  {| tin := tin w; tout := tout w ++ xs; calls := calls w;
     sessions := sessions w; fqdn := fqdn w |}.

(** The world after the response header of [action]. *)
Definition after_header (action : Z) (w : world) : world :=
  wrote [WR_INT32 NSLCD_VERSION; WR_INT32 action] w.

(** The writes a run has added to those made before it. *)
Definition writes_since (w w' : world) : list wr :=
  skipn (List.length (tout w)) (tout w').

(** The three kinds of character the loop of [isvalidname] tells apart,
    and the rest. *)
Inductive char_class := Anywhere | NotFirst | Inner | Bad.

Definition classify (c : ascii) : char_class :=
  if (char_ge c "@" && char_le c "Z")
     || (char_ge c "a" && char_le c "z")
     || (char_ge c "0" && char_le c "9")
     || char_eq c "." || char_eq c "_" || char_eq c "$"
  then Anywhere
  else if char_eq c "-" || char_eq c "~" then NotFirst
  else if char_eq c "\" || char_eq c " " then Inner
  else Bad.

(** What the loop decides from index [i] on. *)
Definition rejected_from (L : option nat) (i : nat) (s : string) : bool :=
  match L with Some m => (m <? i + String.length s)%nat | None => false end
  || negb (forallb in_alphabet (list_ascii_of_string s))
  || (i =? 0)%nat && is_one_of ["-"; "~"; "\"; " "]%char (first_char s)
  || is_one_of ["\"; " "]%char (last_char s).


(** ** More of common.c *)

(** [s + n]: the string from its [n]-th character on. *)
Fixpoint string_from (n : nat) (s : string) : string :=
  match n, s with
  | O, _ => s
  | S n', String _ rest => string_from n' rest
  | S _, EmptyString => EmptyString
  end.

Section UserPassword.

(** [attmap_get_value] of attmap.c, which is not among the sources: the
    value of the attribute, or [None] for NULL. *)
Variable attmap_get_value : MYLDAP_ENTRY -> string -> Z -> option string.

Definition get_userpassword (entry : MYLDAP_ENTRY) (attr : string)
    (buflen : Z) : option string :=
  match attmap_get_value entry attr buflen with
  | None => None
  | Some tmpvalue =>
      if strncasecmp_eq tmpvalue "{crypt}" 7 then Some (string_from 7 tmpvalue)
      else if strncasecmp_eq tmpvalue "crypt$" 6 then Some (string_from 6 tmpvalue)
      else Some tmpvalue
  end.

End UserPassword.

(** A C library whose only IPv6 text form is the loopback address. *)
Definition only_loopback6 (s : string) : option in6_addr :=
  let zero4 : in_addr := ("000", "000", "000", "000")%byte in
  if String.eqb s "::1"
  then Some (zero4, zero4, zero4, ("000", "000", "000", "001")%byte)
  else None.

(** The example directory with one more user, registered as "Bob"
    (entry 5) and found under any spelling of the name. *)
Definition bob_dn : string := "uid=Bob,dc=example,dc=com".

Definition example_env_with_bob : collaborators :=
  let e := example_env (None, LDAP_SUCCESS) in
  {| attmap_passwd_uid := attmap_passwd_uid e;
     HOST_NAME_MAX := HOST_NAME_MAX e;
     LOGIN_NAME_MAX := LOGIN_NAME_MAX e;
     ans_create_session := ans_create_session e;
     ans_search := ans_search e;
     ans_get_entry := ans_get_entry e;
     ans_cpy_dn := fun entry buf size =>
       match entry with 5%nat => bob_dn | _ => ans_cpy_dn e entry buf size end;
     ans_get_rdn_value := fun entry attr =>
       match entry with
       | 5%nat => Some "Bob"%string
       | _ => ans_get_rdn_value e entry attr
       end;
     ans_get_values := ans_get_values e;
     ans_passwd := ans_passwd e;
     ans_escape := ans_escape e;
     ans_uid2entry := fun session username =>
       if String.eqb (lowercase username) "bob" then (Some 5%nat, LDAP_SUCCESS)
       else ans_uid2entry e session username;
     ans_lookup_dn2uid := ans_lookup_dn2uid e;
     ans_update_lastchange := ans_update_lastchange e;
     ans_expr_parse := ans_expr_parse e;
     ans_malloc := ans_malloc e;
     ans_ldap_err2string := ans_ldap_err2string e;
     ans_gethostname := ans_gethostname e;
     ans_gethostbyname := ans_gethostbyname e |}.

(** ** pam.c: the session handlers *)

(** Modelled from the spec: the operation tags of session open and
    session close in nslcd.h, which is not among the sources; the
    numbers are those of the protocol header of this release. *)
Definition NSLCD_ACTION_PAM_SESS_O : Z := 20003.
Definition NSLCD_ACTION_PAM_SESS_C : Z := 20004.

Section Sessions.

Variable env : collaborators.

Definition nslcd_pam_sess_o (session : MYLDAP_SESSION) : M Z :=
  username <- READ_STRING 256 ;;
  userdn <- READ_STRING 256 ;;
  servicename <- READ_STRING 64 ;;
  tty <- READ_STRING 64 ;;
  rhost <- READ_STRING (HOST_NAME_MAX env + 1) ;;
  ruser <- READ_STRING 256 ;;
  sessionid <- READ_INT32 ;;
  WRITE_INT32 NSLCD_VERSION ;;
  WRITE_INT32 NSLCD_ACTION_PAM_SESS_O ;;
  WRITE_INT32 NSLCD_RESULT_BEGIN ;;
  WRITE_INT32 12345 ;;
  WRITE_INT32 NSLCD_RESULT_END ;;
  ret 0.

Definition nslcd_pam_sess_c (session : MYLDAP_SESSION) : M Z :=
  username <- READ_STRING 256 ;;
  userdn <- READ_STRING 256 ;;
  servicename <- READ_STRING 64 ;;
  tty <- READ_STRING 64 ;;
  rhost <- READ_STRING (HOST_NAME_MAX env + 1) ;;
  ruser <- READ_STRING 256 ;;
  sessionid <- READ_INT32 ;;
  WRITE_INT32 NSLCD_VERSION ;;
  WRITE_INT32 NSLCD_ACTION_PAM_SESS_C ;;
  WRITE_INT32 NSLCD_RESULT_BEGIN ;;
  WRITE_INT32 0 ;;
  WRITE_INT32 NSLCD_RESULT_END ;;
  ret 0.

(** The dictionary [nslcd_pam_authz] fills for the authorisation
    search, from the request, the host name and what [getfqdn] gave. *)
Definition authz_dict (username servicename ruser rhost tty : string)
    (fqdn : option string) (userdn : string) : gmap string string :=
  let dict : gmap string string := ∅ in
  let dict := autzsearch_var_add env dict "username" username in
  let dict := autzsearch_var_add env dict "service" servicename in
  let dict := autzsearch_var_add env dict "ruser" ruser in
  let dict := autzsearch_var_add env dict "rhost" rhost in
  let dict := autzsearch_var_add env dict "tty" tty in
  let dict := match ans_gethostname env (HOST_NAME_MAX env + 1) with
              | Some hostname => autzsearch_var_add env dict "hostname" hostname
              | None => dict
              end in
  let dict := match fqdn with
              | Some fqdn => autzsearch_var_add env dict "fqdn" fqdn
              | None => dict
              end in
  let dict := autzsearch_var_add env dict "dn" userdn in
  autzsearch_var_add env dict "uid" username.

(** The requests as the handlers read them. *)
Definition authz_request
    : M (string * string * string * string * string * string) :=
  username <- READ_STRING 256 ;;
  userdn <- READ_STRING 256 ;;
  servicename <- READ_STRING 64 ;;
  ruser <- READ_STRING 256 ;;
  rhost <- READ_STRING (HOST_NAME_MAX env + 1) ;;
  tty <- READ_STRING 64 ;;
  ret (username, userdn, servicename, ruser, rhost, tty).

Definition sess_request
    : M (string * string * string * string * string * string * Z) :=
  username <- READ_STRING 256 ;;
  userdn <- READ_STRING 256 ;;
  servicename <- READ_STRING 64 ;;
  tty <- READ_STRING 64 ;;
  rhost <- READ_STRING (HOST_NAME_MAX env + 1) ;;
  ruser <- READ_STRING 256 ;;
  sessionid <- READ_INT32 ;;
  ret (username, userdn, servicename, tty, rhost, ruser, sessionid).

End Sessions.

Definition pwmod_request : M (string * string * string * string * string) :=
  username <- READ_STRING 256 ;;
  userdn <- READ_STRING 256 ;;
  servicename <- READ_STRING 64 ;;
  oldpassword <- READ_STRING 64 ;;
  newpassword <- READ_STRING 64 ;;
  ret (username, userdn, servicename, oldpassword, newpassword).

(** A result record of the password-change response: begin marker,
    username, userdn, status, message. *)
Definition pwmod_record (username userdn : string) (status : Z)
    (message : string) : list wr :=
  [WR_INT32 NSLCD_RESULT_BEGIN] ++ string_field username ++ string_field userdn
  ++ [WR_INT32 status] ++ string_field message.

(** A result record of the session responses: begin marker and session
    id. *)
Definition sess_record (sessionid : Z) : list wr :=
  [WR_INT32 NSLCD_RESULT_BEGIN; WR_INT32 sessionid].

(** What a reader of the request leaves: it never crashes, it fails
    with -1 only, and it touches nothing but the unread input. *)
Definition reader_ok {A} (m : M A) : Prop :=
  forall w o w1, m w = (o, w1) ->
    w1 = set_tin (tin w1) w /\ (o = Returned (-1) \/ exists a, o = Val a).

(** A configuration without an administrator and without an
    authorisation search. *)
Definition plain_cfg : ldap_config := {|
  ldc_bases := ldc_bases example_cfg;
  ldc_rootpwmoddn := None;
  ldc_rootpwmodpw := None;
  ldc_pam_authz_search := None
|}.

(** * Properties *)

(** ** Name validator *)

Ltac each_char c := destruct c as [[] [] [] [] [] [] [] []]; vm_compute; reflexivity.

Lemma classify_alphabet c :
  in_alphabet c = match classify c with Bad => false | _ => true end.
Proof. each_char c. Qed.

Lemma classify_first c :
  is_one_of ["-"; "~"; "\"; " "]%char (Some c)
  = match classify c with NotFirst | Inner => true | _ => false end.
Proof. each_char c. Qed.

Lemma classify_last c :
  is_one_of ["\"; " "]%char (Some c)
  = match classify c with Inner => true | _ => false end.
Proof. each_char c. Qed.

Lemma dash_not_backslash c :
  char_eq c "-" || char_eq c "~" = true ->
  char_eq c "\" || char_eq c " " = false.
Proof. destruct c as [[] [] [] [] [] [] [] []]; vm_compute; congruence. Qed.

Lemma isvalidname_loop_step L i c rest :
  isvalidname_loop L i (String c rest) =
    if match L with Some m => (m <=? i)%nat | None => false end then 0
    else match classify c with
         | Anywhere => isvalidname_loop L (S i) rest
         | NotFirst => if (0 <? i)%nat then isvalidname_loop L (S i) rest else 0
         | Inner => if (0 <? i)%nat && negb (is_empty rest)
                    then isvalidname_loop L (S i) rest else 0
         | Bad => 0
         end.
Proof.
  cbn [isvalidname_loop]. unfold classify.
  destruct (match L with Some m => (m <=? i)%nat | None => false end); [reflexivity|].
  destruct ((char_ge c "@" && char_le c "Z")
     || (char_ge c "a" && char_le c "z")
     || (char_ge c "0" && char_le c "9")
     || char_eq c "." || char_eq c "_" || char_eq c "$"); [reflexivity|].
  destruct (char_eq c "-" || char_eq c "~") eqn:Hd.
  - rewrite (dash_not_backslash c Hd), andb_true_r, andb_false_r.
    destruct (0 <? i)%nat; reflexivity.
  - rewrite andb_false_r.
    destruct (char_eq c "\" || char_eq c " ").
    + rewrite andb_true_r. reflexivity.
    + rewrite andb_false_r. reflexivity.
Qed.

Lemma last_char_cons c rest :
  last_char (String c rest) = if is_empty rest then Some c else last_char rest.
Proof. destruct rest; reflexivity. Qed.

Lemma rejected_from_cons L i c rest :
  rejected_from L i (String c rest) =
    match L with Some m => (m <? i + S (String.length rest))%nat | None => false end
    || negb (match classify c with Bad => false | _ => true end
             && forallb in_alphabet (list_ascii_of_string rest))
    || (i =? 0)%nat && match classify c with NotFirst | Inner => true | _ => false end
    || (if is_empty rest
        then match classify c with Inner => true | _ => false end
        else is_one_of ["\"; " "]%char (last_char rest)).
Proof.
  unfold rejected_from.
  rewrite last_char_cons. cbn [first_char list_ascii_of_string forallb String.length].
  rewrite classify_alphabet, classify_first.
  destruct (is_empty rest); [rewrite classify_last|]; reflexivity.
Qed.

Lemma isvalidname_loop_spec L s : forall i,
  match L with Some m => (i <= m)%nat | None => True end ->
  isvalidname_loop L i s = if rejected_from L i s then 0 else -1.
Proof.
  induction s as [|c rest IH]; intros i Hi.
  - unfold rejected_from.
    cbn [isvalidname_loop String.length list_ascii_of_string forallb
         first_char last_char is_one_of negb].
    rewrite andb_false_r, !orb_false_r.
    destruct L as [m|]; [|reflexivity].
    rewrite Nat.add_0_r.
    destruct (Nat.ltb_spec m i); [lia | reflexivity].
  - rewrite isvalidname_loop_step, rejected_from_cons.
    assert (Hnext : match L with Some m => (m <=? i)%nat | None => false end = false ->
                    isvalidname_loop L (S i) rest
                    = if rejected_from L (S i) rest then 0 else -1).
    { intros Hlt. apply IH. destruct L as [m|]; [|exact I].
      apply Nat.leb_gt in Hlt. lia. }
    destruct (match L with Some m => (m <=? i)%nat | None => false end) eqn:Hm.
    + destruct L as [m|]; [|discriminate].
      apply Nat.leb_le in Hm.
      destruct (Nat.ltb_spec m (i + S (String.length rest))); [reflexivity | lia].
    + specialize (Hnext eq_refl). rewrite Hnext. clear Hnext IH.
      unfold rejected_from.
      replace (match L with Some m => (m <? i + S (String.length rest))%nat | None => false end)
        with (match L with Some m => (m <? S i + String.length rest)%nat | None => false end)
        by (destruct L; [f_equal; lia | reflexivity]).
      cbn [Nat.eqb andb].
      assert (Hemp : is_empty rest = true ->
                match L with Some m => (m <? S i + String.length rest)%nat | None => false end = false
                /\ forallb in_alphabet (list_ascii_of_string rest) = true
                /\ last_char rest = None).
      { destruct rest; [|discriminate]. intros _.
        cbn [String.length list_ascii_of_string forallb last_char].
        split; [|auto].
        destruct L as [m|]; [|reflexivity].
        apply Nat.leb_gt in Hm. apply Nat.ltb_ge. lia. }
      destruct (is_empty rest) eqn:He.
      * destruct (Hemp eq_refl) as (-> & -> & ->).
        destruct (classify c), i; reflexivity.
      * clear Hemp.
        destruct (match L with Some m => (m <? S i + String.length rest)%nat | None => false end),
                 (forallb in_alphabet (list_ascii_of_string rest)),
                 (is_one_of ["\"; " "]%char (last_char rest)),
                 (classify c), i; reflexivity.
Qed.

Lemma name_rejected_from L s :
  name_rejected L s = is_empty s || rejected_from L 0 s.
Proof.
  unfold name_rejected, rejected_from, exceeds. cbn [Nat.eqb andb Nat.add].
  destruct (is_empty s), (match L with Some m => (m <? String.length s)%nat | None => false end),
    (forallb in_alphabet (list_ascii_of_string s)),
    (is_one_of ["-"; "~"; "\"; " "]%char (first_char s)),
    (is_one_of ["\"; " "]%char (last_char s)); reflexivity.
Qed.

(** C5: [isvalidname] returns 0 exactly when the name is empty, holds a
    character outside the alphabet, starts with '-', '~', a backslash or
    a space, ends with a backslash or a space, or is longer than
    LOGIN_NAME_MAX where the platform defines it; otherwise it returns
    -1, which is true in C. *)
Theorem isvalidname_rejects_exactly L s :
  isvalidname L (Some s) = if name_rejected L s then 0 else -1.
Proof.
  rewrite name_rejected_from.
  destruct s as [|c rest]; [reflexivity|].
  cbn [isvalidname is_empty orb].
  apply isvalidname_loop_spec. destruct L; [lia | exact I].
Qed.

(** The examples of the specification. *)
Example isvalidname_examples :
  let valid s := negb (isvalidname (Some 256%nat) (Some s) =? 0) in
  valid "alice" = true /\ valid "" = false /\ valid "-alice" = false
  /\ valid "alice$" = true /\ valid "a b" = true /\ valid "a " = false.
Proof. vm_compute. repeat split. Qed.

(** ** Runs of the monad *)

Lemma bind_val {A B} (m : M A) (f : A -> M B) w a w' :
  m w = (Val a, w') -> bind m f w = f a w'.
Proof. unfold bind. intros ->. reflexivity. Qed.

Lemma bind_returned {A B} (m : M A) (f : A -> M B) w r w' :
  m w = (Returned r, w') -> bind m f w = (Returned r, w').
Proof. unfold bind. intros ->. reflexivity. Qed.

Lemma skipn_length_app {A} (l k : list A) : skipn (List.length l) (l ++ k) = k.
Proof. induction l; simpl; auto. Qed.

Lemma calls_since_app w w' new :
  calls w' = calls w ++ new -> calls_since w w' = new.
Proof. unfold calls_since. intros ->. apply skipn_length_app. Qed.

Lemma strcmp_eq a b : (strcmp a b =? 0) = true <-> a = b.
Proof.
  unfold strcmp. split.
  - intros H. apply String.compare_eq_iff.
    destruct (String.compare a b); [reflexivity | discriminate H | discriminate H].
  - intros ->. pose proof (String.compare_antisym b b) as H.
    destruct (String.compare b b); [reflexivity | discriminate H | discriminate H].
Qed.

(** ** validate_user *)

(** C10: with a DN supplied, [validate_user] makes no directory lookup,
    leaves the stream alone, hands both buffers back unchanged, and
    returns success when the username passes [isvalidname] and
    LDAP_NO_SUCH_OBJECT when it does not. *)
Theorem validate_user_with_dn env session userdn userdnsz username usernamesz w :
  is_empty userdn = false ->
  let '(r, w') := validate_user env session userdn userdnsz username usernamesz w in
  r = Val (if isvalidname (LOGIN_NAME_MAX env) (Some username) =? 0
           then LDAP_NO_SUCH_OBJECT else LDAP_SUCCESS,
           userdn, username)
  /\ List.filter is_directory_operation (calls_since w w') = []
  /\ tin w' = tin w /\ tout w' = tout w.
Proof.
  intros Hdn.
  unfold validate_user, bind, record, ret.
  destruct (isvalidname (LOGIN_NAME_MAX env) (Some username) =? 0).
  - rewrite (calls_since_app w _ [call_validate_user userdn username]) by reflexivity.
    repeat split.
  - rewrite Hdn.
    rewrite (calls_since_app w _ [call_validate_user userdn username]) by reflexivity.
    repeat split.
Qed.

Lemma validate_user_with_dn_witness :
  fst (validate_user (example_env (None, LDAP_SUCCESS)) handler_session
         alice_dn 256 "alice" 256 (world_with []))
  = Val (LDAP_SUCCESS, alice_dn, "alice"%string).
Proof.
  pose proof (validate_user_with_dn (example_env (None, LDAP_SUCCESS))
                handler_session alice_dn 256 "alice" 256 (world_with [])
                eq_refl) as H.
  destruct (validate_user _ _ _ _ _ _ _) as [r w'].
  destruct H as [-> _]. reflexivity.
Defined.

(** C7, as the code has it: with no DN supplied and a username that
    passes [isvalidname], [validate_user] returns LDAP_NO_SUCH_OBJECT
    when the lookup finds no entry (and the lookup's own code when it
    failed), LDAP_NO_SUCH_OBJECT again when the DN of the entry reads
    "unknown" in any letter case, and LDAP_INVALID_SYNTAX when the
    canonical username is absent, is not a valid name or does not fit
    the username buffer. *)
Theorem validate_user_without_dn env session userdnsz username usernamesz w :
  isvalidname (LOGIN_NAME_MAX env) (Some username) <> 0 ->
  let r := fst (validate_user env session "" userdnsz username usernamesz w) in
  (forall rc, ans_uid2entry env session username = (None, rc) ->
     ldap_code r = Some (if rc =? LDAP_SUCCESS then LDAP_NO_SUCH_OBJECT else rc))
  /\ (forall entry rc, ans_uid2entry env session username = (Some entry, rc) ->
        let dn := ans_cpy_dn env entry "" userdnsz in
        (strcasecmp dn "unknown" = 0 -> ldap_code r = Some LDAP_NO_SUCH_OBJECT)
        /\ (strcasecmp dn "unknown" <> 0 ->
            forall value, canonical_username env entry = Some value ->
              unusable_username env usernamesz value ->
              ldap_code r = Some LDAP_INVALID_SYNTAX)).
Proof.
  intros Hname r. subst r.
  apply Z.eqb_neq in Hname.
  cbv [validate_user bind record ret uid2entry crash is_empty].
  rewrite Hname.
  split.
  - intros rc ->. reflexivity.
  - intros entry rc ->. split.
    + intros ->. reflexivity.
    + intros Hdn value Hcanon Hbad.
      apply Z.eqb_neq in Hdn. rewrite Hdn.
      unfold canonical_username in Hcanon.
      destruct (ans_get_rdn_value env entry (attmap_passwd_uid env)) as [v|].
      * injection Hcanon as <-. cbv [unusable_username] in Hbad.
        destruct Hbad as [Hbad | Hbad].
        -- rewrite Hbad. reflexivity.
        -- apply Z.leb_le in Hbad. rewrite Hbad, orb_true_r. reflexivity.
      * destruct (ans_get_values env entry (attmap_passwd_uid env)) as [vs|];
          [|discriminate Hcanon].
        injection Hcanon as <-.
        destruct (List.head vs) as [v|]; [|reflexivity].
        cbv [unusable_username] in Hbad.
        destruct Hbad as [Hbad | Hbad].
        -- rewrite Hbad. reflexivity.
        -- apply Z.leb_le in Hbad. rewrite Hbad, orb_true_r. reflexivity.
Qed.

Lemma validate_user_without_dn_witness :
  ldap_code (fst (validate_user (example_env (None, LDAP_SUCCESS)) handler_session
                    "" 256 "bob" 256 (world_with [])))
  = Some LDAP_NO_SUCH_OBJECT.
Proof.
  assert (Hname : isvalidname (LOGIN_NAME_MAX (example_env (None, LDAP_SUCCESS)))
                    (Some "bob"%string) <> 0)
    by (vm_compute; discriminate).
  exact (proj1 (validate_user_without_dn (example_env (None, LDAP_SUCCESS))
                  handler_session 256 "bob" 256 (world_with []) Hname)
               LDAP_SUCCESS eq_refl).
Defined.

(** C7 as stated fails: the entry behind "ghost" has the DN "unknown",
    and the code returned is LDAP_NO_SUCH_OBJECT, not
    LDAP_INVALID_SYNTAX. *)
Lemma validate_user_unknown_dn_is_not_found :
  let env := example_env (None, LDAP_SUCCESS) in
  ans_uid2entry env handler_session "ghost" = (Some 2%nat, LDAP_SUCCESS)
  /\ ans_cpy_dn env 2%nat "" 256 = "unknown"%string
  /\ ldap_code (fst (validate_user env handler_session "" 256 "ghost" 256
                       (world_with [])))
     = Some LDAP_NO_SUCH_OBJECT
  /\ ldap_code (fst (validate_user env handler_session "" 256 "ghost" 256
                       (world_with [])))
     <> Some LDAP_INVALID_SYNTAX.
Proof. vm_compute. repeat split; discriminate. Qed.

(** ** try_bind *)

(** The calls since [w] end with the one in the last position. *)
Ltac closes_last :=
  rewrite <- !app_assoc, skipn_length_app; cbn [app];
  match goal with
  | |- exists b, ?l = _ /\ _ =>
      let r := eval cbv [removelast] in (removelast l) in exists r
  end;
  cbn; rewrite ?Nat.eqb_refl; auto.

(** C8, as the code has it: once the session is created, a search that
    yields no handle or an error code is reported with that code, or
    LDAP_LOCAL_ERROR when the code was success; an entry retrieval
    that yields no entry or an error code is reported with that code,
    or LDAP_NO_RESULTS_RETURNED when the code was success; and on
    every path closing the session is the last thing [try_bind] does,
    after it was created and exactly once. *)
Theorem try_bind_reports_and_closes env userdn password w :
  ans_create_session env (sessions w) = true ->
  let session := bound_session w userdn password in
  let '(r, w') := try_bind env userdn password w in
  (forall search rc,
     ans_search env session (Some userdn) LDAP_SCOPE_BASE "(objectClass=*)"
       ["dn"%string] = (search, rc) ->
     (search = None \/ rc <> LDAP_SUCCESS ->
      r = Val (if rc =? LDAP_SUCCESS then LDAP_LOCAL_ERROR else rc))
     /\ (forall s entry rc',
           search = Some s -> rc = LDAP_SUCCESS ->
           ans_get_entry env s = (entry, rc') ->
           (entry = None \/ rc' <> LDAP_SUCCESS ->
            r = Val (if rc' =? LDAP_SUCCESS then LDAP_NO_RESULTS_RETURNED else rc'))
           /\ (entry <> None -> rc' = LDAP_SUCCESS -> r = Val LDAP_SUCCESS)))
  /\ (exists before,
        calls_since w w' = before ++ [call_myldap_session_close (sessions w)]
        /\ In (call_myldap_create_session true) before
        /\ List.existsb (is_session_close (sessions w)) before = false).
Proof.
  destruct w as [win wout wcalls wsess wfqdn].
  cbv [sessions bound_session calls_since].
  intros Hcreate.
  cbv [try_bind bind record ret myldap_create_session myldap_set_credentials
       myldap_search myldap_get_entry myldap_session_close session_id
       sessions add_call new_session calls tin tout fqdn].
  rewrite Hcreate.
  destruct (ans_search env _ (Some userdn) LDAP_SCOPE_BASE
              "(objectClass=*)" ["dn"%string]) as [search rc].
  destruct search as [s|]; [destruct (rc =? LDAP_SUCCESS) eqn:Hrc|].
  - destruct (ans_get_entry env s) as [entry rc'] eqn:Hget.
    destruct entry as [e|]; [destruct (rc' =? LDAP_SUCCESS) eqn:Hrc'|].
    + split.
      * intros ? ? [= <- <-]. split.
        -- intros [H | H]; [discriminate H|].
           apply Z.eqb_eq in Hrc. contradiction.
        -- intros ? ? ? [= <-] _ Hget'. rewrite Hget in Hget'.
           injection Hget' as <- <-. split.
           ++ intros [H | H]; [discriminate H|].
              apply Z.eqb_eq in Hrc'. contradiction.
           ++ intros _ ->. reflexivity.
      * closes_last.
    + split.
      * intros ? ? [= <- <-]. split.
        -- intros [H | H]; [discriminate H|].
           apply Z.eqb_eq in Hrc. contradiction.
        -- intros ? ? ? [= <-] _ Hget'. rewrite Hget in Hget'.
           injection Hget' as <- <-. split.
           ++ intros _. rewrite Hrc'. reflexivity.
           ++ intros _ H. apply Z.eqb_neq in Hrc'. contradiction.
      * closes_last.
    + split.
      * intros ? ? [= <- <-]. split.
        -- intros [H | H]; [discriminate H|].
           apply Z.eqb_eq in Hrc. contradiction.
        -- intros ? ? ? [= <-] _ Hget'. rewrite Hget in Hget'.
           injection Hget' as <- <-. split.
           ++ intros _. reflexivity.
           ++ intros H. contradiction.
      * closes_last.
  - split.
    + intros ? ? [= <- <-]. split.
      * intros _. rewrite Hrc. reflexivity.
      * intros ? ? ? _ H. apply Z.eqb_neq in Hrc. contradiction.
    + closes_last.
  - split.
    + intros ? ? [= <- <-]. split.
      * intros _. reflexivity.
      * intros ? ? ? H. discriminate H.
    + closes_last.
Qed.

Lemma try_bind_reports_and_closes_witness :
  fst (try_bind (example_env (None, LDAP_SUCCESS)) alice_dn "wrong" (world_with []))
  = Val LDAP_INVALID_CREDENTIALS.
Proof.
  pose proof (try_bind_reports_and_closes (example_env (None, LDAP_SUCCESS))
                alice_dn "wrong" (world_with []) eq_refl) as H.
  destruct (try_bind _ _ _ _) as [r w'].
  destruct H as [H _].
  destruct (H None LDAP_INVALID_CREDENTIALS eq_refl) as [H1 _].
  rewrite (H1 (or_introl eq_refl)). reflexivity.
Defined.

(** C8 as stated fails: the directory reports success for the search
    and for the retrieval but hands back no entry, and [try_bind]
    returns LDAP_NO_RESULTS_RETURNED, not LDAP_LOCAL_ERROR. *)
Lemma try_bind_no_entry_is_not_local_error :
  let env := example_env (None, LDAP_SUCCESS) in
  let w := world_with [] in
  ans_search env (bound_session w vanished_dn "gone") (Some vanished_dn)
    LDAP_SCOPE_BASE "(objectClass=*)" ["dn"%string] = (Some 3%nat, LDAP_SUCCESS)
  /\ ans_get_entry env 3%nat = (None, LDAP_SUCCESS)
  /\ returns (fst (try_bind env vanished_dn "gone" w)) = Some LDAP_NO_RESULTS_RETURNED
  /\ returns (fst (try_bind env vanished_dn "gone" w)) <> Some LDAP_LOCAL_ERROR.
Proof. vm_compute. repeat split; discriminate. Qed.

(** ** try_autzsearch *)

(** C2 fails on the code: the subtree search succeeds and matches no
    entry (the retrieval hands back no entry with LDAP_SUCCESS, the case
    [try_bind] turns into LDAP_NO_RESULTS_RETURNED), and
    [try_autzsearch] returns LDAP_SUCCESS. *)
Theorem try_autzsearch_without_match_returns_success :
  let env := example_env (Some 2%nat, LDAP_SUCCESS) in
  let dict := autzsearch_var_add env ∅ "username" "alice" in
  let filter := "(&(objectClass=posixAccount)(uid=$username))"%string in
  ans_expr_parse env filter 1024 (autzsearch_var_get dict) = Some "(uid=alice)"%string
  /\ ans_search env handler_session (Some "dc=example,dc=com"%string)
       LDAP_SCOPE_SUBTREE "(uid=alice)" ["dn"%string] = (Some 2%nat, LDAP_SUCCESS)
  /\ ans_get_entry env 2%nat = (None, LDAP_SUCCESS)
  /\ returns (fst (try_autzsearch example_cfg env handler_session dict filter
                     (world_with [])))
     = Some LDAP_SUCCESS.
Proof. vm_compute. repeat split. Qed.

(** ** try_pwmod *)

(** C4: every password modification [try_pwmod] issues is for the
    target DN and the new secret, and carries no old secret when the
    bind identity is the configured administrator DN and the supplied
    old secret otherwise; and it issues exactly one once the session is
    created and the target DN resolves. *)
Theorem try_pwmod_old_secret cfg env binddn userdn oldpassword newpassword w :
  let w' := snd (try_pwmod cfg env binddn userdn oldpassword newpassword w) in
  let forwarded :=
    if decide (ldc_rootpwmoddn cfg = Some binddn) then None else Some oldpassword in
  (forall modification, In modification (passwd_calls (calls_since w w')) ->
     modification = (userdn, forwarded, newpassword))
  /\ (ans_create_session env (sessions w) = true ->
      (exists uid, ans_lookup_dn2uid env (bound_session w binddn oldpassword) userdn 256
                   = (Some uid, LDAP_SUCCESS)) ->
      passwd_calls (calls_since w w') = [(userdn, forwarded, newpassword)]).
Proof.
  destruct w as [win wout wcalls wsess wfqdn].
  cbv [sessions bound_session calls_since].
  set (forwarded := if decide (ldc_rootpwmoddn cfg = Some binddn)
                    then None else Some oldpassword).
  assert (Hfwd : match ldc_rootpwmoddn cfg with
                 | Some rootpwmoddn =>
                     if strcmp binddn rootpwmoddn =? 0 then None else Some oldpassword
                 | None => Some oldpassword
                 end = forwarded).
  { subst forwarded. destruct (ldc_rootpwmoddn cfg) as [a|].
    - destruct (strcmp binddn a =? 0) eqn:E.
      + apply strcmp_eq in E. subst a. rewrite decide_True by reflexivity. reflexivity.
      + rewrite decide_False; [reflexivity|].
        intros [= ->]. assert ((strcmp binddn binddn =? 0) = true) by (apply strcmp_eq; reflexivity).
        congruence.
    - rewrite decide_False by discriminate. reflexivity. }
  cbv [try_pwmod bind record ret myldap_create_session myldap_set_credentials
       lookup_dn2uid myldap_passwd update_lastchange myldap_session_close
       session_id sessions add_call new_session calls tin tout fqdn snd].
  rewrite Hfwd. clear Hfwd.
  destruct (ans_create_session env wsess) eqn:Hcreate.
  - destruct (ans_lookup_dn2uid env _ userdn 256) as [uid rc] eqn:Hlook.
    destruct uid as [u|]; [destruct (rc =? LDAP_SUCCESS) eqn:Hrc|].
    + destruct (ans_passwd env _ userdn forwarded newpassword =? LDAP_SUCCESS);
        rewrite <- !app_assoc, skipn_length_app; cbn; split; intros; intuition.
    + rewrite <- !app_assoc, skipn_length_app; cbn. split; [intros ? []|].
      intros _ [uid [= <- ->]]. discriminate Hrc.
    + rewrite <- !app_assoc, skipn_length_app; cbn. split; [intros ? []|].
      intros _ [uid [=]].
  - rewrite <- !app_assoc, skipn_length_app; cbn. split; [intros ? []|].
    intros H. discriminate H.
Qed.

(** The handler on the administrative path: the request names the
    administrator DN as its DN and leaves the old secret empty, the
    caller is uid 0; the target is resolved by name, the session is
    bound with the configured secret and the modification carries no
    old secret. *)
Example nslcd_pam_pwmod_as_administrator :
  let env := example_env (None, LDAP_SUCCESS) in
  let w := world_with (request_bytes ["alice"; admin_dn; "passwd"; ""; "newpw"]%string) in
  let run := nslcd_pam_pwmod example_cfg env handler_session 0 w in
  returns (fst run) = Some 0
  /\ In (call_try_pwmod admin_dn alice_dn "adminsecret" "newpw") (calls (snd run))
  /\ passwd_calls (calls (snd run)) = [(alice_dn, None, "newpw"%string)].
Proof. vm_compute. repeat split. auto 10. Qed.

Lemma try_pwmod_old_secret_witness :
  passwd_calls (calls_since (world_with [])
     (snd (try_pwmod example_cfg (example_env (None, LDAP_SUCCESS))
             admin_dn alice_dn "anything" "newpw" (world_with []))))
  = [(alice_dn, None, "newpw"%string)].
Proof.
  exact (proj2 (try_pwmod_old_secret example_cfg (example_env (None, LDAP_SUCCESS))
                  admin_dn alice_dn "anything" "newpw" (world_with []))
               eq_refl (ex_intro _ "alice"%string eq_refl)).
Defined.

(** ** Runs of the stream macros *)

Lemma bind_assoc {A B C} (m : M A) (f : A -> M B) (g : B -> M C) w :
  bind (bind m f) g w = bind m (fun a => bind (f a) g) w.
Proof. unfold bind. destruct (m w) as [[a|r|] w']; reflexivity. Qed.

Lemma bind_val_inv {A B} (m : M A) (f : A -> M B) w b w' :
  bind m f w = (Val b, w') ->
  exists a w1, m w = (Val a, w1) /\ f a w1 = (Val b, w').
Proof.
  unfold bind. destruct (m w) as [[a|r|] w1]; intros H; try discriminate H.
  exists a, w1. auto.
Qed.

Lemma wrote_wrote xs ys w : wrote ys (wrote xs w) = wrote (xs ++ ys) w.
Proof. unfold wrote. cbn. rewrite app_assoc. reflexivity. Qed.

Lemma WRITE_INT32_eq v w :
  WRITE_INT32 v w = (Val tt, wrote [WR_INT32 (to_int32 v)] w).
Proof. reflexivity. Qed.

Lemma WRITE_eq bs w : WRITE bs w = (Val tt, wrote [WR_BYTES bs] w).
Proof. reflexivity. Qed.

Lemma WRITE_STRING_eq s w :
  WRITE_STRING s w = (Val tt, wrote (string_field s) w).
Proof.
  unfold WRITE_STRING, string_field, bind, WRITE_INT32, WRITE, ret.
  destruct (0 <? to_int32 (strlen s)); [|reflexivity].
  unfold add_tout, wrote. cbn. rewrite <- app_assoc. reflexivity.
Qed.

Lemma READ_frame n w bs w' :
  READ n w = (Val bs, w') -> w' = set_tin (tin w') w.
Proof.
  unfold READ. destruct (_ <? n); intros [= <- <-]. reflexivity.
Qed.

Lemma READ_INT32_frame w v w' :
  READ_INT32 w = (Val v, w') -> w' = set_tin (tin w') w.
Proof.
  unfold READ_INT32. intros H.
  apply bind_val_inv in H as (bs & w1 & H1 & [= <- <-]).
  eapply READ_frame; eauto.
Qed.

Lemma READ_STRING_frame n w s w' :
  READ_STRING n w = (Val s, w') -> w' = set_tin (tin w') w.
Proof.
  unfold READ_STRING. intros H.
  apply bind_val_inv in H as (len & w1 & H1 & H2).
  apply READ_INT32_frame in H1.
  destruct (n <=? to_size_t len); [discriminate H2|].
  apply bind_val_inv in H2 as (bs & w2 & H2 & [= <- <-]).
  destruct (0 <? len).
  - apply READ_frame in H2. rewrite H2, H1. reflexivity.
  - injection H2 as <- <-. exact H1.
Qed.

Lemma authc_request_inv w username userdn servicename password w1 :
  authc_request w = (Val (username, userdn, servicename, password), w1) ->
  w1 = set_tin (tin w1) w
  /\ forall (k : string -> string -> string -> string -> M Z),
       (username <- READ_STRING 256 ;;
        userdn <- READ_STRING 256 ;;
        servicename <- READ_STRING 64 ;;
        password <- READ_STRING 64 ;;
        k username userdn servicename password) w
       = k username userdn servicename password w1.
Proof.
  unfold authc_request. intros H.
  apply bind_val_inv in H as (a & wa & Ha & H).
  apply bind_val_inv in H as (b & wb & Hb & H).
  apply bind_val_inv in H as (c & wc & Hc & H).
  apply bind_val_inv in H as (d & wd & Hd & H).
  injection H as <- <- <- <- <-.
  split.
  - apply READ_STRING_frame in Ha, Hb, Hc, Hd.
    rewrite Hd, Hc, Hb, Ha. reflexivity.
  - intros k.
    rewrite (bind_val _ _ _ _ _ Ha), (bind_val _ _ _ _ _ Hb),
            (bind_val _ _ _ _ _ Hc), (bind_val _ _ _ _ _ Hd).
    reflexivity.
Qed.

(** ** What the helpers leave alone *)

Ltac split_cases :=
  repeat match goal with
         | |- context [match ?x with _ => _ end] =>
             lazymatch x with
             | context [match _ with _ => _ end] => fail
             | _ => destruct x eqn:?; cbv beta iota
             end
         end.

Lemma try_bind_frame env userdn password w :
  exists rc w',
    try_bind env userdn password w = (Val rc, w')
    /\ tin w' = tin w /\ tout w' = tout w
    /\ exists rest,
         calls w' = calls w ++ call_try_bind userdn password :: rest
         /\ List.existsb is_validate_user rest = false.
Proof.
  destruct w as [win wout wcalls wsess wfqdn].
  cbv [try_bind bind record ret myldap_create_session myldap_set_credentials
       myldap_search myldap_get_entry myldap_session_close session_id
       sessions add_call new_session calls tin tout fqdn].
  split_cases; do 2 eexists; (split; [reflexivity|]); cbn [tin tout calls];
    (split; [reflexivity|]); (split; [reflexivity|]);
    rewrite <- !app_assoc; eexists; (split; [reflexivity|]); reflexivity.
Qed.

Lemma validate_user_frame env session userdn userdnsz username usernamesz w :
  let '(r, w') := validate_user env session userdn userdnsz username usernamesz w in
  tin w' = tin w /\ tout w' = tout w
  /\ exists rest, calls w' = calls w ++ call_validate_user userdn username :: rest.
Proof.
  destruct w as [win wout wcalls wsess wfqdn].
  cbv [validate_user bind record ret crash uid2entry session_id
       sessions add_call new_session calls tin tout fqdn].
  split_cases; cbn [tin tout calls];
    (split; [reflexivity|]); (split; [reflexivity|]);
    rewrite <- ?app_assoc; eexists; reflexivity.
Qed.

(** ** nslcd_pam_authc *)

Lemma is_empty_true s : is_empty s = true <-> s = EmptyString.
Proof. destruct s; cbn; split; congruence. Qed.

Ltac run_step :=
  first [ rewrite bind_assoc
        | erewrite bind_val
            by first [apply WRITE_STRING_eq | apply WRITE_INT32_eq | apply WRITE_eq
                     | reflexivity]
        | erewrite bind_returned by reflexivity ].

(** The calls the two ways through [nslcd_pam_authc] make, by the test
    at the head of the handler. *)
Lemma authc_calls cfg env session calleruid w
    username userdn servicename password w1 :
  authc_request w = (Val (username, userdn, servicename, password), w1) ->
  let run := nslcd_pam_authc cfg env session calleruid w in
  let made := calls_since w (snd run) in
  let bind_as admin secret :=
    exists rest, made = call_try_bind admin secret :: rest
                 /\ List.existsb is_validate_user rest = false in
  let abort := made = [] /\ returns (fst run) = Some (-1) in
  match is_empty username, ldc_rootpwmoddn cfg with
  | true, Some admin =>
      if 256 <=? strlen admin then abort
      else
        match is_empty password && (calleruid =? 0), ldc_rootpwmodpw cfg with
        | true, Some secret =>
            if 64 <=? strlen secret then abort else bind_as admin secret
        | _, _ => bind_as admin password
        end
  | _, _ => exists rest, made = call_validate_user userdn username :: rest
  end.
Proof.
  intros Hreq run made bind_as abort. subst abort bind_as made run.
  apply authc_request_inv in Hreq as [Hw1 Hk].
  assert (Hcalls1 : calls w1 = calls w) by (rewrite Hw1; reflexivity).
  unfold nslcd_pam_authc. rewrite Hk. clear Hk.
  do 2 run_step.
  set (w2 := wrote _ (wrote _ w1)).
  assert (Hcalls2 : calls w2 = calls w) by exact Hcalls1.
  assert (Hbind : forall admin secret,
            exists rest,
              calls_since w
                (snd ((rc <- try_bind env admin secret ;;
                       WRITE_INT32 NSLCD_RESULT_BEGIN ;;
                       WRITE_STRING username ;;
                       WRITE_STRING admin ;;
                       WRITE_INT32
                         (if rc =? LDAP_SUCCESS then NSLCD_PAM_SUCCESS
                          else if rc =? LDAP_INVALID_CREDENTIALS
                               then NSLCD_PAM_AUTH_ERR else NSLCD_PAM_AUTH_ERR) ;;
                       WRITE_INT32 NSLCD_PAM_SUCCESS ;;
                       WRITE_STRING "" ;;
                       WRITE_INT32 NSLCD_RESULT_END ;;
                       ret 0) w2))
              = call_try_bind admin secret :: rest
              /\ List.existsb is_validate_user rest = false).
  { intros admin secret.
    destruct (try_bind_frame env admin secret w2)
      as (rc & w3 & Htb & _ & _ & rest & Hc & Hno).
    exists rest. split; [|exact Hno].
    rewrite (bind_val _ _ _ _ _ Htb). repeat run_step.
    apply calls_since_app. cbn [snd ret return_ wrote calls]. rewrite Hc, Hcalls2. reflexivity. }
  assert (Hnormal :
    exists rest,
      calls_since w
        (snd ((resolved <-
                 (checked <- validate_user env session userdn 256 username 256 ;;
                  let '(rc, userdn0, username0) := checked in
                  if negb (rc =? LDAP_SUCCESS)
                  then
                    (if negb (rc =? LDAP_NO_SUCH_OBJECT)
                     then
                       WRITE_INT32 NSLCD_RESULT_BEGIN ;;
                       WRITE_STRING username0 ;;
                       WRITE_STRING "" ;;
                       WRITE_INT32 NSLCD_PAM_AUTHINFO_UNAVAIL ;;
                       WRITE_INT32 NSLCD_PAM_SUCCESS ;;
                       WRITE_STRING "LDAP server unavaiable"
                     else ret tt) ;;
                    WRITE_INT32 NSLCD_RESULT_END ;;
                    return_ (-1)
                  else ret (username0, userdn0, password)) ;;
               let '(username0, userdn0, password0) := resolved in
               rc <- try_bind env userdn0 password0 ;;
               WRITE_INT32 NSLCD_RESULT_BEGIN ;;
               WRITE_STRING username0 ;;
               WRITE_STRING userdn0 ;;
               WRITE_INT32
                 (if rc =? LDAP_SUCCESS then NSLCD_PAM_SUCCESS
                  else if rc =? LDAP_INVALID_CREDENTIALS
                       then NSLCD_PAM_AUTH_ERR else NSLCD_PAM_AUTH_ERR) ;;
               WRITE_INT32 NSLCD_PAM_SUCCESS ;;
               WRITE_STRING "" ;;
               WRITE_INT32 NSLCD_RESULT_END ;;
               ret 0) w2))
      = call_validate_user userdn username :: rest).
  { pose proof (validate_user_frame env session userdn 256 username 256 w2) as Hv.
    destruct (validate_user env session userdn 256 username 256 w2)
      as [[[[rc dn] un]|r|] w3] eqn:Hvu;
      destruct Hv as (_ & _ & rest & Hc); rewrite Hcalls2 in Hc.
    - run_step. rewrite (bind_val _ _ _ _ _ Hvu).
      destruct (rc =? LDAP_SUCCESS); cbn [negb].
      + run_step.
        destruct (try_bind_frame env dn password w3)
          as (rb & w4 & Htb & _ & _ & rest' & Hc' & _).
        rewrite (bind_val _ _ _ _ _ Htb). repeat run_step.
        eexists. apply calls_since_app. cbn [snd ret return_ wrote calls].
        rewrite Hc', Hc, <- app_assoc. reflexivity.
      + destruct (rc =? LDAP_NO_SUCH_OBJECT); cbn [negb]; repeat run_step;
          exists rest; apply calls_since_app; cbn [snd ret return_ wrote calls]; exact Hc.
    - run_step. rewrite (bind_returned _ _ _ _ _ Hvu).
      exists rest. apply calls_since_app. exact Hc.
    - unfold bind at 1 2. rewrite Hvu.
      exists rest. apply calls_since_app. exact Hc. }
  destruct (is_empty username); [destruct (ldc_rootpwmoddn cfg) as [admin|]|];
    [|exact Hnormal|exact Hnormal].
  assert (Habort : calls_since w (snd (@return_ Z (-1) w2)) = []).
  { unfold calls_since. cbn [snd return_]. rewrite Hcalls2.
    rewrite <- (app_nil_r (calls w)) at 2. apply skipn_length_app. }
  destruct (256 <=? strlen admin).
  { run_step. split; [exact Habort | reflexivity]. }
  destruct (is_empty password && (calleruid =? 0));
    [destruct (ldc_rootpwmodpw cfg) as [secret|]; [destruct (64 <=? strlen secret)|]|].
  - run_step. split; [exact Habort | reflexivity].
  - run_step. apply Hbind.
  - run_step. apply Hbind.
  - run_step. apply Hbind.
Qed.

(** C1, as the code has it: normal resolution is skipped exactly when
    the username is empty and an administrator DN is configured, and it
    comes first otherwise.  In the bypass an administrator DN of 256
    bytes or more aborts the request with -1 before any call; one that
    fits is the DN of the bind.  The bind carries the configured
    administrator secret when the request's secret is empty, the caller
    is uid 0 and the configured secret fits in 64 bytes (one that does
    not fit aborts the request with -1); when one of these three
    conditions fails the bypass stays and the bind carries the request's
    own secret. *)
Theorem authc_administrative_bypass cfg env session calleruid w
    username userdn servicename password w1 :
  authc_request w = (Val (username, userdn, servicename, password), w1) ->
  let run := nslcd_pam_authc cfg env session calleruid w in
  let made := calls_since w (snd run) in
  (List.existsb is_validate_user made = false
   <-> username = EmptyString /\ ldc_rootpwmoddn cfg <> None)
  /\ (~ (username = EmptyString /\ ldc_rootpwmoddn cfg <> None) ->
      List.head made = Some (call_validate_user userdn username))
  /\ (forall admin,
        username = EmptyString -> ldc_rootpwmoddn cfg = Some admin ->
        (256 <= strlen admin -> made = [] /\ returns (fst run) = Some (-1))
        /\ (strlen admin < 256 ->
            (forall secret,
               password = EmptyString -> calleruid = 0 ->
               ldc_rootpwmodpw cfg = Some secret ->
               (strlen secret < 64 ->
                List.head made = Some (call_try_bind admin secret))
               /\ (64 <= strlen secret ->
                   made = [] /\ returns (fst run) = Some (-1)))
            /\ (~ (password = EmptyString /\ calleruid = 0
                   /\ ldc_rootpwmodpw cfg <> None) ->
                List.head made = Some (call_try_bind admin password)))).
Proof.
  intros Hreq run made.
  pose proof (authc_calls cfg env session calleruid w _ _ _ _ _ Hreq) as H.
  cbv zeta in H. fold run in H. fold made in H.
  clearbody made run. clear Hreq.
  assert (Hnormal : (exists rest, made = call_validate_user userdn username :: rest) ->
                    ~ (username = EmptyString /\ ldc_rootpwmoddn cfg <> None) ->
                    (List.existsb is_validate_user made = false
                     <-> username = EmptyString /\ ldc_rootpwmoddn cfg <> None)
                    /\ (~ (username = EmptyString /\ ldc_rootpwmoddn cfg <> None) ->
                        List.head made = Some (call_validate_user userdn username))).
  { intros [rest ->] Hno. split; [split|].
    - intros Hex. discriminate Hex.
    - intros Hyes. contradiction.
    - intros _. reflexivity. }
  destruct (is_empty username) eqn:Hu.
  2:{ assert (Hne : username <> EmptyString)
        by (intros ->; discriminate Hu).
      destruct (Hnormal H) as [H1 H2]; [tauto|].
      split; [exact H1|]. split; [exact H2|].
      intros admin ->. contradiction. }
  apply is_empty_true in Hu. subst username.
  destruct (ldc_rootpwmoddn cfg) as [admin|] eqn:Hadm.
  2:{ destruct (Hnormal H) as [H1 H2]; [intros [_ Hc]; congruence|].
      split; [exact H1|]. split; [exact H2|].
      intros admin _ Hc. discriminate Hc. }
  clear Hnormal.
  assert (Hyes : EmptyString = EmptyString /\ Some admin <> None)
    by (split; [reflexivity | discriminate]).
  assert (Habort : made = [] ->
            List.existsb is_validate_user made = false
            <-> EmptyString = EmptyString /\ Some admin <> None).
  { intros ->. split; [intros _; exact Hyes | reflexivity]. }
  assert (Hbind : forall secret,
            (exists rest, made = call_try_bind admin secret :: rest
                          /\ List.existsb is_validate_user rest = false) ->
            (List.existsb is_validate_user made = false
             <-> EmptyString = EmptyString /\ Some admin <> None)
            /\ List.head made = Some (call_try_bind admin secret)).
  { intros secret (rest & -> & Hrest). split; [|reflexivity].
    split; [intros _; exact Hyes | intros _; exact Hrest]. }
  destruct (256 <=? strlen admin) eqn:Hlen.
  { apply Z.leb_le in Hlen. destruct H as [Hmade Hret].
    split; [exact (Habort Hmade)|]. split; [intros Hno; contradiction|].
    intros admin' _ [= <-]. split; [auto|]. intros Hlt. lia. }
  apply Z.leb_gt in Hlen.
  destruct (is_empty password) eqn:Hp; cbn [andb] in H.
  2:{ destruct (Hbind _ H) as [H1 H2].
      split; [exact H1|]. split; [intros Hno; contradiction|].
      intros admin' _ [= <-]. split; [intros; lia|]. intros _. split.
      - intros secret ->. discriminate Hp.
      - intros _. exact H2. }
  apply is_empty_true in Hp. subst password.
  destruct (calleruid =? 0) eqn:Huid.
  2:{ destruct (Hbind _ H) as [H1 H2].
      split; [exact H1|]. split; [intros Hno; contradiction|].
      intros admin' _ [= <-]. split; [intros; lia|]. intros _. split.
      - intros secret _ ->. discriminate Huid.
      - intros _. exact H2. }
  apply Z.eqb_eq in Huid. subst calleruid.
  destruct (ldc_rootpwmodpw cfg) as [secret|] eqn:Hpw.
  2:{ destruct (Hbind _ H) as [H1 H2].
      split; [exact H1|]. split; [intros Hno; contradiction|].
      intros admin' _ [= <-]. split; [intros; lia|]. intros _. split.
      - intros secret _ _ Hc. discriminate Hc.
      - intros _. exact H2. }
  destruct (64 <=? strlen secret) eqn:Hslen.
  - apply Z.leb_le in Hslen. destruct H as [Hmade Hret].
    split; [exact (Habort Hmade)|]. split; [intros Hno; contradiction|].
    intros admin' _ [= <-]. split; [intros; lia|]. intros _. split.
    + intros secret' _ _ [= <-]. split; [intros; lia | auto].
    + intros Hno. exfalso. apply Hno. repeat split; discriminate.
  - apply Z.leb_gt in Hslen. destruct (Hbind _ H) as [H1 H2].
    split; [exact H1|]. split; [intros Hno; contradiction|].
    intros admin' _ [= <-]. split; [intros; lia|]. intros _. split.
    + intros secret' _ _ [= <-]. split; [intros _; exact H2 | intros; lia].
    + intros Hno. exfalso. apply Hno. repeat split; discriminate.
Qed.

Lemma authc_administrative_bypass_witness :
  let env := example_env (None, LDAP_SUCCESS) in
  let w := world_with (request_bytes [""; ""; "sshd"; ""]%string) in
  List.head (calls_since w (snd (nslcd_pam_authc example_cfg env handler_session 0 w)))
  = Some (call_try_bind admin_dn "adminsecret").
Proof.
  intros env w.
  pose proof (authc_administrative_bypass example_cfg env handler_session 0 w
                "" "" "sshd" "" (snd (authc_request w)) eq_refl) as H.
  destruct H as (_ & _ & H).
  destruct (H admin_dn eq_refl eq_refl) as [_ H2].
  destruct (H2 eq_refl) as [H3 _].
  exact (proj1 (H3 "adminsecret"%string eq_refl eq_refl eq_refl) eq_refl).
Defined.

(** C1 as stated fails twice.  With an empty username, a configured
    administrator DN and a non-empty secret, one condition of the
    substitution fails and the handler still does not resolve the user:
    it binds as the administrator with the request's secret.  And with
    all five conditions true and an administrator secret of 64 bytes,
    nothing is substituted: the request is aborted before any bind. *)
Lemma authc_bypass_is_not_all_or_nothing :
  let env := example_env (None, LDAP_SUCCESS) in
  (let w := world_with (request_bytes [""; ""; "sshd"; "x"]%string) in
   let made := calls_since w (snd (nslcd_pam_authc example_cfg env handler_session 0 w)) in
   fst (authc_request w) = Val (""%string, ""%string, "sshd"%string, "x"%string)
   /\ ldc_rootpwmoddn example_cfg = Some admin_dn
   /\ List.existsb is_validate_user made = false
   /\ List.head made = Some (call_try_bind admin_dn "x"))
  /\ (let w := world_with (request_bytes [""; ""; "sshd"; ""]%string) in
      let run := nslcd_pam_authc long_secret_cfg env handler_session 0 w in
      fst (authc_request w) = Val (""%string, ""%string, "sshd"%string, ""%string)
      /\ ldc_rootpwmodpw long_secret_cfg <> None
      /\ calls_since w (snd run) = []
      /\ fst run = Returned (-1)).
Proof. vm_compute. repeat split; discriminate. Qed.

(** C6: in an authenticate request that goes through normal
    resolution, a resolution that fails with LDAP_NO_SUCH_OBJECT gives a
    response with no result record before the end marker; one that
    fails with any other code gives exactly one record, with the
    unavailable status; and a resolution that succeeds followed by a
    bind that fails gives exactly one record, with the auth-error
    status. *)
Theorem authc_failure_responses cfg env session calleruid w
    username userdn servicename password w1 rc dn un w3 :
  authc_request w = (Val (username, userdn, servicename, password), w1) ->
  username <> EmptyString \/ ldc_rootpwmoddn cfg = None ->
  validate_user env session userdn 256 username 256
    (after_header NSLCD_ACTION_PAM_AUTHC w1) = (Val (rc, dn, un), w3) ->
  let run := nslcd_pam_authc cfg env session calleruid w in
  (rc = LDAP_NO_SUCH_OBJECT ->
   returns (fst run) = Some (-1)
   /\ tout (snd run) = tout w ++ response NSLCD_ACTION_PAM_AUTHC [])
  /\ (rc <> LDAP_SUCCESS -> rc <> LDAP_NO_SUCH_OBJECT ->
      returns (fst run) = Some (-1)
      /\ tout (snd run)
         = tout w ++ response NSLCD_ACTION_PAM_AUTHC
                       [authc_record un "" NSLCD_PAM_AUTHINFO_UNAVAIL
                          NSLCD_PAM_SUCCESS "LDAP server unavaiable"])
  /\ (rc = LDAP_SUCCESS ->
      forall rb w4, try_bind env dn password w3 = (Val rb, w4) ->
        rb <> LDAP_SUCCESS ->
        returns (fst run) = Some 0
        /\ tout (snd run)
           = tout w ++ response NSLCD_ACTION_PAM_AUTHC
                         [authc_record un dn NSLCD_PAM_AUTH_ERR
                            NSLCD_PAM_SUCCESS ""]).
Proof.
  intros Hreq Hnormal Hvu run. subst run.
  apply authc_request_inv in Hreq as [Hw1 Hk].
  assert (Hout1 : tout w1 = tout w) by (rewrite Hw1; reflexivity).
  unfold nslcd_pam_authc. rewrite Hk. clear Hk.
  do 2 run_step. rewrite wrote_wrote.
  change ([WR_INT32 (to_int32 NSLCD_VERSION)] ++ [WR_INT32 (to_int32 NSLCD_ACTION_PAM_AUTHC)])
    with [WR_INT32 NSLCD_VERSION; WR_INT32 NSLCD_ACTION_PAM_AUTHC].
  fold (after_header NSLCD_ACTION_PAM_AUTHC w1).
  pose proof (validate_user_frame env session userdn 256 username 256
                (after_header NSLCD_ACTION_PAM_AUTHC w1)) as Hframe.
  rewrite Hvu in Hframe. destruct Hframe as (_ & Hout3 & _).
  cbn [after_header wrote tout] in Hout3. rewrite Hout1 in Hout3.
  assert (Hgo : forall (k : string * string * string -> M Z),
            (resolved <-
               match is_empty username, ldc_rootpwmoddn cfg with
               | true, Some rootpwmoddn =>
                   if 256 <=? strlen rootpwmoddn then return_ (-1)
                   else
                     let userdn := rootpwmoddn in
                     match is_empty password && (calleruid =? 0), ldc_rootpwmodpw cfg with
                     | true, Some rootpwmodpw =>
                         if 64 <=? strlen rootpwmodpw then return_ (-1)
                         else ret (username, userdn, rootpwmodpw)
                     | _, _ => ret (username, userdn, password)
                     end
               | _, _ =>
                   checked <- validate_user env session userdn 256 username 256 ;;
                   let '(rc, userdn, username) := checked in
                   if negb (rc =? LDAP_SUCCESS)
                   then
                     (if negb (rc =? LDAP_NO_SUCH_OBJECT)
                      then
                        WRITE_INT32 NSLCD_RESULT_BEGIN ;;
                        WRITE_STRING username ;;
                        WRITE_STRING "" ;;
                        WRITE_INT32 NSLCD_PAM_AUTHINFO_UNAVAIL ;;
                        WRITE_INT32 NSLCD_PAM_SUCCESS ;;
                        WRITE_STRING "LDAP server unavaiable"
                      else ret tt) ;;
                     WRITE_INT32 NSLCD_RESULT_END ;;
                     return_ (-1)
                   else ret (username, userdn, password)
               end ;; k resolved) (after_header NSLCD_ACTION_PAM_AUTHC w1)
            = (resolved <-
                 (if negb (rc =? LDAP_SUCCESS)
                  then
                    (if negb (rc =? LDAP_NO_SUCH_OBJECT)
                     then
                       WRITE_INT32 NSLCD_RESULT_BEGIN ;;
                       WRITE_STRING un ;;
                       WRITE_STRING "" ;;
                       WRITE_INT32 NSLCD_PAM_AUTHINFO_UNAVAIL ;;
                       WRITE_INT32 NSLCD_PAM_SUCCESS ;;
                       WRITE_STRING "LDAP server unavaiable"
                     else ret tt) ;;
                    WRITE_INT32 NSLCD_RESULT_END ;;
                    return_ (-1)
                  else ret (un, dn, password)) ;; k resolved) w3).
  { intros k.
    destruct Hnormal as [Hne | Hnone].
    - destruct (is_empty username) eqn:Hu;
        [apply is_empty_true in Hu; contradiction|].
      rewrite bind_assoc, (bind_val _ _ _ _ _ Hvu). reflexivity.
    - rewrite Hnone. destruct (is_empty username);
        rewrite bind_assoc, (bind_val _ _ _ _ _ Hvu); reflexivity. }
  rewrite Hgo. clear Hgo.
  split; [|split].
  - intros ->. cbn [Z.eqb LDAP_NO_SUCH_OBJECT LDAP_SUCCESS negb].
    repeat run_step. cbn [fst snd returns return_ wrote tout].
    split; [reflexivity|]. rewrite Hout3.
    unfold response. cbn [List.concat app]. rewrite <- !app_assoc. reflexivity.
  - intros Hrc Hrc'. apply Z.eqb_neq in Hrc, Hrc'. rewrite Hrc, Hrc'. cbn [negb].
    repeat run_step. cbn [fst snd returns return_ wrote tout].
    split; [reflexivity|]. rewrite Hout3.
    unfold response, authc_record. cbn [List.concat]. rewrite app_nil_r.
    rewrite <- !app_assoc. reflexivity.
  - intros -> rb w4 Htb Hrb. cbn [Z.eqb LDAP_SUCCESS negb].
    run_step. cbv beta iota. rewrite (bind_val _ _ _ _ _ Htb). repeat run_step.
    cbn [fst snd returns ret wrote tout].
    split; [reflexivity|].
    destruct (try_bind_frame env dn password w3)
      as (rb' & w4' & Htb' & _ & Hout4 & _).
    rewrite Htb in Htb'. injection Htb' as <- <-. rewrite Hout4, Hout3.
    apply Z.eqb_neq in Hrb. rewrite Hrb.
    replace (if rb =? LDAP_INVALID_CREDENTIALS then NSLCD_PAM_AUTH_ERR else NSLCD_PAM_AUTH_ERR)
      with NSLCD_PAM_AUTH_ERR by (destruct (rb =? LDAP_INVALID_CREDENTIALS); reflexivity).
    unfold response, authc_record. cbn [List.concat]. rewrite app_nil_r.
    rewrite <- !app_assoc. reflexivity.
Qed.

Lemma authc_failure_responses_witness :
  let env := example_env (None, LDAP_SUCCESS) in
  let unknown := world_with (request_bytes ["bob"; ""; "sshd"; "pw"]%string) in
  let wrong := world_with (request_bytes ["alice"; ""; "sshd"; "wrong"]%string) in
  tout (snd (nslcd_pam_authc example_cfg env handler_session 1000 unknown))
  = tout unknown ++ response NSLCD_ACTION_PAM_AUTHC []
  /\ tout (snd (nslcd_pam_authc example_cfg env handler_session 1000 wrong))
     = tout wrong ++ response NSLCD_ACTION_PAM_AUTHC
         [authc_record "alice" alice_dn NSLCD_PAM_AUTH_ERR NSLCD_PAM_SUCCESS ""].
Proof.
  intros env unknown wrong. split.
  - assert (Hreq : authc_request unknown
                   = (Val ("bob", "", "sshd", "pw")%string, world_with []))
      by (vm_compute; reflexivity).
    assert (Hvu : validate_user env handler_session "" 256 "bob" 256
                    (after_header NSLCD_ACTION_PAM_AUTHC (world_with []))
                  = (Val (LDAP_NO_SUCH_OBJECT, ""%string, "bob"%string),
                     snd (validate_user env handler_session "" 256 "bob" 256
                            (after_header NSLCD_ACTION_PAM_AUTHC (world_with [])))))
      by (vm_compute; reflexivity).
    assert (Hne : "bob"%string <> EmptyString) by discriminate.
    exact (proj2 (proj1 (authc_failure_responses example_cfg env handler_session
                           1000 unknown _ _ _ _ _ _ _ _ _ Hreq (or_introl Hne) Hvu)
                        eq_refl)).
  - assert (Hreq : authc_request wrong
                   = (Val ("alice", "", "sshd", "wrong")%string, world_with []))
      by (vm_compute; reflexivity).
    assert (Hvu : validate_user env handler_session "" 256 "alice" 256
                    (after_header NSLCD_ACTION_PAM_AUTHC (world_with []))
                  = (Val (LDAP_SUCCESS, alice_dn, "alice"%string),
                     snd (validate_user env handler_session "" 256 "alice" 256
                            (after_header NSLCD_ACTION_PAM_AUTHC (world_with [])))))
      by (vm_compute; reflexivity).
    assert (Htb : try_bind env alice_dn "wrong"
                    (snd (validate_user env handler_session "" 256 "alice" 256
                            (after_header NSLCD_ACTION_PAM_AUTHC (world_with []))))
                  = (Val LDAP_INVALID_CREDENTIALS,
                     snd (try_bind env alice_dn "wrong"
                            (snd (validate_user env handler_session "" 256 "alice" 256
                                    (after_header NSLCD_ACTION_PAM_AUTHC (world_with [])))))))
      by (vm_compute; reflexivity).
    assert (Hne : "alice"%string <> EmptyString) by discriminate.
    assert (Hrb : LDAP_INVALID_CREDENTIALS <> LDAP_SUCCESS) by discriminate.
    exact (proj2 (proj2 (proj2 (authc_failure_responses example_cfg env handler_session
                                  1000 wrong _ _ _ _ _ _ _ _ _ Hreq (or_introl Hne) Hvu))
                        eq_refl _ _ Htb Hrb)).
Defined.
(** ** nslcd_pam_authz *)

(** C3 fails on the code: alice resolves, the subtree search of the
    authorisation check fails, and after the permission-denied record
    and its end marker the handler goes on to write the success record
    and a second end marker, and returns 0. *)
Theorem authz_denial_is_followed_by_success_record :
  let env := example_env (None, LDAP_UNAVAILABLE) in
  let w := world_with (request_bytes ["alice"; ""; "sshd"; ""; ""; "tty1"]%string) in
  let run := nslcd_pam_authz example_cfg env handler_session w in
  ans_uid2entry env handler_session "alice" = (Some 1%nat, LDAP_SUCCESS)
  /\ ans_search env handler_session (Some "dc=example,dc=com"%string)
       LDAP_SCOPE_SUBTREE "(uid=alice)" ["dn"%string] = (None, LDAP_UNAVAILABLE)
  /\ returns (fst run) = Some 0
  /\ tout (snd run)
     = response NSLCD_ACTION_PAM_AUTHZ
         [authz_record "alice" alice_dn NSLCD_PAM_PERM_DENIED
            "LDAP authorisation check failed"]
       ++ authz_record "alice" alice_dn NSLCD_PAM_SUCCESS ""
       ++ [WR_INT32 NSLCD_RESULT_END].
Proof. vm_compute. repeat split. Qed.

(** ** Addresses *)

Lemma Z_of_byte_of_Z z : Z_of_byte (byte_of_Z z) = z mod 256.
Proof.
  unfold Z_of_byte, byte_of_Z.
  assert (Hz : 0 <= z mod 256 < 256) by (apply Z.mod_pos_bound; lia).
  destruct (Byte.of_N (Z.to_N (z mod 256))) as [b|] eqn:E.
  - apply Byte.to_of_N in E. rewrite E. apply Z2N.id. lia.
  - pose proof (Byte.to_of_N_option_map (Z.to_N (z mod 256))) as H.
    rewrite E in H. cbn in H.
    destruct (N.leb_spec (Z.to_N (z mod 256)) 255) as [_ | Hgt]; [discriminate H|].
    lia.
Qed.

Lemma int32_of_bytes_int32_bytes v : int32_of_bytes (int32_bytes v) = to_int32 v.
Proof.
  unfold int32_of_bytes, int32_bytes. cbv zeta.
  rewrite !Z_of_byte_of_Z. unfold to_int32.
  assert (Hu : 0 <= v mod 2^32 < 2^32) by (apply Z.mod_pos_bound; lia).
  set (u := v mod 2^32) in *.
  replace ((u / 2^24) mod 256 * 2^24 + (u / 2^16) mod 256 * 2^16
           + (u / 2^8) mod 256 * 2^8 + u mod 256) with u.
  - subst u. f_equal. rewrite <- Zplus_mod_idemp_l. rewrite Z.mod_mod by lia.
    rewrite Zplus_mod_idemp_l. reflexivity.
  - change (2^24) with 16777216. change (2^16) with 65536.
    change (2^8) with 256. change (2^32) with 4294967296 in Hu.
    Z.div_mod_to_equations. lia.
Qed.

Lemma READ_bytes bs rest w :
  tin w = bs ++ rest ->
  READ (Z.of_nat (List.length bs)) w = (Val bs, set_tin rest w).
Proof.
  intros H. unfold READ. rewrite H, length_app, Nat2Z.id.
  destruct (Z.ltb_spec (Z.of_nat (List.length bs + List.length rest))
              (Z.of_nat (List.length bs))) as [Hlt | _]; [lia|].
  rewrite skipn_length_app.
  rewrite firstn_app, Nat.sub_diag, firstn_all. cbn [firstn].
  rewrite app_nil_r. reflexivity.
Qed.

Lemma READ_INT32_bytes v rest w :
  tin w = int32_bytes v ++ rest ->
  READ_INT32 w = (Val (to_int32 v), set_tin rest w).
Proof.
  intros H. unfold READ_INT32.
  rewrite (bind_val _ _ _ _ _ (READ_bytes (int32_bytes v) rest w H)).
  unfold ret. rewrite int32_of_bytes_int32_bytes. reflexivity.
Qed.

Lemma writes_since_wrote xs w : writes_since w (wrote xs w) = xs.
Proof. unfold writes_since. cbn [wrote tout]. apply skipn_length_app. Qed.

(** C9: an address that parses as IPv4 is written as AF_INET, 4 and its
    four bytes, and [read_address] reads exactly that back when the
    caller's buffer holds 4 bytes; an address that parses as neither
    family is written as -1 and 0 with return value 0, and reading that
    pair back fails with -1; [read_address] fails with -1 on every
    family other than AF_INET and AF_INET6, and on every declared
    length that is not positive or exceeds the caller's buffer. *)
Theorem address_round_trip pton4 pton6 :
  (forall addr a w fp rest buf addrlen af0,
     pton4 addr = Some a -> 4 <= addrlen ->
     let run := write_address pton4 pton6 addr w in
     tin fp = wire (writes_since w (snd run)) ++ rest ->
     fst run = Val 0
     /\ writes_since w (snd run)
        = [WR_INT32 AF_INET; WR_INT32 4; WR_BYTES (in_addr_bytes a)]
     /\ read_address buf addrlen af0 fp
        = (Val (0, (in_addr_bytes a ++ skipn 4 buf, 4, AF_INET)), set_tin rest fp))
  /\ (forall addr w fp rest buf addrlen af0,
        pton4 addr = None -> pton6 addr = None ->
        let run := write_address pton4 pton6 addr w in
        tin fp = wire (writes_since w (snd run)) ++ rest ->
        fst run = Val 0
        /\ writes_since w (snd run) = [WR_INT32 (-1); WR_INT32 0]
        /\ address_status (fst (read_address buf addrlen af0 fp)) = Some (-1))
  /\ (forall buf addrlen af0 fp family fp1,
        READ_INT32 fp = (Val family, fp1) ->
        family <> AF_INET -> family <> AF_INET6 ->
        read_address buf addrlen af0 fp = (Val (-1, (buf, addrlen, family)), fp1))
  /\ (forall buf addrlen af0 fp family fp1 len fp2,
        READ_INT32 fp = (Val family, fp1) ->
        family = AF_INET \/ family = AF_INET6 ->
        READ_INT32 fp1 = (Val len, fp2) ->
        len <= 0 \/ addrlen < len ->
        read_address buf addrlen af0 fp = (Val (-1, (buf, addrlen, family)), fp2)).
Proof.
  assert (Hfamily : forall buf addrlen af0 fp family fp1,
            READ_INT32 fp = (Val family, fp1) ->
            family <> AF_INET -> family <> AF_INET6 ->
            read_address buf addrlen af0 fp = (Val (-1, (buf, addrlen, family)), fp1)).
  { intros buf addrlen af0 fp family fp1 Hread Hne4 Hne6.
    unfold read_address. rewrite (bind_val _ _ _ _ _ Hread).
    apply Z.eqb_neq in Hne4, Hne6. rewrite Hne4, Hne6. reflexivity. }
  split; [|split; [|split]].
  - intros addr a w fp rest buf addrlen af0 Hparse Hlen run. subst run.
    unfold write_address. rewrite Hparse.
    repeat run_step. rewrite !wrote_wrote.
    cbn [fst snd ret app]. rewrite writes_since_wrote.
    change (to_int32 AF_INET) with AF_INET. change (to_int32 4) with 4.
    intros Hin. split; [reflexivity|]. split; [reflexivity|].
    cbn [wire flat_map wr_bytes] in Hin. rewrite app_nil_r, <- !app_assoc in Hin.
    unfold read_address.
    rewrite (bind_val _ _ _ _ _ (READ_INT32_bytes _ _ _ Hin)).
    change (to_int32 AF_INET) with AF_INET. cbn [Z.eqb AF_INET negb andb Pos.eqb].
    rewrite (bind_val _ _ _ _ _ (READ_INT32_bytes 4 _ (set_tin _ fp) eq_refl)).
    change (to_int32 4) with 4.
    destruct (Z.ltb_spec addrlen 4) as [Hlt|_]; [lia|]. cbn [orb Z.leb Z.compare].
    destruct a as [[[b0 b1] b2] b3].
    rewrite (bind_val _ _ _ _ _
               (READ_bytes (in_addr_bytes (b0, b1, b2, b3)) rest
                  (set_tin (in_addr_bytes (b0, b1, b2, b3) ++ rest) (set_tin _ fp))
                  eq_refl)).
    reflexivity.
  - intros addr w fp rest buf addrlen af0 Hno4 Hno6 run. subst run.
    unfold write_address. rewrite Hno4, Hno6.
    repeat run_step. rewrite !wrote_wrote.
    cbn [fst snd ret app]. rewrite writes_since_wrote.
    change (to_int32 (-1)) with (-1). change (to_int32 0) with 0.
    intros Hin. split; [reflexivity|]. split; [reflexivity|].
    cbn [wire flat_map wr_bytes] in Hin. rewrite app_nil_r, <- !app_assoc in Hin.
    rewrite (Hfamily buf addrlen af0 fp (-1) _ (READ_INT32_bytes _ _ _ Hin));
      [reflexivity | discriminate | discriminate].
  - exact Hfamily.
  - intros buf addrlen af0 fp family fp1 len fp2 Hread Hfam Hread' Hbad.
    unfold read_address. rewrite (bind_val _ _ _ _ _ Hread).
    assert (Hok : negb (family =? AF_INET) && negb (family =? AF_INET6) = false).
    { destruct Hfam as [-> | ->]; reflexivity. }
    rewrite Hok, (bind_val _ _ _ _ _ Hread').
    assert (Hlen : (addrlen <? len) || (len <=? 0) = true).
    { destruct Hbad as [H | H].
      - apply Z.leb_le in H. rewrite H. apply orb_true_r.
      - apply Z.ltb_lt in H. rewrite H. reflexivity. }
    rewrite Hlen. reflexivity.
Qed.

Lemma address_round_trip_witness :
  let w := world_with [] in
  let good := write_address dotted_quad no_inet6 "192.0.2.1" w in
  let bad := write_address dotted_quad no_inet6 "not-an-address" w in
  read_address [] 16 0 (world_with (wire (writes_since w (snd good))))
  = (Val (0, (["192"; "000"; "002"; "001"]%byte, 4, AF_INET)), world_with [])
  /\ address_status
       (fst (read_address [] 16 0 (world_with (wire (writes_since w (snd bad))))))
     = Some (-1).
Proof.
  intros w good bad.
  destruct (address_round_trip dotted_quad no_inet6) as (Hgood & Hbad & _ & _).
  split.
  - assert (Hlen : 4 <= 16) by (intros H; discriminate H).
    assert (Hin : tin (world_with (wire (writes_since w (snd good))))
                  = wire (writes_since w (snd good)) ++ [])
      by (symmetry; apply app_nil_r).
    exact (proj2 (proj2 (Hgood "192.0.2.1"%string
                           ("192"%byte, "000"%byte, "002"%byte, "001"%byte)
                           w (world_with (wire (writes_since w (snd good))))
                           [] [] 16 0 eq_refl Hlen Hin))).
  - assert (Hin : tin (world_with (wire (writes_since w (snd bad))))
                  = wire (writes_since w (snd bad)) ++ [])
      by (symmetry; apply app_nil_r).
    exact (proj2 (proj2 (Hbad "not-an-address"%string w
                           (world_with (wire (writes_since w (snd bad))))
                           [] [] 16 0 eq_refl eq_refl Hin))).
Defined.


(** * Further properties of the code *)

(** ** isvalidname *)

Lemma isvalidname_accepts_iff L s :
  isvalidname L (Some s) <> 0 <-> name_rejected L s = false.
Proof.
  rewrite name_rejected_from.
  destruct s as [|c rest].
  - cbn. split; [intros H; contradiction | discriminate].
  - cbn [isvalidname is_empty orb].
    rewrite isvalidname_loop_spec by (destruct L; [lia | exact I]).
    destruct (rejected_from L 0 (String c rest)); split;
      intros H; try discriminate; try reflexivity; contradiction.
Qed.

Lemma name_rejected_false L s :
  name_rejected L s = false ->
  is_empty s = false
  /\ forallb in_alphabet (list_ascii_of_string s) = true
  /\ is_one_of ["-"; "~"; "\"; " "]%char (first_char s) = false
  /\ is_one_of ["\"; " "]%char (last_char s) = false
  /\ exceeds L s = false.
Proof.
  unfold name_rejected. intros H.
  apply orb_false_iff in H as [H Hx].
  apply orb_false_iff in H as [H Hl].
  apply orb_false_iff in H as [H Hf].
  apply orb_false_iff in H as [He Ha].
  apply negb_false_iff in Ha. auto.
Qed.

Lemma name_rejected_false_intro L s :
  is_empty s = false ->
  forallb in_alphabet (list_ascii_of_string s) = true ->
  is_one_of ["-"; "~"; "\"; " "]%char (first_char s) = false ->
  is_one_of ["\"; " "]%char (last_char s) = false ->
  exceeds L s = false ->
  name_rejected L s = false.
Proof.
  unfold name_rejected. intros -> -> -> -> ->. reflexivity.
Qed.

(** X1: a name [isvalidname] accepts is made of characters of the
    alphabet only; in particular it holds no '*', no '(' and no ')',
    the characters that would change the meaning of a search filter it
    is put into. *)
Theorem isvalidname_accepts_no_filter_metacharacter L s c :
  isvalidname L (Some s) <> 0 ->
  In c (list_ascii_of_string s) ->
  In c name_alphabet /\ ~ In c ["*"; "("; ")"]%char.
Proof.
  intros Hok Hin.
  apply isvalidname_accepts_iff, name_rejected_false in Hok.
  destruct Hok as (_ & Hall & _).
  rewrite forallb_forall in Hall. specialize (Hall c Hin).
  unfold in_alphabet in Hall. apply existsb_exists in Hall.
  destruct Hall as (d & Hd & Heq). apply Ascii.eqb_eq in Heq. subst d.
  split; [exact Hd|].
  intros Hbad. cbn in Hbad.
  assert (Hno : in_alphabet c = false)
    by (destruct Hbad as [<- | [<- | [<- | []]]]; reflexivity).
  assert (Hyes : in_alphabet c = true).
  { unfold in_alphabet. apply existsb_exists. exists c. split; [exact Hd|].
    apply Ascii.eqb_refl. }
  congruence.
Qed.

Lemma isvalidname_accepts_no_filter_metacharacter_witness :
  In "$"%char name_alphabet /\ ~ In "$"%char ["*"; "("; ")"]%char.
Proof.
  assert (Hok : isvalidname (Some 256%nat) (Some "alice$"%string) <> 0)
    by (vm_compute; discriminate).
  assert (Hin : In "$"%char (list_ascii_of_string "alice$"))
    by (cbn; auto 10).
  exact (isvalidname_accepts_no_filter_metacharacter (Some 256%nat) "alice$" "$"
           Hok Hin).
Defined.

Lemma list_ascii_of_string_app (a b : string) :
  list_ascii_of_string (String.append a b)
  = (list_ascii_of_string a ++ list_ascii_of_string b)%list.
Proof.
  induction a as [|c a IH]; [reflexivity|].
  simpl. f_equal. exact IH.
Qed.

Lemma first_char_app (a b : string) :
  is_empty a = false -> first_char (String.append a b) = first_char a.
Proof. destruct a; [discriminate | reflexivity]. Qed.

Lemma last_char_app (a b : string) :
  is_empty b = false -> last_char (String.append a b) = last_char b.
Proof.
  intros Hb. induction a as [|c a IH]; [reflexivity|].
  change (String.append (String c a) b) with (String c (String.append a b)).
  rewrite last_char_cons, IH.
  destruct (String.append a b) eqn:E; [|reflexivity].
  destruct a as [|d a'].
  - change (b = EmptyString) in E. rewrite E in Hb. discriminate Hb.
  - change (String d (String.append a' b) = EmptyString) in E. discriminate E.
Qed.

Lemma string_length_app (a b : string) :
  String.length (String.append a b) = (String.length a + String.length b)%nat.
Proof.
  induction a as [|c a IH]; [reflexivity|].
  simpl. f_equal. exact IH.
Qed.

(** X2: two names [isvalidname] accepts, put one after the other, make
    a name it accepts, as long as the whole fits LOGIN_NAME_MAX where
    the platform defines it. *)
Theorem isvalidname_concat L a b :
  isvalidname L (Some a) <> 0 ->
  isvalidname L (Some b) <> 0 ->
  (forall m, L = Some m -> (String.length a + String.length b <= m)%nat) ->
  isvalidname L (Some (String.append a b)) <> 0.
Proof.
  intros Ha Hb Hlen.
  apply isvalidname_accepts_iff, name_rejected_false in Ha, Hb.
  destruct Ha as (Hea & Haa & Hfa & _ & _).
  destruct Hb as (Heb & Hab & _ & Hlb & _).
  apply isvalidname_accepts_iff, name_rejected_false_intro.
  - destruct a; [discriminate Hea | reflexivity].
  - rewrite list_ascii_of_string_app, forallb_app, Haa, Hab. reflexivity.
  - rewrite first_char_app by exact Hea. exact Hfa.
  - rewrite last_char_app by exact Heb. exact Hlb.
  - unfold exceeds. destruct L as [m|]; [|reflexivity].
    rewrite string_length_app. apply Nat.ltb_ge. apply Hlen. reflexivity.
Qed.

Lemma isvalidname_concat_witness :
  isvalidname (Some 256%nat) (Some (String.append "alice" ".smith")) <> 0.
Proof.
  assert (Ha : isvalidname (Some 256%nat) (Some "alice"%string) <> 0)
    by (vm_compute; discriminate).
  assert (Hb : isvalidname (Some 256%nat) (Some ".smith"%string) <> 0)
    by (vm_compute; discriminate).
  assert (Hlen : forall m, Some 256%nat = Some m ->
                   (String.length "alice" + String.length ".smith" <= m)%nat).
  { intros m Hm. injection Hm as <-. cbn. lia. }
  exact (isvalidname_concat (Some 256%nat) "alice" ".smith" Ha Hb Hlen).
Defined.

(** X3: the platform bound only adds the length test: a name is
    accepted under LOGIN_NAME_MAX = m exactly when it is accepted
    without a bound and holds at most m characters. *)
Theorem isvalidname_bound m s :
  isvalidname (Some m) (Some s) <> 0
  <-> isvalidname None (Some s) <> 0 /\ (String.length s <= m)%nat.
Proof.
  rewrite !isvalidname_accepts_iff. split.
  - intros H. apply name_rejected_false in H.
    destruct H as (He & Ha & Hf & Hl & Hx).
    split; [apply name_rejected_false_intro; auto|].
    unfold exceeds in Hx. apply Nat.ltb_ge in Hx. exact Hx.
  - intros [H Hlen]. apply name_rejected_false in H.
    destruct H as (He & Ha & Hf & Hl & _).
    apply name_rejected_false_intro; auto.
    unfold exceeds. apply Nat.ltb_ge. exact Hlen.
Qed.

Lemma isvalidname_bound_witness :
  isvalidname (Some 4%nat) (Some "alice"%string) = 0.
Proof.
  destruct (Z.eq_dec (isvalidname (Some 4%nat) (Some "alice"%string)) 0)
    as [H | H]; [exact H|].
  apply (isvalidname_bound 4 "alice") in H. destruct H as [_ Hlen].
  cbn in Hlen. lia.
Defined.

(** ** getfqdn *)



(** X5: the name [getfqdn] finds is a name of this host: the local
    hostname itself when it cannot be resolved, and otherwise the
    hostname, the canonical name of the host entry or one of its
    aliases. *)
Theorem getfqdn_names_the_host env w f :
  fqdn w = None ->
  fst (getfqdn env w) = Val (Some f) ->
  exists hostname,
    ans_gethostname env (HOST_NAME_MAX env + 1) = Some hostname
    /\ match ans_gethostbyname env hostname with
       | None => f = hostname
       | Some host => f = hostname \/ f = h_name host \/ In f (h_aliases host)
       end.
Proof.
  unfold getfqdn, strdup. intros ->.
  destruct (ans_gethostname env (HOST_NAME_MAX env + 1)) as [hostname|];
    [|discriminate].
  cbn [fst]. intros [= Hf]. exists hostname. split; [reflexivity|].
  destruct (ans_gethostbyname env hostname) as [host|].
  - destruct (starts_with_hostname hostname (h_name host)).
    { destruct (ans_malloc env _); [|discriminate Hf].
      injection Hf as <-. auto. }
    destruct (List.find (starts_with_hostname hostname) (h_aliases host))
      as [a|] eqn:Hfind.
    { injection Hf as <-. apply List.find_some in Hfind. tauto. }
    destruct (has_char "." (h_name host)).
    { destruct (ans_malloc env _); [|discriminate Hf].
      injection Hf as <-. auto. }
    destruct (List.find (has_char ".") (h_aliases host)) as [a|] eqn:Hdot.
    + destruct (ans_malloc env _); [|discriminate Hf].
      injection Hf as <-. apply List.find_some in Hdot. tauto.
    + destruct (ans_malloc env _); [|discriminate Hf].
      injection Hf as <-. auto.
  - destruct (ans_malloc env _); [|discriminate Hf].
    injection Hf as <-. reflexivity.
Qed.

Lemma getfqdn_names_the_host_witness :
  exists hostname,
    ans_gethostname (example_env (None, LDAP_SUCCESS))
      (HOST_NAME_MAX (example_env (None, LDAP_SUCCESS)) + 1) = Some hostname
    /\ match ans_gethostbyname (example_env (None, LDAP_SUCCESS)) hostname with
       | None => "host1.example.com"%string = hostname
       | Some host =>
           "host1.example.com"%string = hostname
           \/ "host1.example.com"%string = h_name host
           \/ In "host1.example.com"%string (h_aliases host)
       end.
Proof.
  exact (getfqdn_names_the_host (example_env (None, LDAP_SUCCESS)) (world_with [])
           "host1.example.com" eq_refl eq_refl).
Defined.

Lemma char_eq_dot c : char_eq c "." = true -> c = "."%char.
Proof.
  destruct c as [[] [] [] [] [] [] [] []]; vm_compute; intros H;
    first [reflexivity | discriminate H].
Qed.

Lemma string_get_in n : forall s c,
  String.get n s = Some c -> In c (list_ascii_of_string s).
Proof.
  induction n as [|n IH]; intros [|d s] c H; try discriminate H.
  - injection H as <-. left. reflexivity.
  - right. apply IH. exact H.
Qed.

Lemma starts_with_hostname_has_dot hostname name :
  starts_with_hostname hostname name = true -> has_char "." name = true.
Proof.
  unfold starts_with_hostname, char_at, has_char. intros H.
  apply andb_true_iff in H as [H _]. apply andb_true_iff in H as [_ H].
  destruct (String.get (String.length hostname) name) as [c|] eqn:Hget.
  - apply char_eq_dot in H. subst c.
    apply existsb_exists. exists "."%char. split; [|reflexivity].
    eapply string_get_in. exact Hget.
  - discriminate H.
Qed.

(** X6: when the host entry is found, [getfqdn] prefers a qualified
    name: it answers the canonical name when that starts with the
    hostname followed by a dot and more, and its answer holds a dot
    whenever the canonical name or some alias does. *)
Theorem getfqdn_prefers_qualified env w hostname host f :
  fqdn w = None ->
  ans_gethostname env (HOST_NAME_MAX env + 1) = Some hostname ->
  ans_gethostbyname env hostname = Some host ->
  fst (getfqdn env w) = Val (Some f) ->
  (starts_with_hostname hostname (h_name host) = true -> f = h_name host)
  /\ (has_char "." (h_name host) = true
      \/ (exists a, In a (h_aliases host) /\ has_char "." a = true) ->
      has_char "." f = true).
Proof.
  unfold getfqdn, strdup. intros -> -> ->. cbn [fst]. intros [= Hf].
  destruct (starts_with_hostname hostname (h_name host)) eqn:Hstart.
  { destruct (ans_malloc env _); [|discriminate Hf]. injection Hf as <-.
    split; [reflexivity|]. intros _.
    apply starts_with_hostname_has_dot with hostname. exact Hstart. }
  split; [discriminate|].
  destruct (List.find (starts_with_hostname hostname) (h_aliases host))
    as [a|] eqn:Hfind.
  { injection Hf as <-. intros _. apply List.find_some in Hfind.
    apply starts_with_hostname_has_dot with hostname. tauto. }
  destruct (has_char "." (h_name host)) eqn:Hname.
  { destruct (ans_malloc env _); [|discriminate Hf]. injection Hf as <-.
    intros _. exact Hname. }
  destruct (List.find (has_char ".") (h_aliases host)) as [a|] eqn:Hdot.
  - destruct (ans_malloc env _); [|discriminate Hf]. injection Hf as <-.
    intros _. apply List.find_some in Hdot. tauto.
  - intros [H | (a & Hin & Ha)]; [discriminate H|].
    pose proof (List.find_none _ _ Hdot a Hin) as Hno. congruence.
Qed.

Lemma getfqdn_prefers_qualified_witness :
  has_char "." "host1.example.com" = true.
Proof.
  exact (proj2 (getfqdn_prefers_qualified (example_env (None, LDAP_SUCCESS))
                  (world_with []) "host1"
                  {| h_name := "host1.example.com"; h_aliases := [] |}
                  "host1.example.com" eq_refl eq_refl eq_refl eq_refl)
               (or_introl eq_refl)).
Defined.

(** ** get_userpassword *)

Lemma substring_string_from n : forall s,
  s = String.append (substring 0 n s) (string_from n s).
Proof.
  induction n as [|n IH]; intros [|c s]; try reflexivity.
  change (String c s = String c (String.append (substring 0 n s) (string_from n s))).
  f_equal. apply IH.
Qed.

(** X7: [get_userpassword] hands back the attribute value without its
    scheme: the value is a scheme followed by the result, where the
    scheme reads "{crypt}" or "crypt$" in any letter case, or is empty
    when the value starts with neither; and it hands back NULL exactly
    when the attribute has no value. *)
Theorem get_userpassword_strips_scheme agv entry attr buflen :
  match agv entry attr buflen with
  | None => get_userpassword agv entry attr buflen = None
  | Some value =>
      exists scheme rest,
        value = String.append scheme rest
        /\ get_userpassword agv entry attr buflen = Some rest
        /\ (lowercase scheme = "{crypt}"%string
            \/ lowercase scheme = "crypt$"%string
            \/ (scheme = EmptyString
                /\ lowercase (substring 0 7 value) <> "{crypt}"%string
                /\ lowercase (substring 0 6 value) <> "crypt$"%string))
  end.
Proof.
  unfold get_userpassword.
  destruct (agv entry attr buflen) as [value|]; [|reflexivity].
  unfold strncasecmp_eq.
  destruct (String.eqb_spec (lowercase (substring 0 7 value))
              (lowercase (substring 0 7 "{crypt}"))) as [H7 | H7].
  { exists (substring 0 7 value), (string_from 7 value).
    split; [apply substring_string_from|]. split; [reflexivity|].
    left. exact H7. }
  destruct (String.eqb_spec (lowercase (substring 0 6 value))
              (lowercase (substring 0 6 "crypt$"))) as [H6 | H6].
  { exists (substring 0 6 value), (string_from 6 value).
    split; [apply substring_string_from|]. split; [reflexivity|].
    right. left. exact H6. }
  exists EmptyString, value. split; [reflexivity|]. split; [reflexivity|].
  right. right. auto.
Qed.

(** The three cases on examples. *)
Example get_userpassword_examples :
  let stored (v : option string) := fun (_ : MYLDAP_ENTRY) (_ : string) (_ : Z) => v in
  get_userpassword (stored (Some "{CRYPT}$1$abc"%string)) 1%nat "userPassword" 64
  = Some "$1$abc"%string
  /\ get_userpassword (stored (Some "crypt$xyz"%string)) 1%nat "userPassword" 64
     = Some "xyz"%string
  /\ get_userpassword (stored (Some "{SSHA}xyz"%string)) 1%nat "userPassword" 64
     = Some "{SSHA}xyz"%string
  /\ get_userpassword (stored None) 1%nat "userPassword" 64 = None.
Proof. vm_compute. repeat split. Qed.

(** ** write_address and read_address *)

(** X8: an address that does not parse as IPv4 and parses as IPv6 is
    written as AF_INET6, 16 and its sixteen bytes, with return value 0,
    and [read_address] reads exactly that back when the caller's buffer
    holds 16 bytes, leaving the stream at what follows. *)
Theorem address_round_trip_inet6 pton4 pton6 addr a w fp rest buf addrlen af0 :
  pton4 addr = None -> pton6 addr = Some a -> 16 <= addrlen ->
  let run := write_address pton4 pton6 addr w in
  tin fp = wire (writes_since w (snd run)) ++ rest ->
  fst run = Val 0
  /\ writes_since w (snd run)
     = [WR_INT32 AF_INET6; WR_INT32 16; WR_BYTES (in6_addr_bytes a)]
  /\ read_address buf addrlen af0 fp
     = (Val (0, (in6_addr_bytes a ++ skipn 16 buf, 16, AF_INET6)), set_tin rest fp).
Proof.
  intros Hno4 Hparse Hlen run. subst run.
  unfold write_address. rewrite Hno4, Hparse.
  repeat run_step. rewrite !wrote_wrote.
  cbn [fst snd ret app]. rewrite writes_since_wrote.
  change (to_int32 AF_INET6) with AF_INET6. change (to_int32 16) with 16.
  intros Hin. split; [reflexivity|]. split; [reflexivity|].
  cbn [wire flat_map wr_bytes] in Hin. rewrite app_nil_r, <- !app_assoc in Hin.
  unfold read_address.
  rewrite (bind_val _ _ _ _ _ (READ_INT32_bytes _ _ _ Hin)).
  change (to_int32 AF_INET6) with AF_INET6.
  change (negb (AF_INET6 =? AF_INET) && negb (AF_INET6 =? AF_INET6)) with false.
  cbv iota.
  rewrite (bind_val _ _ _ _ _ (READ_INT32_bytes 16 _ (set_tin _ fp) eq_refl)).
  change (to_int32 16) with 16.
  destruct (Z.ltb_spec addrlen 16) as [Hlt|_]; [lia|].
  change (false || (16 <=? 0)) with false. cbv iota.
  assert (Hsize : Z.of_nat (List.length (in6_addr_bytes a)) = 16).
  { destruct a as [[[[[[b0 b1] b2] b3] [[[b4 b5] b6] b7]]
                      [[[b8 b9] b10] b11]] [[[b12 b13] b14] b15]].
    reflexivity. }
  rewrite <- Hsize at 1.
  rewrite (bind_val _ _ _ _ _
             (READ_bytes (in6_addr_bytes a) rest
                (set_tin (in6_addr_bytes a ++ rest) (set_tin _ fp)) eq_refl)).
  reflexivity.
Qed.

Lemma address_round_trip_inet6_witness :
  let w := world_with [] in
  let run := write_address dotted_quad only_loopback6 "::1" w in
  address_status
    (fst (read_address [] 16 0 (world_with (wire (writes_since w (snd run))))))
  = Some 0.
Proof.
  intros w run.
  assert (Hlen : 16 <= 16) by (intros H; discriminate H).
  assert (Hin : tin (world_with (wire (writes_since w (snd run))))
                = wire (writes_since w (snd run)) ++ [])
    by (symmetry; apply app_nil_r).
  pose proof (address_round_trip_inet6 dotted_quad only_loopback6 "::1"
                (("000", "000", "000", "000"), ("000", "000", "000", "000"),
                 ("000", "000", "000", "000"), ("000", "000", "000", "001"))%byte
                w (world_with (wire (writes_since w (snd run)))) [] [] 16 0
                eq_refl eq_refl Hlen Hin) as (_ & _ & H).
  rewrite H. reflexivity.
Defined.

Lemma READ_inv n w bs w' :
  0 <= n ->
  READ n w = (Val bs, w') ->
  tin w = bs ++ tin w' /\ Z.of_nat (List.length bs) = n
  /\ w' = set_tin (tin w') w.
Proof.
  intros Hn. unfold READ.
  destruct (Z.ltb_spec (Z.of_nat (List.length (tin w))) n) as [Hlt | Hge];
    intros [= <- <-].
  cbn [tin set_tin]. split; [symmetry; apply firstn_skipn|].
  split; [|reflexivity].
  rewrite length_firstn. lia.
Qed.

Lemma READ_INT32_inv w v w' :
  READ_INT32 w = (Val v, w') ->
  exists bs, tin w = bs ++ tin w' /\ List.length bs = 4%nat
             /\ w' = set_tin (tin w') w.
Proof.
  unfold READ_INT32. intros H.
  apply bind_val_inv in H as (bs & w1 & H1 & [= <- <-]).
  apply READ_inv in H1 as (Ht & Hl & Hw); [|lia].
  exists bs. split; [exact Ht|]. split; [lia | exact Hw].
Qed.

(** X9: whatever the stream holds, when [read_address] returns 0 the
    family is AF_INET or AF_INET6, the length it reports is positive
    and at most the size the caller gave, exactly 8 bytes plus that many
    were taken off the stream, the address bytes are at the start of
    the buffer and the rest of the buffer is as it was. *)
Theorem read_address_stays_in_bounds buf addrlen af0 fp buf' len af fp' :
  read_address buf addrlen af0 fp = (Val (0, (buf', len, af)), fp') ->
  (af = AF_INET \/ af = AF_INET6)
  /\ 0 < len <= addrlen
  /\ exists header bs,
       tin fp = header ++ bs ++ tin fp'
       /\ List.length header = 8%nat
       /\ Z.of_nat (List.length bs) = len
       /\ buf' = bs ++ skipn (Z.to_nat len) buf
       /\ fp' = set_tin (tin fp') fp.
Proof.
  unfold read_address. intros H.
  apply bind_val_inv in H as (family & fp1 & Hfam & H).
  destruct (negb (family =? AF_INET) && negb (family =? AF_INET6)) eqn:Hbad;
    [discriminate H|].
  apply bind_val_inv in H as (n & fp2 & Hlen & H).
  destruct ((addrlen <? n) || (n <=? 0)) eqn:Hrange; [discriminate H|].
  apply bind_val_inv in H as (bs & fp3 & Hbs & H).
  injection H as <- <- <- <-.
  apply orb_false_iff in Hrange as [Hhi Hlo].
  apply Z.ltb_ge in Hhi. apply Z.leb_gt in Hlo.
  apply READ_INT32_inv in Hfam as (h1 & Ht1 & Hl1 & Hw1).
  apply READ_INT32_inv in Hlen as (h2 & Ht2 & Hl2 & Hw2).
  apply READ_inv in Hbs as (Ht3 & Hl3 & Hw3); [|lia].
  split.
  { apply andb_false_iff in Hbad as [Hb | Hb]; apply negb_false_iff, Z.eqb_eq in Hb;
      auto. }
  split; [lia|].
  exists (h1 ++ h2), bs.
  split; [rewrite Ht1, Ht2, Ht3, <- app_assoc; reflexivity|].
  split; [rewrite length_app; lia|].
  split; [exact Hl3|]. split; [reflexivity|].
  rewrite Hw3, Hw2, Hw1. reflexivity.
Qed.

Lemma read_address_stays_in_bounds_witness :
  0 < 4 <= 16.
Proof.
  assert (H : read_address [] 16 0
                (world_with (wire [WR_INT32 AF_INET; WR_INT32 4;
                                   WR_BYTES ["192"; "000"; "002"; "001"]%byte]))
              = (Val (0, (["192"; "000"; "002"; "001"]%byte, 4, AF_INET)),
                 world_with []))
    by (vm_compute; reflexivity).
  exact (proj1 (proj2 (read_address_stays_in_bounds _ _ _ _ _ _ _ _ H))).
Defined.

(** ** More on try_bind *)

Lemma try_bind_run env userdn password w :
  try_bind env userdn password w
  = if ans_create_session env (sessions w)
    then
      let session := bound_session w userdn password in
      let '(search, rc) :=
        ans_search env session (Some userdn) LDAP_SCOPE_BASE "(objectClass=*)"
          ["dn"%string] in
      let '(code, mid) :=
        match search, rc =? LDAP_SUCCESS with
        | Some s, true =>
            let '(entry, rc') := ans_get_entry env s in
            (match entry, rc' =? LDAP_SUCCESS with
             | Some _, true => rc'
             | _, _ => if rc' =? LDAP_SUCCESS then LDAP_NO_RESULTS_RETURNED else rc'
             end, [call_myldap_get_entry s])
        | _, _ => (if rc =? LDAP_SUCCESS then LDAP_LOCAL_ERROR else rc, [])
        end in
      (Val code,
       {| tin := tin w; tout := tout w;
          calls := calls w
                   ++ [call_try_bind userdn password;
                       call_myldap_create_session true;
                       call_myldap_set_credentials (sessions w) userdn password;
                       call_myldap_search (sessions w) (Some userdn)
                         LDAP_SCOPE_BASE "(objectClass=*)"]
                   ++ mid ++ [call_myldap_session_close (sessions w)];
          sessions := S (sessions w); fqdn := fqdn w |})
    else
      (Val LDAP_UNAVAILABLE,
       {| tin := tin w; tout := tout w;
          calls := calls w ++ [call_try_bind userdn password;
                               call_myldap_create_session false];
          sessions := sessions w; fqdn := fqdn w |}).
Proof.
  destruct w as [win wout wcalls wsess wfqdn].
  cbv [try_bind bind record ret myldap_create_session myldap_set_credentials
       myldap_search myldap_get_entry myldap_session_close session_id
       sessions add_call new_session calls tin tout fqdn bound_session].
  destruct (ans_create_session env wsess).
  - destruct (ans_search env _ (Some userdn) LDAP_SCOPE_BASE "(objectClass=*)"
                ["dn"%string]) as [[s|] rc].
    + destruct (rc =? LDAP_SUCCESS).
      * destruct (ans_get_entry env s) as [[e|] rc'].
        -- destruct (rc' =? LDAP_SUCCESS); cbn [app];
             rewrite <- !app_assoc; reflexivity.
        -- cbn [app]. rewrite <- !app_assoc. reflexivity.
      * cbn [app]. rewrite <- !app_assoc. reflexivity.
    + cbn [app]. rewrite <- !app_assoc. reflexivity.
  - rewrite <- !app_assoc. reflexivity.
Qed.

(** X10: [try_bind] returns LDAP_SUCCESS exactly when the session could
    be created, the base search on the DN gave a handle with
    LDAP_SUCCESS and the retrieval gave an entry with LDAP_SUCCESS; it
    never reports success without an entry. *)
Theorem try_bind_success_needs_an_entry env userdn password w :
  fst (try_bind env userdn password w) = Val LDAP_SUCCESS
  <-> ans_create_session env (sessions w) = true
      /\ exists s e,
           ans_search env (bound_session w userdn password) (Some userdn)
             LDAP_SCOPE_BASE "(objectClass=*)" ["dn"%string]
           = (Some s, LDAP_SUCCESS)
           /\ ans_get_entry env s = (Some e, LDAP_SUCCESS).
Proof.
  rewrite try_bind_run.
  destruct (ans_create_session env (sessions w)).
  2:{ cbn [fst]. split; [intros H; discriminate H | intros [H _]; discriminate H]. }
  cbv zeta.
  destruct (ans_search env _ (Some userdn) LDAP_SCOPE_BASE "(objectClass=*)"
              ["dn"%string]) as [[s|] rc].
  - destruct (rc =? LDAP_SUCCESS) eqn:Hrc.
    + apply Z.eqb_eq in Hrc. subst rc.
      destruct (ans_get_entry env s) as [[e|] rc'] eqn:Hget.
      * destruct (rc' =? LDAP_SUCCESS) eqn:Hrc'; cbn [fst].
        -- apply Z.eqb_eq in Hrc'. subst rc'.
           split; [intros _; split; [reflexivity|]; exists s, e; auto | reflexivity].
        -- apply Z.eqb_neq in Hrc'.
           split; [intros [= H]; contradiction|].
           intros (_ & s' & e' & [= <-] & He). rewrite Hget in He.
           injection He as _ H. contradiction.
      * cbn [fst]. split.
        -- intros [= H]. destruct (rc' =? LDAP_SUCCESS) eqn:Hrc'; [discriminate H|].
           apply Z.eqb_neq in Hrc'. contradiction.
        -- intros (_ & s' & e' & [= <-] & He). rewrite Hget in He. discriminate He.
    + cbn [fst]. apply Z.eqb_neq in Hrc. split.
      * intros [= H]. contradiction.
      * intros (_ & s' & e' & [= _ H] & _). contradiction.
  - cbn [fst]. split.
    + intros [= H]. destruct (rc =? LDAP_SUCCESS) eqn:Hrc; [discriminate H|].
      apply Z.eqb_neq in Hrc. contradiction.
    + intros (_ & s' & e' & H & _). discriminate H.
Qed.

Lemma try_bind_success_needs_an_entry_witness :
  fst (try_bind (example_env (None, LDAP_SUCCESS)) alice_dn "wonderland"
         (world_with [])) = Val LDAP_SUCCESS.
Proof.
  apply (try_bind_success_needs_an_entry (example_env (None, LDAP_SUCCESS))
           alice_dn "wonderland" (world_with [])).
  split; [reflexivity|]. exists 1%nat, 1%nat. split; reflexivity.
Defined.

(** X11: [try_bind] works on one session of its own.  When the session
    cannot be created it returns LDAP_UNAVAILABLE and does nothing
    else.  Otherwise it sets the given DN and secret on the new
    session, makes one base-scope search on that DN, retrieves at most
    one entry, and closes the session; it never touches the stream. *)
Theorem try_bind_session_discipline env userdn password w :
  let '(r, w') := try_bind env userdn password w in
  tin w' = tin w /\ tout w' = tout w
  /\ if ans_create_session env (sessions w)
     then
       sessions w' = S (sessions w)
       /\ exists retrieval,
            calls_since w w'
            = [call_try_bind userdn password;
               call_myldap_create_session true;
               call_myldap_set_credentials (sessions w) userdn password;
               call_myldap_search (sessions w) (Some userdn) LDAP_SCOPE_BASE
                 "(objectClass=*)"]
              ++ retrieval ++ [call_myldap_session_close (sessions w)]
            /\ (retrieval = [] \/ exists s, retrieval = [call_myldap_get_entry s])
     else
       r = Val LDAP_UNAVAILABLE
       /\ sessions w' = sessions w
       /\ calls_since w w' = [call_try_bind userdn password;
                              call_myldap_create_session false].
Proof.
  rewrite try_bind_run.
  destruct (ans_create_session env (sessions w)).
  - cbv zeta.
    destruct (ans_search env _ (Some userdn) LDAP_SCOPE_BASE "(objectClass=*)"
                ["dn"%string]) as [[s|] rc].
    + destruct (rc =? LDAP_SUCCESS).
      * destruct (ans_get_entry env s) as [entry rc'].
        cbn [tin tout sessions]. repeat split.
        exists [call_myldap_get_entry s]. split; [|right; exists s; reflexivity].
        apply calls_since_app. reflexivity.
      * cbn [tin tout sessions]. repeat split.
        exists []. split; [|left; reflexivity].
        apply calls_since_app. reflexivity.
    + cbn [tin tout sessions]. repeat split.
      exists []. split; [|left; reflexivity].
      apply calls_since_app. reflexivity.
  - cbn [tin tout sessions]. repeat split.
    apply calls_since_app. reflexivity.
Qed.

(** ** More on validate_user *)

Lemma validate_user_run env session userdn userdnsz username usernamesz w :
  validate_user env session userdn userdnsz username usernamesz w
  = let w0 := add_call (call_validate_user userdn username) w in
    if isvalidname (LOGIN_NAME_MAX env) (Some username) =? 0
    then (Val (LDAP_NO_SUCH_OBJECT, userdn, username), w0)
    else if is_empty userdn
    then
      let w1 := add_call (call_uid2entry (session_id session) username) w0 in
      match ans_uid2entry env session username with
      | (None, rc) =>
          (Val (if rc =? LDAP_SUCCESS then LDAP_NO_SUCH_OBJECT else rc,
                userdn, username), w1)
      | (Some entry, _) =>
          let dn := ans_cpy_dn env entry userdn userdnsz in
          if strcasecmp dn "unknown" =? 0
          then (Val (LDAP_NO_SUCH_OBJECT, dn, username), w1)
          else
            match canonical_username env entry with
            | None => (Crash, w1)
            | Some None => (Val (LDAP_INVALID_SYNTAX, dn, username), w1)
            | Some (Some v) =>
                if (isvalidname (LOGIN_NAME_MAX env) (Some v) =? 0)
                   || (usernamesz <=? strlen v)
                then (Val (LDAP_INVALID_SYNTAX, dn, username), w1)
                else (Val (LDAP_SUCCESS, dn, v), w1)
            end
      end
    else (Val (LDAP_SUCCESS, userdn, username), w0).
Proof.
  cbv [validate_user bind record ret crash uid2entry canonical_username].
  destruct (isvalidname (LOGIN_NAME_MAX env) (Some username) =? 0); [reflexivity|].
  destruct (is_empty userdn); [|reflexivity].
  destruct (ans_uid2entry env session username) as [[entry|] rc0]; [|reflexivity].
  destruct (strcasecmp (ans_cpy_dn env entry userdn userdnsz) "unknown" =? 0);
    [reflexivity|].
  assert (Hvalue : forall (v : string) (w1 : world),
            (if (isvalidname (LOGIN_NAME_MAX env) (Some v) =? 0)
                || (usernamesz <=? strlen v)
             then fun w2 : world =>
                    (Val (LDAP_INVALID_SYNTAX,
                          ans_cpy_dn env entry userdn userdnsz, username), w2)
             else if negb (strcmp username v =? 0)
                  then fun w2 : world =>
                         (Val (LDAP_SUCCESS,
                               ans_cpy_dn env entry userdn userdnsz, v), w2)
                  else fun w2 : world =>
                         (Val (LDAP_SUCCESS,
                               ans_cpy_dn env entry userdn userdnsz, username), w2))
              w1
            = if (isvalidname (LOGIN_NAME_MAX env) (Some v) =? 0)
                 || (usernamesz <=? strlen v)
              then (Val (LDAP_INVALID_SYNTAX,
                         ans_cpy_dn env entry userdn userdnsz, username), w1)
              else (Val (LDAP_SUCCESS,
                         ans_cpy_dn env entry userdn userdnsz, v), w1)).
  { intros v w1.
    destruct ((isvalidname (LOGIN_NAME_MAX env) (Some v) =? 0)
              || (usernamesz <=? strlen v)); [reflexivity|].
    destruct (strcmp username v =? 0) eqn:Hsame; [|reflexivity].
    apply strcmp_eq in Hsame. subst v. reflexivity. }
  destruct (ans_get_rdn_value env entry (attmap_passwd_uid env)) as [v|].
  - rewrite Hvalue. reflexivity.
  - destruct (ans_get_values env entry (attmap_passwd_uid env)) as [vs|];
      [|reflexivity].
    destruct (List.head vs) as [v|]; [|reflexivity].
    rewrite Hvalue. reflexivity.
Qed.

(** X12: when [validate_user] returns LDAP_SUCCESS, the username it
    hands back passes [isvalidname].  With a DN supplied both buffers
    are as they were; with none, the DN is the one copied from the
    entry found for the name and does not read "unknown", and the
    username is the canonical one of that entry and fits the buffer. *)
Theorem validate_user_success_is_validated env session userdn userdnsz
    username usernamesz w rc dn un w' :
  validate_user env session userdn userdnsz username usernamesz w
  = (Val (rc, dn, un), w') ->
  rc = LDAP_SUCCESS ->
  isvalidname (LOGIN_NAME_MAX env) (Some un) <> 0
  /\ (is_empty userdn = false -> dn = userdn /\ un = username)
  /\ (is_empty userdn = true ->
      strlen un < usernamesz
      /\ strcasecmp dn "unknown" <> 0
      /\ exists entry rc0,
           ans_uid2entry env session username = (Some entry, rc0)
           /\ dn = ans_cpy_dn env entry userdn userdnsz
           /\ canonical_username env entry = Some (Some un)).
Proof.
  rewrite validate_user_run. cbv zeta.
  destruct (isvalidname (LOGIN_NAME_MAX env) (Some username) =? 0) eqn:Hname.
  { intros [= <- <- <- <-] H. discriminate H. }
  apply Z.eqb_neq in Hname.
  destruct (is_empty userdn) eqn:Hdn.
  2:{ intros [= <- <- <- <-] _. split; [exact Hname|].
      split; [auto | discriminate]. }
  destruct (ans_uid2entry env session username) as [[entry|] rc0] eqn:Hlook.
  2:{ intros [= <- <- <- <-] H.
      destruct (rc0 =? LDAP_SUCCESS) eqn:E; [discriminate H|].
      apply Z.eqb_neq in E. contradiction. }
  destruct (strcasecmp (ans_cpy_dn env entry userdn userdnsz) "unknown" =? 0)
    eqn:Hunknown.
  { intros [= <- <- <- <-] H. discriminate H. }
  apply Z.eqb_neq in Hunknown.
  destruct (canonical_username env entry) as [[v|]|] eqn:Hcanon.
  - destruct (isvalidname (LOGIN_NAME_MAX env) (Some v) =? 0) eqn:Hv;
      [intros [= <- <- <- <-] H; discriminate H|].
    destruct (usernamesz <=? strlen v) eqn:Hfit;
      [intros [= <- <- <- <-] H; discriminate H|].
    apply Z.eqb_neq in Hv. apply Z.leb_gt in Hfit.
    intros [= <- <- <- <-] _.
    split; [exact Hv|]. split; [discriminate|]. intros _.
    split; [exact Hfit|]. split; [exact Hunknown|].
    exists entry, rc0. auto.
  - intros [= <- <- <- <-] H. discriminate H.
  - intros H. discriminate H.
Qed.

Lemma validate_user_success_is_validated_witness :
  isvalidname (LOGIN_NAME_MAX example_env_with_bob) (Some "Bob"%string) <> 0.
Proof.
  assert (H : validate_user example_env_with_bob handler_session "" 256 "bob" 256
                (world_with [])
              = (Val (LDAP_SUCCESS, bob_dn, "Bob"%string),
                 snd (validate_user example_env_with_bob handler_session "" 256
                        "bob" 256 (world_with []))))
    by (vm_compute; reflexivity).
  exact (proj1 (validate_user_success_is_validated _ _ _ _ _ _ _ _ _ _ _ H eq_refl)).
Defined.

(** X13: with no DN supplied, a username that passes [isvalidname] and
    an entry found for it whose DN does not read "unknown" and whose
    canonical username passes [isvalidname] and fits the buffer,
    [validate_user] succeeds with the DN of the entry and the canonical
    username in place of the requested one (the code that came with the
    entry is not looked at), after exactly one lookup. *)
Theorem validate_user_adopts_canonical_name env session userdnsz username
    usernamesz w entry rc0 canonical :
  isvalidname (LOGIN_NAME_MAX env) (Some username) <> 0 ->
  ans_uid2entry env session username = (Some entry, rc0) ->
  strcasecmp (ans_cpy_dn env entry "" userdnsz) "unknown" <> 0 ->
  canonical_username env entry = Some (Some canonical) ->
  isvalidname (LOGIN_NAME_MAX env) (Some canonical) <> 0 ->
  strlen canonical < usernamesz ->
  validate_user env session "" userdnsz username usernamesz w
  = (Val (LDAP_SUCCESS, ans_cpy_dn env entry "" userdnsz, canonical),
     add_call (call_uid2entry (session_id session) username)
       (add_call (call_validate_user "" username) w)).
Proof.
  intros Hname Hlook Hdn Hcanon Hvalid Hfit.
  rewrite validate_user_run. cbv zeta.
  apply Z.eqb_neq in Hname, Hdn, Hvalid. apply Z.leb_gt in Hfit.
  rewrite Hname, Hlook, Hdn, Hcanon, Hvalid, Hfit. reflexivity.
Qed.

Lemma validate_user_adopts_canonical_name_witness :
  fst (validate_user example_env_with_bob handler_session "" 256 "bob" 256
         (world_with []))
  = Val (LDAP_SUCCESS, bob_dn, "Bob"%string).
Proof.
  assert (Hname : isvalidname (LOGIN_NAME_MAX example_env_with_bob)
                    (Some "bob"%string) <> 0) by (vm_compute; discriminate).
  assert (Hdn : strcasecmp (ans_cpy_dn example_env_with_bob 5%nat "" 256) "unknown"
                <> 0) by (vm_compute; discriminate).
  assert (Hvalid : isvalidname (LOGIN_NAME_MAX example_env_with_bob)
                     (Some "Bob"%string) <> 0) by (vm_compute; discriminate).
  assert (Hfit : strlen "Bob" < 256) by reflexivity.
  rewrite (validate_user_adopts_canonical_name example_env_with_bob handler_session
             256 "bob" 256 (world_with []) 5%nat LDAP_SUCCESS "Bob"
             Hname eq_refl Hdn eq_refl Hvalid Hfit).
  reflexivity.
Defined.

(** X14: [validate_user] asks the directory at most once, and only for
    a username that has passed [isvalidname] while no DN was supplied;
    it never reads or writes the stream. *)
Theorem validate_user_looks_up_valid_names_only env session userdn userdnsz
    username usernamesz w :
  let w' := snd (validate_user env session userdn userdnsz username usernamesz w) in
  tin w' = tin w /\ tout w' = tout w /\ sessions w' = sessions w
  /\ (calls_since w w' = [call_validate_user userdn username]
      \/ (calls_since w w'
          = [call_validate_user userdn username;
             call_uid2entry (session_id session) username]
          /\ is_empty userdn = true
          /\ isvalidname (LOGIN_NAME_MAX env) (Some username) <> 0)).
Proof.
  rewrite validate_user_run. cbv zeta.
  assert (H1 : calls_since w (add_call (call_validate_user userdn username) w)
               = [call_validate_user userdn username])
    by (apply calls_since_app; reflexivity).
  assert (H2 : calls_since w
                 (add_call (call_uid2entry (session_id session) username)
                    (add_call (call_validate_user userdn username) w))
               = [call_validate_user userdn username;
                  call_uid2entry (session_id session) username])
    by (apply calls_since_app; cbn [calls add_call]; rewrite <- app_assoc;
        reflexivity).
  destruct (isvalidname (LOGIN_NAME_MAX env) (Some username) =? 0) eqn:Hname.
  { cbn [snd]. auto 10. }
  apply Z.eqb_neq in Hname.
  destruct (is_empty userdn); [|cbn [snd]; auto 10].
  destruct (ans_uid2entry env session username) as [[entry|] rc0].
  - destruct (strcasecmp _ "unknown" =? 0).
    + cbn [snd]. auto 10.
    + destruct (canonical_username env entry) as [[v|]|];
        [destruct (_ || _)| |]; cbn [snd]; auto 10.
  - cbn [snd]. auto 10.
Qed.

(** X15: what [validate_user] returns with LDAP_SUCCESS can be handed
    to it again: with the DN now known (not empty) it succeeds without
    asking the directory and leaves the DN and the username as they
    are. *)
Theorem validate_user_accepts_its_result env session userdn userdnsz username
    usernamesz w dn un w' :
  validate_user env session userdn userdnsz username usernamesz w
  = (Val (LDAP_SUCCESS, dn, un), w') ->
  is_empty dn = false ->
  forall session' w'',
    validate_user env session' dn userdnsz un usernamesz w''
    = (Val (LDAP_SUCCESS, dn, un), add_call (call_validate_user dn un) w'').
Proof.
  intros Hrun Hdn session' w''.
  assert (Hvalid : isvalidname (LOGIN_NAME_MAX env) (Some un) <> 0).
  { revert Hrun. rewrite validate_user_run. cbv zeta.
    destruct (isvalidname (LOGIN_NAME_MAX env) (Some username) =? 0) eqn:Hname;
      [intros H; discriminate H|].
    apply Z.eqb_neq in Hname.
    destruct (is_empty userdn); [|intros [= <- <- <-]; exact Hname].
    destruct (ans_uid2entry env session username) as [[entry|] rc0].
    - destruct (strcasecmp _ "unknown" =? 0); [intros H; discriminate H|].
      destruct (canonical_username env entry) as [[v|]|];
        try (intros H; discriminate H).
      destruct (isvalidname (LOGIN_NAME_MAX env) (Some v) =? 0) eqn:Hv;
        [intros H; discriminate H|].
      destruct (usernamesz <=? strlen v); [intros H; discriminate H|].
      intros [= <- <- <-]. apply Z.eqb_neq. exact Hv.
    - destruct (rc0 =? LDAP_SUCCESS) eqn:E.
      + intros H. discriminate H.
      + intros H. injection H as H _ _ _. subst rc0. discriminate E. }
  rewrite validate_user_run. cbv zeta.
  apply Z.eqb_neq in Hvalid. rewrite Hvalid, Hdn. reflexivity.
Qed.

Lemma validate_user_accepts_its_result_witness :
  validate_user example_env_with_bob handler_session bob_dn 256 "Bob" 256
    (world_with [])
  = (Val (LDAP_SUCCESS, bob_dn, "Bob"%string),
     add_call (call_validate_user bob_dn "Bob") (world_with [])).
Proof.
  assert (H : validate_user example_env_with_bob handler_session "" 256 "bob" 256
                (world_with [])
              = (Val (LDAP_SUCCESS, bob_dn, "Bob"%string),
                 snd (validate_user example_env_with_bob handler_session "" 256
                        "bob" 256 (world_with []))))
    by (vm_compute; reflexivity).
  exact (validate_user_accepts_its_result _ _ _ _ _ _ _ _ _ _ H eq_refl
           handler_session (world_with [])).
Defined.

(** ** The authorisation search *)



Lemma try_autzsearch_run cfg env session dict searchfilter w :
  try_autzsearch cfg env session dict searchfilter w
  = match ans_expr_parse env searchfilter 1024 (autzsearch_var_get dict) with
    | None =>
        (Val LDAP_LOCAL_ERROR, add_call (call_try_autzsearch searchfilter) w)
    | Some filter =>
        let w1 :=
          add_call (call_myldap_search (session_id session)
                      (List.head (ldc_bases cfg)) LDAP_SCOPE_SUBTREE filter)
            (add_call (call_try_autzsearch searchfilter) w) in
        match ans_search env session (List.head (ldc_bases cfg))
                LDAP_SCOPE_SUBTREE filter ["dn"%string] with
        | (None, rc) => (Val rc, w1)
        | (Some s, _) =>
            (Val (match ans_get_entry env s with
                  | (None, rc) => rc
                  | (Some _, _) => LDAP_SUCCESS
                  end),
             add_call (call_myldap_get_entry s) w1)
        end
    end.
Proof.
  cbv [try_autzsearch bind record ret myldap_search myldap_get_entry].
  destruct (ans_expr_parse env searchfilter 1024 (autzsearch_var_get dict))
    as [filter|]; [|reflexivity].
  destruct (ans_search env session _ LDAP_SCOPE_SUBTREE filter ["dn"%string])
    as [[s|] rc]; [|reflexivity].
  destruct (ans_get_entry env s) as [[e|] rc']; reflexivity.
Qed.

(** X17: [try_autzsearch] works on the session it is given and never
    touches the stream.  A template that does not expand gives
    LDAP_LOCAL_ERROR without any operation on the directory; otherwise
    there is exactly one search, with subtree scope under the first
    configured base only and with the expanded filter, followed by at
    most one retrieval. *)
Theorem try_autzsearch_searches_first_base cfg env session dict searchfilter w :
  let '(r, w') := try_autzsearch cfg env session dict searchfilter w in
  tin w' = tin w /\ tout w' = tout w /\ sessions w' = sessions w
  /\ fqdn w' = fqdn w
  /\ match ans_expr_parse env searchfilter 1024 (autzsearch_var_get dict) with
     | None =>
         r = Val LDAP_LOCAL_ERROR
         /\ calls_since w w' = [call_try_autzsearch searchfilter]
     | Some filter =>
         exists retrieval,
           calls_since w w'
           = [call_try_autzsearch searchfilter;
              call_myldap_search (session_id session) (List.head (ldc_bases cfg))
                LDAP_SCOPE_SUBTREE filter] ++ retrieval
           /\ (retrieval = [] \/ exists s, retrieval = [call_myldap_get_entry s])
     end.
Proof.
  rewrite try_autzsearch_run.
  destruct (ans_expr_parse env searchfilter 1024 (autzsearch_var_get dict))
    as [filter|].
  - cbv zeta.
    destruct (ans_search env session _ LDAP_SCOPE_SUBTREE filter ["dn"%string])
      as [[s|] rc].
    + cbn [tin tout sessions fqdn add_call]. repeat split.
      exists [call_myldap_get_entry s]. split; [|right; exists s; reflexivity].
      apply calls_since_app. cbn [calls add_call]. rewrite <- !app_assoc.
      reflexivity.
    + cbn [tin tout sessions fqdn add_call]. repeat split.
      exists []. split; [|left; reflexivity].
      apply calls_since_app. cbn [calls add_call]. rewrite <- !app_assoc.
      reflexivity.
  - cbn [tin tout sessions fqdn add_call]. repeat split.
    apply calls_since_app. reflexivity.
Qed.

(** X18: [try_autzsearch] returns LDAP_SUCCESS exactly when the template
    expands and either the search gives a handle whose retrieval gives
    an entry (whatever code comes with it) or the directory itself
    answers the failed search or retrieval with LDAP_SUCCESS. *)
Theorem try_autzsearch_success cfg env session dict searchfilter w :
  fst (try_autzsearch cfg env session dict searchfilter w) = Val LDAP_SUCCESS
  <-> exists filter,
        ans_expr_parse env searchfilter 1024 (autzsearch_var_get dict) = Some filter
        /\ match ans_search env session (List.head (ldc_bases cfg))
                   LDAP_SCOPE_SUBTREE filter ["dn"%string] with
           | (None, rc) => rc = LDAP_SUCCESS
           | (Some s, _) =>
               match ans_get_entry env s with
               | (None, rc) => rc = LDAP_SUCCESS
               | (Some _, _) => True
               end
           end.
Proof.
  rewrite try_autzsearch_run.
  destruct (ans_expr_parse env searchfilter 1024 (autzsearch_var_get dict))
    as [filter|].
  - cbv zeta.
    destruct (ans_search env session _ LDAP_SCOPE_SUBTREE filter ["dn"%string])
      as [[s|] rc] eqn:Hsearch; cbn [fst].
    + destruct (ans_get_entry env s) as [[e|] rc'] eqn:Hget.
      * split; [intros _|reflexivity].
        exists filter. split; [reflexivity|]. rewrite Hsearch, Hget. exact I.
      * split.
        -- intros [= ->]. exists filter. split; [reflexivity|].
           rewrite Hsearch, Hget. reflexivity.
        -- intros (f & [= <-] & H). rewrite Hsearch, Hget in H. rewrite H.
           reflexivity.
    + split.
      * intros [= ->]. exists filter. split; [reflexivity|].
        rewrite Hsearch. reflexivity.
      * intros (f & [= <-] & H). rewrite Hsearch in H. rewrite H. reflexivity.
  - cbn [fst]. split; [intros H; discriminate H|].
    intros (f & H & _). discriminate H.
Qed.

Lemma try_autzsearch_success_witness :
  let env := example_env (Some 1%nat, LDAP_SUCCESS) in
  fst (try_autzsearch example_cfg env handler_session
         (autzsearch_var_add env ∅ "username" "alice")
         "(&(objectClass=posixAccount)(uid=$username))" (world_with []))
  = Val LDAP_SUCCESS.
Proof.
  intros env.
  apply (try_autzsearch_success example_cfg env handler_session
           (autzsearch_var_add env ∅ "username" "alice")
           "(&(objectClass=posixAccount)(uid=$username))" (world_with [])).
  exists "(uid=alice)"%string. split; [vm_compute; reflexivity|].
  vm_compute. exact I.
Defined.

(** ** More on try_pwmod *)

Lemma try_pwmod_run cfg env binddn userdn oldpassword newpassword w :
  try_pwmod cfg env binddn userdn oldpassword newpassword w
  = if ans_create_session env (sessions w)
    then
      let session := bound_session w binddn oldpassword in
      let forwarded :=
        match ldc_rootpwmoddn cfg with
        | Some rootpwmoddn =>
            if strcmp binddn rootpwmoddn =? 0 then None else Some oldpassword
        | None => Some oldpassword
        end in
      let '(uid, rc) := ans_lookup_dn2uid env session userdn 256 in
      let '(code, mid) :=
        match uid, rc =? LDAP_SUCCESS with
        | Some _, true =>
            let rc' := ans_passwd env session userdn forwarded newpassword in
            (rc',
             call_myldap_passwd (sessions w) userdn forwarded newpassword
             :: (if rc' =? LDAP_SUCCESS
                 then [call_update_lastchange (sessions w) userdn] else []))
        | _, _ => (rc, [])
        end in
      (Val code,
       {| tin := tin w; tout := tout w;
          calls := calls w
                   ++ [call_try_pwmod binddn userdn oldpassword newpassword;
                       call_myldap_create_session true;
                       call_myldap_set_credentials (sessions w) binddn oldpassword;
                       call_lookup_dn2uid (sessions w) userdn]
                   ++ mid ++ [call_myldap_session_close (sessions w)];
          sessions := S (sessions w); fqdn := fqdn w |})
    else
      (Val LDAP_UNAVAILABLE,
       {| tin := tin w; tout := tout w;
          calls := calls w
                   ++ [call_try_pwmod binddn userdn oldpassword newpassword;
                       call_myldap_create_session false];
          sessions := sessions w; fqdn := fqdn w |}).
Proof.
  destruct w as [win wout wcalls wsess wfqdn].
  cbv [try_pwmod bind record ret myldap_create_session myldap_set_credentials
       lookup_dn2uid myldap_passwd update_lastchange myldap_session_close
       session_id sessions add_call new_session calls tin tout fqdn bound_session].
  destruct (ans_create_session env wsess).
  - destruct (ans_lookup_dn2uid env _ userdn 256) as [[u|] rc].
    + destruct (rc =? LDAP_SUCCESS).
      * destruct (ans_passwd env _ userdn _ newpassword =? LDAP_SUCCESS);
          cbn [app]; rewrite <- !app_assoc; reflexivity.
      * cbn [app]. rewrite <- !app_assoc. reflexivity.
    + cbn [app]. rewrite <- !app_assoc. reflexivity.
  - rewrite <- !app_assoc. reflexivity.
Qed.

(** X19: once the session is created and the target DN is found with
    LDAP_SUCCESS, what [try_pwmod] returns is the code of the password
    modification itself; the shadowLastChange update is attempted
    exactly when that code is LDAP_SUCCESS, and what the update answers
    has no part in the result. *)
Theorem try_pwmod_returns_modification_code cfg env binddn userdn oldpassword
    newpassword w uid :
  ans_create_session env (sessions w) = true ->
  let session := bound_session w binddn oldpassword in
  ans_lookup_dn2uid env session userdn 256 = (Some uid, LDAP_SUCCESS) ->
  let '(r, w') := try_pwmod cfg env binddn userdn oldpassword newpassword w in
  (exists forwarded,
     r = Val (ans_passwd env session userdn forwarded newpassword)
     /\ passwd_calls (calls_since w w') = [(userdn, forwarded, newpassword)])
  /\ (In (call_update_lastchange (sessions w) userdn) (calls_since w w')
      <-> r = Val LDAP_SUCCESS).
Proof.
  intros Hcreate session Hlook. subst session.
  rewrite try_pwmod_run, Hcreate. cbv zeta. rewrite Hlook, Z.eqb_refl.
  set (forwarded := match ldc_rootpwmoddn cfg with
                    | Some rootpwmoddn =>
                        if strcmp binddn rootpwmoddn =? 0 then None
                        else Some oldpassword
                    | None => Some oldpassword
                    end).
  set (rc' := ans_passwd env (bound_session w binddn oldpassword) userdn
                forwarded newpassword).
  erewrite calls_since_app by reflexivity.
  split.
  - exists forwarded. split; [reflexivity|].
    destruct (rc' =? LDAP_SUCCESS); reflexivity.
  - destruct (rc' =? LDAP_SUCCESS) eqn:Hrc.
    + apply Z.eqb_eq in Hrc. rewrite Hrc. split; [reflexivity|].
      intros _. cbn. tauto.
    + apply Z.eqb_neq in Hrc. split.
      * cbn. intros H. repeat (destruct H as [H|H]; [discriminate H|]).
        destruct H.
      * intros [= H]. contradiction.
Qed.

Lemma try_pwmod_returns_modification_code_witness :
  fst (try_pwmod example_cfg (example_env (None, LDAP_SUCCESS)) alice_dn alice_dn
         "wonderland" "newpw" (world_with []))
  = Val LDAP_SUCCESS.
Proof.
  pose proof (try_pwmod_returns_modification_code example_cfg
                (example_env (None, LDAP_SUCCESS)) alice_dn alice_dn "wonderland"
                "newpw" (world_with []) "alice" eq_refl eq_refl) as H.
  destruct (try_pwmod _ _ _ _ _ _ _) as [r w'].
  destruct H as [(forwarded & Hr & _) _]. rewrite Hr. reflexivity.
Defined.

(** X20: [try_pwmod] works on one session of its own and never touches
    the stream.  When the session cannot be created it returns
    LDAP_UNAVAILABLE and does nothing else.  Otherwise it sets the bind
    DN and the old secret as given on the new session, looks the target
    DN up, and closes the session last; when the lookup finds nothing or
    comes with a code other than LDAP_SUCCESS, nothing is modified and
    the code of the lookup is returned as it is. *)
Theorem try_pwmod_session_discipline cfg env binddn userdn oldpassword
    newpassword w :
  let '(r, w') := try_pwmod cfg env binddn userdn oldpassword newpassword w in
  tin w' = tin w /\ tout w' = tout w
  /\ if ans_create_session env (sessions w)
     then
       sessions w' = S (sessions w)
       /\ exists modification,
            calls_since w w'
            = [call_try_pwmod binddn userdn oldpassword newpassword;
               call_myldap_create_session true;
               call_myldap_set_credentials (sessions w) binddn oldpassword;
               call_lookup_dn2uid (sessions w) userdn]
              ++ modification ++ [call_myldap_session_close (sessions w)]
            /\ forall uid rc,
                 ans_lookup_dn2uid env (bound_session w binddn oldpassword)
                   userdn 256 = (uid, rc) ->
                 uid = None \/ rc <> LDAP_SUCCESS ->
                 modification = [] /\ r = Val rc
     else
       r = Val LDAP_UNAVAILABLE
       /\ sessions w' = sessions w
       /\ calls_since w w' = [call_try_pwmod binddn userdn oldpassword newpassword;
                              call_myldap_create_session false].
Proof.
  rewrite try_pwmod_run.
  destruct (ans_create_session env (sessions w)).
  - cbv zeta.
    destruct (ans_lookup_dn2uid env _ userdn 256) as [[u|] rc].
    + destruct (rc =? LDAP_SUCCESS) eqn:Hrc.
      * cbn [tin tout sessions]. repeat split.
        eexists. split; [apply calls_since_app; reflexivity|].
        intros uid rc0 [= <- <-] [H|H]; [discriminate H|].
        apply Z.eqb_eq in Hrc. contradiction.
      * cbn [tin tout sessions]. repeat split.
        exists []. split; [apply calls_since_app; reflexivity|].
        intros uid rc0 [= <- <-] _. split; reflexivity.
    + cbn [tin tout sessions]. repeat split.
      exists []. split; [apply calls_since_app; reflexivity|].
      intros uid rc0 [= <- <-] _. split; reflexivity.
  - cbn [tin tout sessions]. repeat split.
    apply calls_since_app. reflexivity.
Qed.

Lemma try_pwmod_session_discipline_witness :
  fst (try_pwmod example_cfg (example_env (None, LDAP_SUCCESS)) alice_dn
         vanished_dn "wonderland" "newpw" (world_with []))
  = Val LDAP_NO_SUCH_OBJECT.
Proof.
  pose proof (try_pwmod_session_discipline example_cfg
                (example_env (None, LDAP_SUCCESS)) alice_dn vanished_dn
                "wonderland" "newpw" (world_with [])) as H.
  destruct (try_pwmod _ _ _ _ _ _ _) as [r w'].
  assert (Hcreate : ans_create_session (example_env (None, LDAP_SUCCESS))
                      (sessions (world_with [])) = true) by reflexivity.
  rewrite Hcreate in H.
  destruct H as (_ & _ & _ & modification & _ & Hfail).
  assert (Hlook : ans_lookup_dn2uid (example_env (None, LDAP_SUCCESS))
                    (bound_session (world_with []) alice_dn "wonderland")
                    vanished_dn 256 = (None, LDAP_NO_SUCH_OBJECT))
    by (vm_compute; reflexivity).
  destruct (Hfail _ _ Hlook (or_introl eq_refl)) as [_ ->]. reflexivity.
Defined.

(** ** Requests that cannot be read *)

Lemma READ_cases n w :
  (exists bs w1, READ n w = (Val bs, w1) /\ w1 = set_tin (tin w1) w)
  \/ READ n w = (Returned (-1), w).
Proof.
  unfold READ. destruct (_ <? n); [right; reflexivity|].
  left. do 2 eexists. split; reflexivity.
Qed.

Lemma READ_INT32_cases w :
  (exists v w1, READ_INT32 w = (Val v, w1) /\ w1 = set_tin (tin w1) w)
  \/ READ_INT32 w = (Returned (-1), w).
Proof.
  unfold READ_INT32, bind.
  destruct (READ_cases 4 w) as [(bs & w1 & H & Hw)|H]; rewrite H.
  - left. do 2 eexists. split; [reflexivity|exact Hw].
  - right. reflexivity.
Qed.

Lemma READ_STRING_cases n w :
  (exists s w1, READ_STRING n w = (Val s, w1) /\ w1 = set_tin (tin w1) w)
  \/ (exists w1, READ_STRING n w = (Returned (-1), w1) /\ w1 = set_tin (tin w1) w).
Proof.
  unfold READ_STRING.
  destruct (READ_INT32_cases w) as [(v & w1 & H & Hw)|H].
  2:{ right. exists w. rewrite (bind_returned _ _ _ _ _ H).
      split; [reflexivity|]. destruct w; reflexivity. }
  rewrite (bind_val _ _ _ _ _ H).
  destruct (n <=? to_size_t v).
  { right. exists w1. split; [reflexivity|exact Hw]. }
  destruct (0 <? v).
  - destruct (READ_cases v w1) as [(bs & w2 & H2 & Hw2)|H2].
    + left. rewrite (bind_val _ _ _ _ _ H2). do 2 eexists.
      split; [reflexivity|]. rewrite Hw2, Hw. reflexivity.
    + right. rewrite (bind_returned _ _ _ _ _ H2). exists w1.
      split; [reflexivity|exact Hw].
  - left. do 2 eexists. split; [reflexivity|exact Hw].
Qed.

Lemma bind_ext {A B} (m : M A) (f g : A -> M B) w :
  (forall a w', f a w' = g a w') -> bind m f w = bind m g w.
Proof.
  intros H. unfold bind. destruct (m w) as [[a|r|] w']; [apply H|reflexivity..].
Qed.

Lemma frame_trans w w1 w2 :
  w1 = set_tin (tin w1) w -> w2 = set_tin (tin w2) w1 -> w2 = set_tin (tin w2) w.
Proof. intros H1 H2. rewrite H2, H1. reflexivity. Qed.

Lemma frame_refl w : w = set_tin (tin w) w.
Proof. destruct w; reflexivity. Qed.

Lemma reader_ok_ret {A} (a : A) : reader_ok (ret a).
Proof.
  intros w o w1 [= <- <-]. split; [apply frame_refl|]. right. eauto.
Qed.

Lemma reader_ok_bind {A B} (m : M A) (f : A -> M B) :
  reader_ok m -> (forall a, reader_ok (f a)) -> reader_ok (bind m f).
Proof.
  intros Hm Hf w o w2. unfold bind.
  destruct (m w) as [[a|r|] w1] eqn:E; destruct (Hm _ _ _ E) as [Hw Ho].
  - intros H. destruct (Hf _ _ _ _ H) as [Hw2 Ho2].
    split; [exact (frame_trans _ _ _ Hw Hw2)|exact Ho2].
  - intros [= <- <-]. split; [exact Hw|].
    destruct Ho as [Ho|[a Ho]]; [injection Ho as ->; left; reflexivity|discriminate Ho].
  - destruct Ho as [Ho|[a Ho]]; discriminate Ho.
Qed.

Lemma reader_ok_READ_STRING n : reader_ok (READ_STRING n).
Proof.
  intros w o w1 H.
  destruct (READ_STRING_cases n w) as [(s & w' & H' & Hw)|(w' & H' & Hw)];
    rewrite H' in H; injection H as <- <-; split; eauto.
Qed.

Lemma reader_ok_READ_INT32 : reader_ok READ_INT32.
Proof.
  intros w o w1 H.
  destruct (READ_INT32_cases w) as [(s & w' & H' & Hw)|H'];
    rewrite H' in H; injection H as <- <-; split; eauto using frame_refl.
Qed.

Ltac solve_reader_ok :=
  repeat first [ apply reader_ok_READ_STRING
               | apply reader_ok_READ_INT32
               | apply reader_ok_ret
               | apply reader_ok_bind; [|intros ?] ].

Lemma authc_request_ok : reader_ok authc_request.
Proof. unfold authc_request. solve_reader_ok. Qed.

Lemma authz_request_ok env : reader_ok (authz_request env).
Proof. unfold authz_request. solve_reader_ok. Qed.

Lemma pwmod_request_ok : reader_ok pwmod_request.
Proof. unfold pwmod_request. solve_reader_ok. Qed.

Lemma sess_request_ok env : reader_ok (sess_request env).
Proof. unfold sess_request. solve_reader_ok. Qed.

Ltac reader_bind :=
  symmetry; repeat (rewrite bind_assoc; apply bind_ext; intros ? ?); reflexivity.

Lemma authc_request_bind (k : string -> string -> string -> string -> M Z) w :
  (username <- READ_STRING 256 ;;
   userdn <- READ_STRING 256 ;;
   servicename <- READ_STRING 64 ;;
   password <- READ_STRING 64 ;;
   k username userdn servicename password) w
  = (fields <- authc_request ;;
     let '(username, userdn, servicename, password) := fields in
     k username userdn servicename password) w.
Proof. unfold authc_request. reader_bind. Qed.

Lemma authz_request_bind env
    (k : string -> string -> string -> string -> string -> string -> M Z) w :
  (username <- READ_STRING 256 ;;
   userdn <- READ_STRING 256 ;;
   servicename <- READ_STRING 64 ;;
   ruser <- READ_STRING 256 ;;
   rhost <- READ_STRING (HOST_NAME_MAX env + 1) ;;
   tty <- READ_STRING 64 ;;
   k username userdn servicename ruser rhost tty) w
  = (fields <- authz_request env ;;
     let '(username, userdn, servicename, ruser, rhost, tty) := fields in
     k username userdn servicename ruser rhost tty) w.
Proof. unfold authz_request. reader_bind. Qed.

Lemma pwmod_request_bind
    (k : string -> string -> string -> string -> string -> M Z) w :
  (username <- READ_STRING 256 ;;
   userdn <- READ_STRING 256 ;;
   servicename <- READ_STRING 64 ;;
   oldpassword <- READ_STRING 64 ;;
   newpassword <- READ_STRING 64 ;;
   k username userdn servicename oldpassword newpassword) w
  = (fields <- pwmod_request ;;
     let '(username, userdn, servicename, oldpassword, newpassword) := fields in
     k username userdn servicename oldpassword newpassword) w.
Proof. unfold pwmod_request. reader_bind. Qed.

Lemma sess_request_bind env
    (k : string -> string -> string -> string -> string -> string -> Z -> M Z) w :
  (username <- READ_STRING 256 ;;
   userdn <- READ_STRING 256 ;;
   servicename <- READ_STRING 64 ;;
   tty <- READ_STRING 64 ;;
   rhost <- READ_STRING (HOST_NAME_MAX env + 1) ;;
   ruser <- READ_STRING 256 ;;
   sessionid <- READ_INT32 ;;
   k username userdn servicename tty rhost ruser sessionid) w
  = (fields <- sess_request env ;;
     let '(username, userdn, servicename, tty, rhost, ruser, sessionid) := fields in
     k username userdn servicename tty rhost ruser sessionid) w.
Proof. unfold sess_request. reader_bind. Qed.

(** X21: a request that cannot be read in full (the stream ends early,
    or a string does not fit the buffer the handler has for it) makes
    each of the five handlers return -1 before it has written anything
    or called anything; reading never crashes a handler and fails with
    -1 only. *)
Theorem handlers_refuse_unreadable_requests cfg env session calleruid w :
  (forall o w1, authc_request w = (o, w1) -> (forall f, o <> Val f) ->
     nslcd_pam_authc cfg env session calleruid w = (Returned (-1), w1)
     /\ tout w1 = tout w /\ calls w1 = calls w)
  /\ (forall o w1, authz_request env w = (o, w1) -> (forall f, o <> Val f) ->
        nslcd_pam_authz cfg env session w = (Returned (-1), w1)
        /\ tout w1 = tout w /\ calls w1 = calls w)
  /\ (forall o w1, pwmod_request w = (o, w1) -> (forall f, o <> Val f) ->
        nslcd_pam_pwmod cfg env session calleruid w = (Returned (-1), w1)
        /\ tout w1 = tout w /\ calls w1 = calls w)
  /\ (forall o w1, sess_request env w = (o, w1) -> (forall f, o <> Val f) ->
        nslcd_pam_sess_o env session w = (Returned (-1), w1)
        /\ nslcd_pam_sess_c env session w = (Returned (-1), w1)
        /\ tout w1 = tout w /\ calls w1 = calls w).
Proof.
  assert (Hfail : forall A (m : M A) o w1,
            reader_ok m -> m w = (o, w1) -> (forall f, o <> Val f) ->
            m w = (Returned (-1), w1) /\ tout w1 = tout w /\ calls w1 = calls w).
  { intros A m o w1 Hm H Hno. destruct (Hm _ _ _ H) as [Hw [->|[a ->]]].
    - split; [exact H|]. rewrite Hw. split; reflexivity.
    - destruct (Hno a eq_refl). }
  split; [|split; [|split]]; intros o w1 H Hno.
  - destruct (Hfail _ _ _ _ authc_request_ok H Hno) as (H' & Hout & Hcalls).
    split; [|auto]. unfold nslcd_pam_authc.
    rewrite authc_request_bind. apply bind_returned. exact H'.
  - destruct (Hfail _ _ _ _ (authz_request_ok env) H Hno) as (H' & Hout & Hcalls).
    split; [|auto]. unfold nslcd_pam_authz.
    rewrite authz_request_bind. apply bind_returned. exact H'.
  - destruct (Hfail _ _ _ _ pwmod_request_ok H Hno) as (H' & Hout & Hcalls).
    split; [|auto]. unfold nslcd_pam_pwmod.
    rewrite pwmod_request_bind. apply bind_returned. exact H'.
  - destruct (Hfail _ _ _ _ (sess_request_ok env) H Hno) as (H' & Hout & Hcalls).
    split; [|split; [|auto]].
    + unfold nslcd_pam_sess_o.
      rewrite sess_request_bind. apply bind_returned. exact H'.
    + unfold nslcd_pam_sess_c.
      rewrite sess_request_bind. apply bind_returned. exact H'.
Qed.

Lemma handlers_refuse_unreadable_requests_witness :
  let w := world_with (request_bytes ["alice"; ""; "sshd"]%string) in
  nslcd_pam_authc example_cfg (example_env (None, LDAP_SUCCESS)) handler_session
    1000 w
  = (Returned (-1), world_with []).
Proof.
  intros w.
  assert (H : authc_request w = (Returned (-1), world_with []))
    by (vm_compute; reflexivity).
  assert (Hno : forall f : string * string * string * string,
            @Returned (string * string * string * string) (-1) <> Val f)
    by discriminate.
  exact (proj1 (proj1 (handlers_refuse_unreadable_requests example_cfg
                         (example_env (None, LDAP_SUCCESS)) handler_session 1000 w)
                  _ _ H Hno)).
Defined.

(** ** The session handlers *)

(** X22: for a request that can be read, the session-open handler
    answers with one record that holds the fixed session id 12345 and
    the session-close handler with one record that holds 0; both return
    0, whatever the request says, and neither calls the directory or
    anything else. *)
Theorem session_handlers_answer_alone env session w fields w1 :
  sess_request env w = (Val fields, w1) ->
  nslcd_pam_sess_o env session w
  = (Val 0, wrote (response NSLCD_ACTION_PAM_SESS_O [sess_record 12345]) w1)
  /\ nslcd_pam_sess_c env session w
     = (Val 0, wrote (response NSLCD_ACTION_PAM_SESS_C [sess_record 0]) w1)
  /\ tout w1 = tout w /\ calls w1 = calls w /\ sessions w1 = sessions w.
Proof.
  intros H.
  destruct (sess_request_ok env _ _ _ H) as [Hw _].
  destruct fields as [[[[[[username userdn] servicename] tty] rhost] ruser] sid].
  split; [|split].
  - unfold nslcd_pam_sess_o. rewrite sess_request_bind, (bind_val _ _ _ _ _ H).
    repeat run_step. rewrite !wrote_wrote. reflexivity.
  - unfold nslcd_pam_sess_c. rewrite sess_request_bind, (bind_val _ _ _ _ _ H).
    repeat run_step. rewrite !wrote_wrote. reflexivity.
  - rewrite Hw. repeat split.
Qed.

Lemma session_handlers_answer_alone_witness :
  let env := example_env (None, LDAP_SUCCESS) in
  let w := world_with (request_bytes ["alice"; alice_dn; "sshd"; "tty1"; ""; ""]%string
                       ++ int32_bytes 7) in
  tout (snd (nslcd_pam_sess_o env handler_session w))
  = response NSLCD_ACTION_PAM_SESS_O [sess_record 12345].
Proof.
  intros env w.
  assert (H : sess_request env w
              = (Val ("alice", alice_dn, "sshd", "tty1", "", "", 7)%string,
                 world_with []))
    by (vm_compute; reflexivity).
  rewrite (proj1 (session_handlers_answer_alone env handler_session w _ _ H)).
  reflexivity.
Defined.

(** ** More on nslcd_pam_authz *)

Lemma getfqdn_frame env w :
  exists f w', getfqdn env w = (Val f, w')
    /\ tin w' = tin w /\ tout w' = tout w /\ calls w' = calls w
    /\ sessions w' = sessions w.
Proof.
  unfold getfqdn. destruct (fqdn w) as [f|]; [eauto 10|].
  destruct (ans_gethostname env _) as [hostname|]; eauto 10.
Qed.

Lemma authz_after_request cfg env session w
    username userdn servicename ruser rhost tty w1 rc dn un w3 :
  authz_request env w
  = (Val (username, userdn, servicename, ruser, rhost, tty), w1) ->
  validate_user env session userdn 256 username 256
    (after_header NSLCD_ACTION_PAM_AUTHZ w1) = (Val (rc, dn, un), w3) ->
  tout w3 = tout w ++ [WR_INT32 NSLCD_VERSION; WR_INT32 NSLCD_ACTION_PAM_AUTHZ]
  /\ nslcd_pam_authz cfg env session w
     = (if negb (rc =? LDAP_SUCCESS)
        then WRITE_INT32 NSLCD_RESULT_END ;; return_ (-1)
        else
          match ldc_pam_authz_search cfg with
          | Some pam_authz_search =>
              fqdn <- getfqdn env ;;
              rc <- try_autzsearch cfg env session
                      (authz_dict env un servicename ruser rhost tty fqdn dn)
                      pam_authz_search ;;
              if negb (rc =? LDAP_SUCCESS)
              then
                WRITE_INT32 NSLCD_RESULT_BEGIN ;;
                WRITE_STRING un ;;
                WRITE_STRING dn ;;
                WRITE_INT32 NSLCD_PAM_PERM_DENIED ;;
                WRITE_STRING "LDAP authorisation check failed" ;;
                WRITE_INT32 NSLCD_RESULT_END
              else ret tt
          | None => ret tt
          end ;;
          WRITE_INT32 NSLCD_RESULT_BEGIN ;;
          WRITE_STRING un ;;
          WRITE_STRING dn ;;
          WRITE_INT32 NSLCD_PAM_SUCCESS ;;
          WRITE_STRING "" ;;
          WRITE_INT32 NSLCD_RESULT_END ;;
          ret 0) w3.
Proof.
  intros Hreq Hvu.
  destruct (authz_request_ok env _ _ _ Hreq) as [Hw1 _].
  pose proof (validate_user_frame env session userdn 256 username 256
                (after_header NSLCD_ACTION_PAM_AUTHZ w1)) as Hframe.
  rewrite Hvu in Hframe. destruct Hframe as (_ & Hout3 & _).
  split.
  - rewrite Hout3. cbn [after_header wrote tout]. rewrite Hw1. reflexivity.
  - unfold nslcd_pam_authz.
    rewrite authz_request_bind, (bind_val _ _ _ _ _ Hreq).
    do 2 run_step. rewrite wrote_wrote.
    change ([WR_INT32 (to_int32 NSLCD_VERSION)]
            ++ [WR_INT32 (to_int32 NSLCD_ACTION_PAM_AUTHZ)])
      with [WR_INT32 NSLCD_VERSION; WR_INT32 NSLCD_ACTION_PAM_AUTHZ].
    fold (after_header NSLCD_ACTION_PAM_AUTHZ w1).
    rewrite (bind_val _ _ _ _ _ Hvu). reflexivity.
Qed.

(** X23: when [validate_user] does not give LDAP_SUCCESS for an
    authorisation request, the handler returns -1 and its response is
    the header and the end marker, with no record; it makes no call
    after the validation, so no authorisation search is tried. *)
Theorem authz_unresolved_user_gets_no_record cfg env session w
    username userdn servicename ruser rhost tty w1 rc dn un w3 :
  authz_request env w
  = (Val (username, userdn, servicename, ruser, rhost, tty), w1) ->
  validate_user env session userdn 256 username 256
    (after_header NSLCD_ACTION_PAM_AUTHZ w1) = (Val (rc, dn, un), w3) ->
  rc <> LDAP_SUCCESS ->
  let run := nslcd_pam_authz cfg env session w in
  fst run = Returned (-1)
  /\ tout (snd run) = tout w ++ response NSLCD_ACTION_PAM_AUTHZ []
  /\ calls (snd run) = calls w3.
Proof.
  intros Hreq Hvu Hrc run. subst run.
  destruct (authz_after_request cfg _ _ _ _ _ _ _ _ _ _ _ _ _ _ Hreq Hvu)
    as [Hout ->].
  apply Z.eqb_neq in Hrc. rewrite Hrc. cbn [negb].
  repeat run_step. cbn [fst snd return_ wrote tout calls].
  split; [reflexivity|]. split; [|reflexivity].
  rewrite Hout. unfold response. cbn [List.concat app].
  rewrite <- !app_assoc. reflexivity.
Qed.

Lemma authz_unresolved_user_gets_no_record_witness :
  let env := example_env (None, LDAP_SUCCESS) in
  let w := world_with (request_bytes ["mallory"; ""; "sshd"; ""; ""; "tty1"]%string) in
  tout (snd (nslcd_pam_authz example_cfg env handler_session w))
  = tout w ++ response NSLCD_ACTION_PAM_AUTHZ [].
Proof.
  intros env w.
  assert (Hreq : authz_request env w
                 = (Val ("mallory", "", "sshd", "", "", "tty1")%string,
                    world_with []))
    by (vm_compute; reflexivity).
  assert (Hvu : validate_user env handler_session "" 256 "mallory" 256
                  (after_header NSLCD_ACTION_PAM_AUTHZ (world_with []))
                = (Val (LDAP_NO_SUCH_OBJECT, ""%string, "mallory"%string),
                   snd (validate_user env handler_session "" 256 "mallory" 256
                          (after_header NSLCD_ACTION_PAM_AUTHZ (world_with [])))))
    by (vm_compute; reflexivity).
  assert (Hrc : LDAP_NO_SUCH_OBJECT <> LDAP_SUCCESS) by discriminate.
  exact (proj1 (proj2 (authz_unresolved_user_gets_no_record example_cfg env
                         handler_session w _ _ _ _ _ _ _ _ _ _ _ Hreq Hvu Hrc))).
Defined.

(** X24: with no authorisation search configured, an authorisation
    request whose user [validate_user] accepts is answered with exactly
    one record, which carries the username and the DN as validated and
    the success status; the handler returns 0 and makes no call after
    the validation. *)
Theorem authz_without_search_grants cfg env session w
    username userdn servicename ruser rhost tty w1 dn un w3 :
  authz_request env w
  = (Val (username, userdn, servicename, ruser, rhost, tty), w1) ->
  validate_user env session userdn 256 username 256
    (after_header NSLCD_ACTION_PAM_AUTHZ w1) = (Val (LDAP_SUCCESS, dn, un), w3) ->
  ldc_pam_authz_search cfg = None ->
  let run := nslcd_pam_authz cfg env session w in
  fst run = Val 0
  /\ tout (snd run)
     = tout w ++ response NSLCD_ACTION_PAM_AUTHZ
                   [authz_record un dn NSLCD_PAM_SUCCESS ""]
  /\ calls (snd run) = calls w3.
Proof.
  intros Hreq Hvu Hnone run. subst run.
  destruct (authz_after_request cfg _ _ _ _ _ _ _ _ _ _ _ _ _ _ Hreq Hvu)
    as [Hout ->].
  rewrite Hnone. cbn [Z.eqb LDAP_SUCCESS negb].
  repeat run_step. cbn [fst snd ret wrote tout calls].
  split; [reflexivity|]. split; [|reflexivity].
  rewrite Hout. unfold response, authz_record. cbn [List.concat].
  rewrite app_nil_r, <- !app_assoc. reflexivity.
Qed.

Lemma authz_without_search_grants_witness :
  let env := example_env (None, LDAP_SUCCESS) in
  let w := world_with (request_bytes ["alice"; ""; "sshd"; ""; ""; "tty1"]%string) in
  tout (snd (nslcd_pam_authz plain_cfg env handler_session w))
  = tout w ++ response NSLCD_ACTION_PAM_AUTHZ
                [authz_record "alice" alice_dn NSLCD_PAM_SUCCESS ""].
Proof.
  intros env w.
  assert (Hreq : authz_request env w
                 = (Val ("alice", "", "sshd", "", "", "tty1")%string,
                    world_with []))
    by (vm_compute; reflexivity).
  assert (Hvu : validate_user env handler_session "" 256 "alice" 256
                  (after_header NSLCD_ACTION_PAM_AUTHZ (world_with []))
                = (Val (LDAP_SUCCESS, alice_dn, "alice"%string),
                   snd (validate_user env handler_session "" 256 "alice" 256
                          (after_header NSLCD_ACTION_PAM_AUTHZ (world_with [])))))
    by (vm_compute; reflexivity).
  exact (proj1 (proj2 (authz_without_search_grants plain_cfg env
                         handler_session w _ _ _ _ _ _ _ _ _ _ Hreq Hvu eq_refl))).
Defined.

(** X25: with an authorisation search configured, the handler runs it
    once the user is validated, on its own session, with the template
    variables taken from the validated username and DN, the request and
    the host; when the search gives LDAP_SUCCESS the response is exactly
    one record with the success status, and the handler returns 0. *)
Theorem authz_search_success_grants cfg env session w
    username userdn servicename ruser rhost tty w1 dn un w3
    searchfilter fq w4 w5 :
  authz_request env w
  = (Val (username, userdn, servicename, ruser, rhost, tty), w1) ->
  validate_user env session userdn 256 username 256
    (after_header NSLCD_ACTION_PAM_AUTHZ w1) = (Val (LDAP_SUCCESS, dn, un), w3) ->
  ldc_pam_authz_search cfg = Some searchfilter ->
  getfqdn env w3 = (Val fq, w4) ->
  try_autzsearch cfg env session
    (authz_dict env un servicename ruser rhost tty fq dn) searchfilter w4
  = (Val LDAP_SUCCESS, w5) ->
  let run := nslcd_pam_authz cfg env session w in
  fst run = Val 0
  /\ tout (snd run)
     = tout w ++ response NSLCD_ACTION_PAM_AUTHZ
                   [authz_record un dn NSLCD_PAM_SUCCESS ""]
  /\ calls (snd run) = calls w5.
Proof.
  intros Hreq Hvu Hsome Hfq Hsearch run. subst run.
  destruct (authz_after_request cfg _ _ _ _ _ _ _ _ _ _ _ _ _ _ Hreq Hvu)
    as [Hout ->].
  rewrite Hsome. cbn [Z.eqb LDAP_SUCCESS negb].
  run_step. rewrite (bind_val _ _ _ _ _ Hfq).
  run_step. rewrite (bind_val _ _ _ _ _ Hsearch).
  cbn [Z.eqb LDAP_SUCCESS negb].
  repeat run_step. cbn [fst snd ret wrote tout calls].
  split; [reflexivity|]. split; [|reflexivity].
  assert (Hout5 : tout w5 = tout w3).
  { destruct (getfqdn_frame env w3) as (f & w4' & Hfq' & _ & Hout4 & _).
    rewrite Hfq in Hfq'. injection Hfq' as <- <-.
    rewrite try_autzsearch_run in Hsearch.
    destruct (ans_expr_parse env _ _ _); [|discriminate Hsearch].
    cbv zeta in Hsearch.
    destruct (ans_search env session _ _ _ _) as [[handle|] rc];
      injection Hsearch as _ <-; exact Hout4. }
  rewrite Hout5, Hout. unfold response, authz_record. cbn [List.concat].
  rewrite app_nil_r, <- !app_assoc. reflexivity.
Qed.

Lemma authz_search_success_grants_witness :
  let env := example_env (Some 1%nat, LDAP_SUCCESS) in
  let w := world_with (request_bytes ["alice"; ""; "sshd"; ""; ""; "tty1"]%string) in
  tout (snd (nslcd_pam_authz example_cfg env handler_session w))
  = tout w ++ response NSLCD_ACTION_PAM_AUTHZ
                [authz_record "alice" alice_dn NSLCD_PAM_SUCCESS ""].
Proof.
  intros env w.
  assert (Hreq : authz_request env w
                 = (Val ("alice", "", "sshd", "", "", "tty1")%string,
                    world_with []))
    by (vm_compute; reflexivity).
  set (w2 := after_header NSLCD_ACTION_PAM_AUTHZ (world_with [])).
  set (w3 := snd (validate_user env handler_session "" 256 "alice" 256 w2)).
  assert (Hvu : validate_user env handler_session "" 256 "alice" 256 w2
                = (Val (LDAP_SUCCESS, alice_dn, "alice"%string), w3))
    by (vm_compute; reflexivity).
  assert (Hfq : getfqdn env w3
                = (Val (Some "host1.example.com"%string), snd (getfqdn env w3)))
    by (vm_compute; reflexivity).
  assert (Hsearch :
            try_autzsearch example_cfg env handler_session
              (authz_dict env "alice" "sshd" "" "" "tty1"
                 (Some "host1.example.com"%string) alice_dn)
              "(&(objectClass=posixAccount)(uid=$username))"
              (snd (getfqdn env w3))
            = (Val LDAP_SUCCESS,
               snd (try_autzsearch example_cfg env handler_session
                      (authz_dict env "alice" "sshd" "" "" "tty1"
                         (Some "host1.example.com"%string) alice_dn)
                      "(&(objectClass=posixAccount)(uid=$username))"
                      (snd (getfqdn env w3)))))
    by (vm_compute; reflexivity).
  exact (proj1 (proj2 (authz_search_success_grants example_cfg env
                         handler_session w _ _ _ _ _ _ _ _ _ _ _ _ _ _
                         Hreq Hvu eq_refl Hfq Hsearch))).
Defined.

(** ** More on nslcd_pam_pwmod *)

Lemma pwmod_finish env (un dn : string) (rp : Z) w :
  (WRITE_INT32 NSLCD_RESULT_BEGIN ;;
   WRITE_STRING un ;;
   WRITE_STRING dn ;;
   (if rp =? LDAP_SUCCESS
    then WRITE_INT32 NSLCD_PAM_SUCCESS ;; WRITE_STRING ""
    else WRITE_INT32 NSLCD_PAM_PERM_DENIED ;;
         WRITE_STRING (ans_ldap_err2string env rp)) ;;
   WRITE_INT32 NSLCD_RESULT_END ;;
   ret 0) w
  = (Val 0,
     wrote (pwmod_record un dn
              (if rp =? LDAP_SUCCESS then NSLCD_PAM_SUCCESS
               else NSLCD_PAM_PERM_DENIED)
              (if rp =? LDAP_SUCCESS then ""%string
               else ans_ldap_err2string env rp)
            ++ [WR_INT32 NSLCD_RESULT_END]) w).
Proof.
  destruct (rp =? LDAP_SUCCESS); repeat run_step; rewrite !wrote_wrote;
    unfold pwmod_record; rewrite <- !app_assoc; reflexivity.
Qed.

Lemma pwmod_after_request cfg env session calleruid w
    username userdn servicename oldpassword newpassword w1 :
  pwmod_request w
  = (Val (username, userdn, servicename, oldpassword, newpassword), w1) ->
  tout (after_header NSLCD_ACTION_PAM_PWMOD w1)
  = tout w ++ [WR_INT32 NSLCD_VERSION; WR_INT32 NSLCD_ACTION_PAM_PWMOD]
  /\ calls (after_header NSLCD_ACTION_PAM_PWMOD w1) = calls w
  /\ nslcd_pam_pwmod cfg env session calleruid w
     = (chosen <-
          match ldc_rootpwmoddn cfg with
          | Some rootpwmoddn =>
              if strcmp userdn rootpwmoddn =? 0
              then
                match is_empty oldpassword && (calleruid =? 0),
                      ldc_rootpwmodpw cfg with
                | true, Some rootpwmodpw =>
                    if 64 <=? strlen rootpwmodpw then return_ (-1)
                    else ret (Some rootpwmoddn, EmptyString, rootpwmodpw)
                | _, _ => ret (Some rootpwmoddn, EmptyString, oldpassword)
                end
              else ret (None, userdn, oldpassword)
          | None => ret (None, userdn, oldpassword)
          end ;;
        let '(binddn, userdn, oldpassword) := chosen in
        checked <- validate_user env session userdn 256 username 256 ;;
        let '(rc, userdn, username) := checked in
        if negb (rc =? LDAP_SUCCESS)
        then WRITE_INT32 NSLCD_RESULT_END ;; return_ (-1)
        else
          rc <- try_pwmod cfg env (default userdn binddn) userdn oldpassword
                  newpassword ;;
          WRITE_INT32 NSLCD_RESULT_BEGIN ;;
          WRITE_STRING username ;;
          WRITE_STRING userdn ;;
          (if rc =? LDAP_SUCCESS
           then WRITE_INT32 NSLCD_PAM_SUCCESS ;; WRITE_STRING ""
           else WRITE_INT32 NSLCD_PAM_PERM_DENIED ;;
                WRITE_STRING (ans_ldap_err2string env rc)) ;;
          WRITE_INT32 NSLCD_RESULT_END ;;
          ret 0) (after_header NSLCD_ACTION_PAM_PWMOD w1).
Proof.
  intros Hreq.
  destruct (pwmod_request_ok _ _ _ Hreq) as [Hw1 _].
  split; [|split].
  - cbn [after_header wrote tout]. rewrite Hw1. reflexivity.
  - cbn [after_header wrote calls]. rewrite Hw1. reflexivity.
  - unfold nslcd_pam_pwmod.
    rewrite pwmod_request_bind, (bind_val _ _ _ _ _ Hreq).
    do 2 run_step. rewrite wrote_wrote. reflexivity.
Qed.

(** X26: a password change whose DN is not the administrator DN is
    validated as it stands.  When the validation fails the handler
    returns -1 after a response without a record, and no modification
    is tried.  When it succeeds the modification is tried with the
    validated DN both as the identity that binds and as the target, and
    with the old secret of the request; the response is exactly one
    record, with the success status and an empty message when the
    modification gave LDAP_SUCCESS and with the permission-denied status
    and the error text of its code otherwise, and the handler returns
    0. *)
Theorem pwmod_own_password cfg env session calleruid w
    username userdn servicename oldpassword newpassword w1 rc dn un w3 :
  pwmod_request w
  = (Val (username, userdn, servicename, oldpassword, newpassword), w1) ->
  ldc_rootpwmoddn cfg <> Some userdn ->
  validate_user env session userdn 256 username 256
    (after_header NSLCD_ACTION_PAM_PWMOD w1) = (Val (rc, dn, un), w3) ->
  let run := nslcd_pam_pwmod cfg env session calleruid w in
  (rc <> LDAP_SUCCESS ->
   fst run = Returned (-1)
   /\ tout (snd run) = tout w ++ response NSLCD_ACTION_PAM_PWMOD []
   /\ calls (snd run) = calls w3)
  /\ (rc = LDAP_SUCCESS ->
      forall rp w4,
        try_pwmod cfg env dn dn oldpassword newpassword w3 = (Val rp, w4) ->
        fst run = Val 0
        /\ tout (snd run)
           = tout w ++ response NSLCD_ACTION_PAM_PWMOD
               [pwmod_record un dn
                  (if rp =? LDAP_SUCCESS then NSLCD_PAM_SUCCESS
                   else NSLCD_PAM_PERM_DENIED)
                  (if rp =? LDAP_SUCCESS then ""%string
                   else ans_ldap_err2string env rp)]
        /\ calls (snd run) = calls w4).
Proof.
  intros Hreq Hnot Hvu run. subst run.
  destruct (pwmod_after_request cfg env session calleruid _ _ _ _ _ _ _ Hreq)
    as (Hout2 & _ & ->).
  pose proof (validate_user_frame env session userdn 256 username 256
                (after_header NSLCD_ACTION_PAM_PWMOD w1)) as Hframe.
  rewrite Hvu in Hframe. destruct Hframe as (_ & Hout3 & _).
  rewrite Hout2 in Hout3.
  assert (Hchosen :
            match ldc_rootpwmoddn cfg with
            | Some rootpwmoddn =>
                if strcmp userdn rootpwmoddn =? 0
                then
                  match is_empty oldpassword && (calleruid =? 0),
                        ldc_rootpwmodpw cfg with
                  | true, Some rootpwmodpw =>
                      if 64 <=? strlen rootpwmodpw then return_ (-1)
                      else ret (Some rootpwmoddn, EmptyString, rootpwmodpw)
                  | _, _ => ret (Some rootpwmoddn, EmptyString, oldpassword)
                  end
                else ret (None, userdn, oldpassword)
            | None => ret (None, userdn, oldpassword)
            end = @ret (option string * string * string)
                    (None, userdn, oldpassword)).
  { destruct (ldc_rootpwmoddn cfg) as [admin|]; [|reflexivity].
    destruct (strcmp userdn admin =? 0) eqn:E; [|reflexivity].
    apply strcmp_eq in E. subst admin. destruct (Hnot eq_refl). }
  rewrite Hchosen. clear Hchosen.
  run_step. cbv beta iota. rewrite (bind_val _ _ _ _ _ Hvu).
  split.
  - intros Hrc. apply Z.eqb_neq in Hrc. rewrite Hrc. cbn [negb].
    repeat run_step. cbn [fst snd return_ wrote tout calls].
    split; [reflexivity|]. split; [|reflexivity].
    rewrite Hout3. unfold response. cbn [List.concat app].
    rewrite <- !app_assoc. reflexivity.
  - intros -> rp w4 Htp. cbn [Z.eqb LDAP_SUCCESS negb default].
    rewrite (bind_val _ _ _ _ _ Htp), pwmod_finish.
    cbn [fst snd wrote tout calls].
    split; [reflexivity|]. split; [|reflexivity].
    assert (Hout4 : tout w4 = tout w3).
    { rewrite try_pwmod_run in Htp.
      destruct (ans_create_session env (sessions w3));
        [cbv zeta in Htp;
         destruct (ans_lookup_dn2uid env _ dn 256) as [uid rc];
         destruct (match uid with Some _ => _ | None => _ end) as [code mid]|];
        injection Htp as _ <-; reflexivity. }
    rewrite Hout4, Hout3. unfold response. cbn [List.concat].
    rewrite app_nil_r, <- !app_assoc. reflexivity.
Qed.

Lemma pwmod_own_password_witness :
  let env := example_env (None, LDAP_SUCCESS) in
  let w := world_with (request_bytes
                         ["alice"; alice_dn; "passwd"; "wonderland"; "newpw"]%string) in
  let run := nslcd_pam_pwmod example_cfg env handler_session 1000 w in
  fst run = Val 0
  /\ tout (snd run)
     = tout w ++ response NSLCD_ACTION_PAM_PWMOD
                   [pwmod_record "alice" alice_dn NSLCD_PAM_SUCCESS ""].
Proof.
  intros env w.
  assert (Hreq : pwmod_request w
                 = (Val ("alice", alice_dn, "passwd", "wonderland", "newpw")%string,
                    world_with []))
    by (vm_compute; reflexivity).
  assert (Hnot : ldc_rootpwmoddn example_cfg <> Some alice_dn) by discriminate.
  set (w2 := after_header NSLCD_ACTION_PAM_PWMOD (world_with [])).
  set (w3 := snd (validate_user env handler_session alice_dn 256 "alice" 256 w2)).
  assert (Hvu : validate_user env handler_session alice_dn 256 "alice" 256 w2
                = (Val (LDAP_SUCCESS, alice_dn, "alice"%string), w3))
    by (vm_compute; reflexivity).
  assert (Htp : try_pwmod example_cfg env alice_dn alice_dn "wonderland" "newpw" w3
                = (Val LDAP_SUCCESS,
                   snd (try_pwmod example_cfg env alice_dn alice_dn "wonderland"
                          "newpw" w3)))
    by (vm_compute; reflexivity).
  destruct (proj2 (pwmod_own_password example_cfg env handler_session 1000 w
                     _ _ _ _ _ _ _ _ _ _ Hreq Hnot Hvu) eq_refl _ _ Htp)
    as (H1 & H2 & _).
  split; [exact H1|exact H2].
Defined.

(** X27: a password change whose DN is the configured administrator
    DN binds as the administrator and has its target looked up from the
    username alone.  The secret of the bind is the configured
    administrator secret when the request has no old secret, the caller
    is uid 0 and a secret is configured, and the old secret of the
    request otherwise; a configured secret of 64 bytes or more makes
    the handler return -1 with only the header written and nothing
    called.  After a validation that succeeds, the modification is
    tried with the administrator DN as the identity and the validated
    DN as the target, and its result is reported in exactly one
    record. *)
Theorem pwmod_as_administrator cfg env session calleruid w
    username userdn servicename oldpassword newpassword w1 :
  pwmod_request w
  = (Val (username, userdn, servicename, oldpassword, newpassword), w1) ->
  ldc_rootpwmoddn cfg = Some userdn ->
  let run := nslcd_pam_pwmod cfg env session calleruid w in
  let configured :=
    if is_empty oldpassword && (calleruid =? 0) then ldc_rootpwmodpw cfg
    else None in
  let secret := default oldpassword configured in
  (64 <= strlen secret -> configured <> None ->
   fst run = Returned (-1)
   /\ tout (snd run)
      = tout w ++ [WR_INT32 NSLCD_VERSION; WR_INT32 NSLCD_ACTION_PAM_PWMOD]
   /\ calls (snd run) = calls w)
  /\ (strlen secret < 64 \/ configured = None ->
      forall dn un w3 rp w4,
        validate_user env session "" 256 username 256
          (after_header NSLCD_ACTION_PAM_PWMOD w1)
        = (Val (LDAP_SUCCESS, dn, un), w3) ->
        try_pwmod cfg env userdn dn secret newpassword w3 = (Val rp, w4) ->
        fst run = Val 0
        /\ tout (snd run)
           = tout w ++ response NSLCD_ACTION_PAM_PWMOD
               [pwmod_record un dn
                  (if rp =? LDAP_SUCCESS then NSLCD_PAM_SUCCESS
                   else NSLCD_PAM_PERM_DENIED)
                  (if rp =? LDAP_SUCCESS then ""%string
                   else ans_ldap_err2string env rp)]
        /\ calls (snd run) = calls w4).
Proof.
  intros Hreq Hadmin run configured secret. subst run.
  destruct (pwmod_after_request cfg env session calleruid _ _ _ _ _ _ _ Hreq)
    as (Hout2 & Hcalls2 & ->).
  rewrite Hadmin.
  assert (Hsame : (strcmp userdn userdn =? 0) = true)
    by (apply strcmp_eq; reflexivity).
  rewrite Hsame.
  assert (Hfinish : forall dn un w3 rp w4,
            validate_user env session "" 256 username 256
              (after_header NSLCD_ACTION_PAM_PWMOD w1)
            = (Val (LDAP_SUCCESS, dn, un), w3) ->
            try_pwmod cfg env userdn dn secret newpassword w3 = (Val rp, w4) ->
            let run :=
              (chosen <- ret (Some userdn, EmptyString, secret) ;;
               let '(binddn, userdn, oldpassword) := chosen in
               checked <- validate_user env session userdn 256 username 256 ;;
               let '(rc, userdn, username) := checked in
               if negb (rc =? LDAP_SUCCESS)
               then WRITE_INT32 NSLCD_RESULT_END ;; return_ (-1)
               else
                 rc <- try_pwmod cfg env (default userdn binddn) userdn
                         oldpassword newpassword ;;
                 WRITE_INT32 NSLCD_RESULT_BEGIN ;;
                 WRITE_STRING username ;;
                 WRITE_STRING userdn ;;
                 (if rc =? LDAP_SUCCESS
                  then WRITE_INT32 NSLCD_PAM_SUCCESS ;; WRITE_STRING ""
                  else WRITE_INT32 NSLCD_PAM_PERM_DENIED ;;
                       WRITE_STRING (ans_ldap_err2string env rc)) ;;
                 WRITE_INT32 NSLCD_RESULT_END ;;
                 ret 0) (after_header NSLCD_ACTION_PAM_PWMOD w1) in
            fst run = Val 0
            /\ tout (snd run)
               = tout w ++ response NSLCD_ACTION_PAM_PWMOD
                   [pwmod_record un dn
                      (if rp =? LDAP_SUCCESS then NSLCD_PAM_SUCCESS
                       else NSLCD_PAM_PERM_DENIED)
                      (if rp =? LDAP_SUCCESS then ""%string
                       else ans_ldap_err2string env rp)]
            /\ calls (snd run) = calls w4).
  { intros dn un w3 rp w4 Hvu Htp run. subst run.
    pose proof (validate_user_frame env session "" 256 username 256
                  (after_header NSLCD_ACTION_PAM_PWMOD w1)) as Hframe.
    rewrite Hvu in Hframe. destruct Hframe as (_ & Hout3 & _).
    rewrite Hout2 in Hout3.
    run_step. cbv beta iota. rewrite (bind_val _ _ _ _ _ Hvu).
    cbn [Z.eqb LDAP_SUCCESS negb default].
    rewrite (bind_val _ _ _ _ _ Htp), pwmod_finish.
    cbn [fst snd wrote tout calls].
    split; [reflexivity|]. split; [|reflexivity].
    assert (Hout4 : tout w4 = tout w3).
    { rewrite try_pwmod_run in Htp.
      destruct (ans_create_session env (sessions w3));
        [cbv zeta in Htp;
         destruct (ans_lookup_dn2uid env _ dn 256) as [uid rc];
         destruct (match uid with Some _ => _ | None => _ end) as [code mid]|];
        injection Htp as _ <-; reflexivity. }
    rewrite Hout4, Hout3. unfold response. cbn [List.concat].
    rewrite app_nil_r, <- !app_assoc. reflexivity. }
  subst configured secret.
  destruct (is_empty oldpassword && (calleruid =? 0));
    [destruct (ldc_rootpwmodpw cfg) as [rootpwmodpw|]|];
    cbv [default from_option id] in *.
  - split.
    + intros Hlong _. apply Z.leb_le in Hlong. rewrite Hlong.
      run_step. cbn [fst snd return_]. auto.
    + intros [Hfit|Hnone]; [|discriminate Hnone].
      apply Z.leb_gt in Hfit. rewrite Hfit. exact Hfinish.
  - split; [intros _ H; destruct (H eq_refl)|].
    intros _. exact Hfinish.
  - split; [intros _ H; destruct (H eq_refl)|].
    intros _. exact Hfinish.
Qed.

Lemma pwmod_as_administrator_witness :
  let env := example_env (None, LDAP_SUCCESS) in
  let w := world_with (request_bytes
                         ["alice"; admin_dn; "passwd"; ""; "newpw"]%string) in
  let run := nslcd_pam_pwmod example_cfg env handler_session 0 w in
  fst run = Val 0
  /\ tout (snd run)
     = tout w ++ response NSLCD_ACTION_PAM_PWMOD
                   [pwmod_record "alice" alice_dn NSLCD_PAM_SUCCESS ""].
Proof.
  intros env w.
  assert (Hreq : pwmod_request w
                 = (Val ("alice", admin_dn, "passwd", "", "newpw")%string,
                    world_with []))
    by (vm_compute; reflexivity).
  set (w2 := after_header NSLCD_ACTION_PAM_PWMOD (world_with [])).
  set (w3 := snd (validate_user env handler_session "" 256 "alice" 256 w2)).
  assert (Hvu : validate_user env handler_session "" 256 "alice" 256 w2
                = (Val (LDAP_SUCCESS, alice_dn, "alice"%string), w3))
    by (vm_compute; reflexivity).
  assert (Htp : try_pwmod example_cfg env admin_dn alice_dn "adminsecret" "newpw" w3
                = (Val LDAP_SUCCESS,
                   snd (try_pwmod example_cfg env admin_dn alice_dn "adminsecret"
                          "newpw" w3)))
    by (vm_compute; reflexivity).
  assert (Hfit : strlen "adminsecret" < 64) by reflexivity.
  destruct (proj2 (pwmod_as_administrator example_cfg env handler_session 0 w
                     _ _ _ _ _ _ Hreq eq_refl) (or_introl Hfit) _ _ _ _ _ Hvu Htp)
    as (H1 & H2 & _).
  split; [exact H1|exact H2].
Defined.

(** ** More on nslcd_pam_authc *)

Lemma authc_finish env (un dn password : string) w rb w4 :
  try_bind env dn password w = (Val rb, w4) ->
  (rc <- try_bind env dn password ;;
   WRITE_INT32 NSLCD_RESULT_BEGIN ;;
   WRITE_STRING un ;;
   WRITE_STRING dn ;;
   WRITE_INT32 (if rc =? LDAP_SUCCESS then NSLCD_PAM_SUCCESS
                else if rc =? LDAP_INVALID_CREDENTIALS then NSLCD_PAM_AUTH_ERR
                else NSLCD_PAM_AUTH_ERR) ;;
   WRITE_INT32 NSLCD_PAM_SUCCESS ;;
   WRITE_STRING "" ;;
   WRITE_INT32 NSLCD_RESULT_END ;;
   ret 0) w
  = (Val 0,
     wrote (authc_record un dn
              (if rb =? LDAP_SUCCESS then NSLCD_PAM_SUCCESS
               else NSLCD_PAM_AUTH_ERR) NSLCD_PAM_SUCCESS ""
            ++ [WR_INT32 NSLCD_RESULT_END]) w4)
  /\ tout w4 = tout w.
Proof.
  intros Htb.
  destruct (try_bind_frame env dn password w) as (rb' & w4' & Htb' & _ & Hout & _).
  rewrite Htb in Htb'. injection Htb' as <- <-.
  split; [|exact Hout].
  rewrite (bind_val _ _ _ _ _ Htb).
  replace (if rb =? LDAP_SUCCESS then NSLCD_PAM_SUCCESS
           else if rb =? LDAP_INVALID_CREDENTIALS then NSLCD_PAM_AUTH_ERR
                else NSLCD_PAM_AUTH_ERR)
    with (if rb =? LDAP_SUCCESS then NSLCD_PAM_SUCCESS else NSLCD_PAM_AUTH_ERR)
    by (destruct (rb =? LDAP_SUCCESS), (rb =? LDAP_INVALID_CREDENTIALS);
        reflexivity).
  repeat run_step. rewrite !wrote_wrote.
  unfold authc_record. rewrite <- !app_assoc.
  destruct (rb =? LDAP_SUCCESS); reflexivity.
Qed.

Lemma authc_after_request cfg env session calleruid w
    username userdn servicename password w1 :
  authc_request w = (Val (username, userdn, servicename, password), w1) ->
  tout (after_header NSLCD_ACTION_PAM_AUTHC w1)
  = tout w ++ [WR_INT32 NSLCD_VERSION; WR_INT32 NSLCD_ACTION_PAM_AUTHC]
  /\ calls (after_header NSLCD_ACTION_PAM_AUTHC w1) = calls w
  /\ nslcd_pam_authc cfg env session calleruid w
     = (resolved <-
          match is_empty username, ldc_rootpwmoddn cfg with
          | true, Some rootpwmoddn =>
              if 256 <=? strlen rootpwmoddn then return_ (-1)
              else
                match is_empty password && (calleruid =? 0),
                      ldc_rootpwmodpw cfg with
                | true, Some rootpwmodpw =>
                    if 64 <=? strlen rootpwmodpw then return_ (-1)
                    else ret (username, rootpwmoddn, rootpwmodpw)
                | _, _ => ret (username, rootpwmoddn, password)
                end
          | _, _ =>
              checked <- validate_user env session userdn 256 username 256 ;;
              let '(rc, userdn, username) := checked in
              if negb (rc =? LDAP_SUCCESS)
              then
                (if negb (rc =? LDAP_NO_SUCH_OBJECT)
                 then
                   WRITE_INT32 NSLCD_RESULT_BEGIN ;;
                   WRITE_STRING username ;;
                   WRITE_STRING "" ;;
                   WRITE_INT32 NSLCD_PAM_AUTHINFO_UNAVAIL ;;
                   WRITE_INT32 NSLCD_PAM_SUCCESS ;;
                   WRITE_STRING "LDAP server unavaiable"
                 else ret tt) ;;
                WRITE_INT32 NSLCD_RESULT_END ;;
                return_ (-1)
              else ret (username, userdn, password)
          end ;;
        let '(username, userdn, password) := resolved in
        rc <- try_bind env userdn password ;;
        let rc := if rc =? LDAP_SUCCESS then NSLCD_PAM_SUCCESS
                  else if rc =? LDAP_INVALID_CREDENTIALS then NSLCD_PAM_AUTH_ERR
                  else NSLCD_PAM_AUTH_ERR in
        WRITE_INT32 NSLCD_RESULT_BEGIN ;;
        WRITE_STRING username ;;
        WRITE_STRING userdn ;;
        WRITE_INT32 rc ;;
        WRITE_INT32 NSLCD_PAM_SUCCESS ;;
        WRITE_STRING "" ;;
        WRITE_INT32 NSLCD_RESULT_END ;;
        ret 0) (after_header NSLCD_ACTION_PAM_AUTHC w1).
Proof.
  intros Hreq.
  destruct (authc_request_ok _ _ _ Hreq) as [Hw1 _].
  split; [|split].
  - cbn [after_header wrote tout]. rewrite Hw1. reflexivity.
  - cbn [after_header wrote calls]. rewrite Hw1. reflexivity.
  - unfold nslcd_pam_authc.
    rewrite authc_request_bind, (bind_val _ _ _ _ _ Hreq).
    do 2 run_step. rewrite wrote_wrote. reflexivity.
Qed.

(** X28: an authentication request with an empty username, under a
    configured administrator DN that fits the DN buffer, is answered
    for the administrator: whatever DN the request carried, the one
    record of the response holds the empty username and the
    administrator DN, with the success status when the bind as the
    administrator gave LDAP_SUCCESS and the authentication-error status
    for every other code; the handler returns 0. *)
Theorem authc_as_administrator cfg env session calleruid w
    userdn servicename password w1 admin :
  authc_request w = (Val (EmptyString, userdn, servicename, password), w1) ->
  ldc_rootpwmoddn cfg = Some admin ->
  strlen admin < 256 ->
  let run := nslcd_pam_authc cfg env session calleruid w in
  let configured :=
    if is_empty password && (calleruid =? 0) then ldc_rootpwmodpw cfg
    else None in
  let secret := default password configured in
  strlen secret < 64 \/ configured = None ->
  forall rb w4,
    try_bind env admin secret (after_header NSLCD_ACTION_PAM_AUTHC w1)
    = (Val rb, w4) ->
    fst run = Val 0
    /\ tout (snd run)
       = tout w ++ response NSLCD_ACTION_PAM_AUTHC
           [authc_record "" admin
              (if rb =? LDAP_SUCCESS then NSLCD_PAM_SUCCESS
               else NSLCD_PAM_AUTH_ERR) NSLCD_PAM_SUCCESS ""]
    /\ calls (snd run) = calls w4.
Proof.
  intros Hreq Hadmin Hfits run configured secret Hsecret rb w4 Htb. subst run.
  destruct (authc_after_request cfg env session calleruid _ _ _ _ _ _ Hreq)
    as (Hout2 & _ & ->).
  rewrite Hadmin. cbn [is_empty].
  apply Z.leb_gt in Hfits. rewrite Hfits.
  assert (Hresolved :
            match is_empty password && (calleruid =? 0), ldc_rootpwmodpw cfg with
            | true, Some rootpwmodpw =>
                if 64 <=? strlen rootpwmodpw then return_ (-1)
                else ret (EmptyString, admin, rootpwmodpw)
            | _, _ => ret (EmptyString, admin, password)
            end = @ret (string * string * string) (EmptyString, admin, secret)).
  { subst secret configured.
    destruct (is_empty password && (calleruid =? 0));
      [destruct (ldc_rootpwmodpw cfg) as [rootpwmodpw|]|];
      cbv [default from_option id] in *; try reflexivity.
    destruct Hsecret as [Hfit|Hnone]; [|discriminate Hnone].
    apply Z.leb_gt in Hfit. rewrite Hfit. reflexivity. }
  rewrite Hresolved. run_step. cbv beta iota.
  destruct (authc_finish env "" admin secret _ _ _ Htb) as [-> Hout4].
  cbn [fst snd wrote tout calls].
  split; [reflexivity|]. split; [|reflexivity].
  rewrite Hout4, Hout2. unfold response. cbn [List.concat].
  rewrite app_nil_r, <- !app_assoc. reflexivity.
Qed.

Lemma authc_as_administrator_witness :
  let env := example_env (None, LDAP_SUCCESS) in
  let w := world_with (request_bytes [""; alice_dn; "passwd"; ""]%string) in
  let run := nslcd_pam_authc example_cfg env handler_session 0 w in
  fst run = Val 0
  /\ tout (snd run)
     = tout w ++ response NSLCD_ACTION_PAM_AUTHC
                   [authc_record "" admin_dn NSLCD_PAM_SUCCESS NSLCD_PAM_SUCCESS ""].
Proof.
  intros env w.
  assert (Hreq : authc_request w
                 = (Val ("", alice_dn, "passwd", "")%string, world_with []))
    by (vm_compute; reflexivity).
  assert (Hfits : strlen admin_dn < 256) by reflexivity.
  assert (Hfit : strlen "adminsecret" < 64) by reflexivity.
  set (w2 := after_header NSLCD_ACTION_PAM_AUTHC (world_with [])).
  assert (Htb : try_bind env admin_dn "adminsecret" w2
                = (Val LDAP_SUCCESS, snd (try_bind env admin_dn "adminsecret" w2)))
    by (vm_compute; reflexivity).
  destruct (authc_as_administrator example_cfg env handler_session 0 w
              _ _ _ _ _ Hreq eq_refl Hfits (or_introl Hfit) _ _ Htb)
    as (H1 & H2 & _).
  split; [exact H1|exact H2].
Defined.

(** X29: on the normal path, once [validate_user] has accepted the
    user, the one record of the authentication response carries the
    username and the DN as validated, and its status is success when
    the bind with that DN and the request's secret gave LDAP_SUCCESS
    and authentication error for every other code; the authorisation
    status of the record is always success and its message empty, and
    the handler returns 0. *)
Theorem authc_reports_the_bind cfg env session calleruid w
    username userdn servicename password w1 dn un w3 rb w4 :
  authc_request w = (Val (username, userdn, servicename, password), w1) ->
  username <> EmptyString \/ ldc_rootpwmoddn cfg = None ->
  validate_user env session userdn 256 username 256
    (after_header NSLCD_ACTION_PAM_AUTHC w1) = (Val (LDAP_SUCCESS, dn, un), w3) ->
  try_bind env dn password w3 = (Val rb, w4) ->
  let run := nslcd_pam_authc cfg env session calleruid w in
  fst run = Val 0
  /\ tout (snd run)
     = tout w ++ response NSLCD_ACTION_PAM_AUTHC
         [authc_record un dn
            (if rb =? LDAP_SUCCESS then NSLCD_PAM_SUCCESS
             else NSLCD_PAM_AUTH_ERR) NSLCD_PAM_SUCCESS ""]
  /\ calls (snd run) = calls w4.
Proof.
  intros Hreq Hnormal Hvu Htb run. subst run.
  destruct (authc_after_request cfg env session calleruid _ _ _ _ _ _ Hreq)
    as (Hout2 & _ & ->).
  pose proof (validate_user_frame env session userdn 256 username 256
                (after_header NSLCD_ACTION_PAM_AUTHC w1)) as Hframe.
  rewrite Hvu in Hframe. destruct Hframe as (_ & Hout3 & _).
  rewrite Hout2 in Hout3.
  destruct (authc_finish env un dn password _ _ _ Htb) as [Hfinish Hout4].
  assert (Hgoal :
    let run :=
      (resolved <-
         (checked <- validate_user env session userdn 256 username 256 ;;
          let '(rc, userdn, username) := checked in
          if negb (rc =? LDAP_SUCCESS)
          then
            (if negb (rc =? LDAP_NO_SUCH_OBJECT)
             then
               WRITE_INT32 NSLCD_RESULT_BEGIN ;;
               WRITE_STRING username ;;
               WRITE_STRING "" ;;
               WRITE_INT32 NSLCD_PAM_AUTHINFO_UNAVAIL ;;
               WRITE_INT32 NSLCD_PAM_SUCCESS ;;
               WRITE_STRING "LDAP server unavaiable"
             else ret tt) ;;
            WRITE_INT32 NSLCD_RESULT_END ;;
            return_ (-1)
          else ret (username, userdn, password)) ;;
       let '(username, userdn, password) := resolved in
       rc <- try_bind env userdn password ;;
       let rc := if rc =? LDAP_SUCCESS then NSLCD_PAM_SUCCESS
                 else if rc =? LDAP_INVALID_CREDENTIALS then NSLCD_PAM_AUTH_ERR
                 else NSLCD_PAM_AUTH_ERR in
       WRITE_INT32 NSLCD_RESULT_BEGIN ;;
       WRITE_STRING username ;;
       WRITE_STRING userdn ;;
       WRITE_INT32 rc ;;
       WRITE_INT32 NSLCD_PAM_SUCCESS ;;
       WRITE_STRING "" ;;
       WRITE_INT32 NSLCD_RESULT_END ;;
       ret 0) (after_header NSLCD_ACTION_PAM_AUTHC w1) in
    fst run = Val 0
    /\ tout (snd run)
       = tout w ++ response NSLCD_ACTION_PAM_AUTHC
           [authc_record un dn
              (if rb =? LDAP_SUCCESS then NSLCD_PAM_SUCCESS
               else NSLCD_PAM_AUTH_ERR) NSLCD_PAM_SUCCESS ""]
    /\ calls (snd run) = calls w4).
  { cbv zeta. rewrite bind_assoc, (bind_val _ _ _ _ _ Hvu).
    cbn [Z.eqb LDAP_SUCCESS negb]. run_step. cbv beta iota.
    rewrite Hfinish. cbn [fst snd wrote tout calls].
    split; [reflexivity|]. split; [|reflexivity].
    rewrite Hout4, Hout3. unfold response. cbn [List.concat].
    rewrite app_nil_r, <- !app_assoc. reflexivity. }
  destruct Hnormal as [Hne|Hnone].
  - destruct (is_empty username) eqn:Hu;
      [apply is_empty_true in Hu; contradiction|].
    exact Hgoal.
  - rewrite Hnone. destruct (is_empty username); exact Hgoal.
Qed.

Lemma authc_reports_the_bind_witness :
  let env := example_env (None, LDAP_SUCCESS) in
  let w := world_with (request_bytes ["alice"; ""; "sshd"; "wonderland"]%string) in
  let run := nslcd_pam_authc example_cfg env handler_session 1000 w in
  fst run = Val 0
  /\ tout (snd run)
     = tout w ++ response NSLCD_ACTION_PAM_AUTHC
                   [authc_record "alice" alice_dn NSLCD_PAM_SUCCESS
                      NSLCD_PAM_SUCCESS ""].
Proof.
  intros env w.
  assert (Hreq : authc_request w
                 = (Val ("alice", "", "sshd", "wonderland")%string, world_with []))
    by (vm_compute; reflexivity).
  assert (Hne : "alice"%string <> EmptyString) by discriminate.
  set (w2 := after_header NSLCD_ACTION_PAM_AUTHC (world_with [])).
  set (w3 := snd (validate_user env handler_session "" 256 "alice" 256 w2)).
  assert (Hvu : validate_user env handler_session "" 256 "alice" 256 w2
                = (Val (LDAP_SUCCESS, alice_dn, "alice"%string), w3))
    by (vm_compute; reflexivity).
  assert (Htb : try_bind env alice_dn "wonderland" w3
                = (Val LDAP_SUCCESS, snd (try_bind env alice_dn "wonderland" w3)))
    by (vm_compute; reflexivity).
  destruct (authc_reports_the_bind example_cfg env handler_session 1000 w
              _ _ _ _ _ _ _ _ _ _ Hreq (or_introl Hne) Hvu Htb)
    as (H1 & H2 & _).
  split; [exact H1|exact H2].
Defined.
